(** * server.js: the M-Pesa STK-push backend

    A shallow embedding of [src/server.js]: the in-memory transaction
    registry, the [/api/mpesa/stk-push] handler and the
    [/api/mpesa/callback] handler, with the properties of the lifecycle
    they implement.

    Modelling conventions.

    - A JavaScript string is a sequence of code units; here one [ascii]
      stands for one code unit, so the development covers the strings
      whose code units are below 256.
    - A JSON document is a [value]. A [number] is a double up to the
      sign of zero: the handlers test a number for truthiness, compare
      it with [===] and as a [Map] key, hand it to [parseInt] and copy
      it, and none of these tells [-0] from [0].
    - [parseInt(v)] throws exactly when [v] has no string, which is
      decided here ([ToString_throws]); the number it returns otherwise
      is an input of the model, as the handlers only forward and store
      it.
    - An object is an association list; a property read takes the first
      binding of the name.
    - Handlers run in a state-and-exception monad over the [world]: the
      [transactions] registry and the list of outbound HTTP requests made
      so far. The process environment, the gateway ([axios]) and the
      clock ([new Date()]) are inputs of the model.
    - The texts of [TypeError] messages follow V8; no property depends
      on them.
    - [console.log]/[console.error] are not modelled. *)

From Stdlib Require Import ZArith NArith List String Ascii Bool Lia.
From Stdlib Require Import DecimalString.
From Stdlib Require DecimalN.
Import ListNotations.
Open Scope string_scope.
Set Warnings "-register-all".

(* ================================================================= *)
(** ** Strings *)

Module Str.

(** [String.prototype.startsWith(p)]. *)
Fixpoint startsWith (p s : string) : bool :=
  match p, s with
  | EmptyString, _ => true
  | String a p', String b s' => Ascii.eqb a b && startsWith p' s'
  | String _ _, EmptyString => false
  end.

(** [String.prototype.slice(n)] for a non-negative [n]: the string
    without its first [n] code units. *)
Fixpoint slice (n : nat) (s : string) : string :=
  match n, s with
  | O, _ => s
  | S n', String _ s' => slice n' s'
  | S _, EmptyString => EmptyString
  end.

(** [String.prototype.substring(0, n)]: the first [n] code units, or
    the whole string when it is shorter. *)
Fixpoint take (n : nat) (s : string) : string :=
  match n, s with
  | O, _ => EmptyString
  | S n', String a s' => String a (take n' s')
  | S _, EmptyString => EmptyString
  end.

Definition substring (start stop : nat) (s : string) : string :=
  take (stop - start) (slice start s).

(** White space and line terminators with a code unit below 256:
    TAB, LF, VT, FF, CR, SPACE and NO-BREAK SPACE. *)
Definition isWhiteSpace (a : ascii) : bool :=
  let n := nat_of_ascii a in
  ((9 <=? n)%nat && (n <=? 13)%nat) || (n =? 32)%nat || (n =? 160)%nat.

Fixpoint trimStart (s : string) : string :=
  match s with
  | String a s' => if isWhiteSpace a then trimStart s' else s
  | EmptyString => EmptyString
  end.

(** [trimEnd] drops the white space that is followed by white space
    only. *)
Fixpoint trimEnd (s : string) : string :=
  match s with
  | EmptyString => EmptyString
  | String a s' =>
      match trimEnd s' with
      | EmptyString => if isWhiteSpace a then EmptyString else String a EmptyString
      | t => String a t
      end
  end.

(** [String.prototype.trim()]. *)
Definition trim (s : string) : string := trimEnd (trimStart s).

(** [String(n)] for a natural number. *)
Definition ofN (n : N) : string := NilZero.string_of_uint (N.to_uint n).

Fixpoint repeat (a : ascii) (n : nat) : string :=
  match n with
  | O => EmptyString
  | S n' => String a (repeat a n')
  end.

(** [String.prototype.padStart(len, fill)] with a one-character
    [fill]. *)
Definition padStart (len : nat) (fill : ascii) (s : string) : string :=
  repeat fill (len - String.length s) ++ s.

End Str.

(* ================================================================= *)
(** ** Phone normalisation (server.js, lines 99-107) *)

(** The value of [formattedPhone] after the [if]/[else if] chain, as a
    function of the request's [phone] string. *)
Definition formattedPhone (phone : string) : string :=
  let formattedPhone := Str.trim phone in
  if Str.startsWith "0" formattedPhone then
    "254" ++ Str.slice 1 formattedPhone
  else if Str.startsWith "+254" formattedPhone then
    Str.slice 1 formattedPhone
  else if negb (Str.startsWith "254" formattedPhone) then
    "254" ++ formattedPhone
  else
    formattedPhone.

(* ================================================================= *)
(** ** JSON values *)

(** A JavaScript number, up to the sign of zero. A finite number other
    than zero is [(2 * half + 1) * 2 ^ exponent], negated when
    [negative]; a number has one odd part and one exponent, so two
    numbers are the same double exactly when they are equal here. The
    type does not bound [half] and [exponent]: it holds every double and
    more. *)
Inductive number : Type :=
| NaN
| Infinity (negative : bool)
| Zero
| Finite (negative : bool) (half : N) (exponent : Z).

(** The odd part of [p * 2 ^ exponent] (as its half, rounded down) and
    the exponent that goes with it. *)
Fixpoint odd_part (p : positive) (exponent : Z) : N * Z :=
  match p with
  | xO q => odd_part q (exponent + 1)
  | xI q => (Npos q, exponent)
  | xH => (0%N, exponent)
  end.

(** The number with integer value [z]. *)
Definition Num (z : Z) : number :=
  match z with
  | Z0 => Zero
  | Zpos p => let (half, exponent) := odd_part p 0 in Finite false half exponent
  | Zneg p => let (half, exponent) := odd_part p 0 in Finite true half exponent
  end.

Inductive value : Type :=
| VUndefined
| VNull
| VBool (b : bool)
| VNumber (n : number)
| VString (s : string)
| VArray (elements : list value)
| VObject (properties : list (string * value)).

Definition VNum (z : Z) : value := VNumber (Num z).

(** [ToBoolean]: [undefined], [null], [false], [0], [NaN] and the empty
    string are falsy; every object and array is truthy. *)
Definition truthy (v : value) : bool :=
  match v with
  | VUndefined | VNull => false
  | VBool b => b
  | VNumber NaN | VNumber Zero => false
  | VNumber (Infinity _) | VNumber (Finite _ _ _) => true
  | VString s => negb (s =? "")
  | VArray _ | VObject _ => true
  end.

(** [a === b] on numbers: [NaN] differs from itself. *)
Definition number_strict_equals (a b : number) : bool :=
  match a, b with
  | Infinity x, Infinity y => Bool.eqb x y
  | Zero, Zero => true
  | Finite x h e, Finite y h' e' => Bool.eqb x y && (h =? h')%N && (e =? e')%Z
  | _, _ => false
  end.

(** [a === b]. An object or an array is only equal to itself; the
    handlers compare a property of a parsed document with a literal or
    with a key held by the registry, which is never the same object. *)
Definition strict_equals (a b : value) : bool :=
  match a, b with
  | VUndefined, VUndefined => true
  | VNull, VNull => true
  | VBool x, VBool y => Bool.eqb x y
  | VNumber x, VNumber y => number_strict_equals x y
  | VString x, VString y => (x =? y)
  | _, _ => false
  end.

(** SameValueZero, the key equality of [Map]: as [===], except that
    [NaN] equals [NaN]. *)
Definition same_value_zero (a b : value) : bool :=
  match a, b with
  | VNumber NaN, VNumber NaN => true
  | _, _ => strict_equals a b
  end.

Fixpoint lookup (name : string) (properties : list (string * value)) : value :=
  match properties with
  | [] => VUndefined
  | (k, v) :: rest => if (k =? name) then v else lookup name rest
  end.

(* ================================================================= *)
(** ** Exceptions and the handler monad *)

(** What a handler can catch: a [TypeError] raised by the language, or
    the error [axios] rejects with; [response_data] is
    [error.response.data] when the gateway answered. *)
Inductive error : Type :=
| TypeError (message : string)
| AxiosError (message : string) (response_data : option value).

(** [error.response?.data || error.message]. *)
Definition error_details (e : error) : value :=
  match e with
  | TypeError message => VString message
  | AxiosError message None => VString message
  | AxiosError message (Some data) => if truthy data then data else VString message
  end.

Inductive result (A : Type) : Type :=
| Return (a : A)
| Throw (e : error).
Arguments Return {A} a.
Arguments Throw {A} e.

(* ================================================================= *)
(** ** The transaction registry (server.js, line 27) *)

(** A [Date]: the instant ([getTime], milliseconds since the epoch) and
    the local-time fields its getters return. *)
Record Date : Type := mkDate {
  getTime : Z;
  getFullYear : N;
  getMonth : N;
  getDate : N;
  getHours : N;
  getMinutes : N;
  getSeconds : N
}.

(** The three values the code assigns to [status]. *)
Inductive Status : Type :=
| pending
| completed
| failed.

(** The object stored for a payment request. The first six properties
    are written by the STK-push handler; the others exist only once the
    callback handler has assigned them ([None]: never assigned). *)
Record transaction : Type := mkTransaction {
  phone : string;
  amount : number;
  accountRef : value;
  status : Status;
  createdAt : Date;
  customerMessage : value;
  completedAt : option Date;
  actualAmount : option value;
  receiptNumber : option value;
  transactionDate : option value;
  payerPhone : option value;
  errorMessage : option value
}.

Definition set_status (x : Status) (t : transaction) : transaction :=
  mkTransaction (phone t) (amount t) (accountRef t) x (createdAt t)
    (customerMessage t) (completedAt t) (actualAmount t) (receiptNumber t)
    (transactionDate t) (payerPhone t) (errorMessage t).

Definition set_completedAt (x : Date) (t : transaction) : transaction :=
  mkTransaction (phone t) (amount t) (accountRef t) (status t) (createdAt t)
    (customerMessage t) (Some x) (actualAmount t) (receiptNumber t)
    (transactionDate t) (payerPhone t) (errorMessage t).

Definition set_actualAmount (x : value) (t : transaction) : transaction :=
  mkTransaction (phone t) (amount t) (accountRef t) (status t) (createdAt t)
    (customerMessage t) (completedAt t) (Some x) (receiptNumber t)
    (transactionDate t) (payerPhone t) (errorMessage t).

Definition set_receiptNumber (x : value) (t : transaction) : transaction :=
  mkTransaction (phone t) (amount t) (accountRef t) (status t) (createdAt t)
    (customerMessage t) (completedAt t) (actualAmount t) (Some x)
    (transactionDate t) (payerPhone t) (errorMessage t).

Definition set_transactionDate (x : value) (t : transaction) : transaction :=
  mkTransaction (phone t) (amount t) (accountRef t) (status t) (createdAt t)
    (customerMessage t) (completedAt t) (actualAmount t) (receiptNumber t)
    (Some x) (payerPhone t) (errorMessage t).

Definition set_payerPhone (x : value) (t : transaction) : transaction :=
  mkTransaction (phone t) (amount t) (accountRef t) (status t) (createdAt t)
    (customerMessage t) (completedAt t) (actualAmount t) (receiptNumber t)
    (transactionDate t) (Some x) (errorMessage t).

Definition set_errorMessage (x : value) (t : transaction) : transaction :=
  mkTransaction (phone t) (amount t) (accountRef t) (status t) (createdAt t)
    (customerMessage t) (completedAt t) (actualAmount t) (receiptNumber t)
    (transactionDate t) (payerPhone t) (Some x).

(** [new Map()]: the entries in insertion order, keyed by any value
    under SameValueZero. Each entry holds its own transaction object, so
    an assignment to a property of the object [Map.get] returned is an
    update of the entry ([Map.update]). *)
Module Map.

Definition t : Type := list (value * transaction).

Definition empty : t := [].

Fixpoint get (key : value) (m : t) : option transaction :=
  match m with
  | [] => None
  | (k, v) :: rest => if same_value_zero k key then Some v else get key rest
  end.

Definition has (key : value) (m : t) : bool :=
  match get key m with
  | Some _ => true
  | None => false
  end.

(** [Map.prototype.set]: the value of an existing key is replaced where
    it stands; a new key is appended. *)
Fixpoint set (key : value) (v : transaction) (m : t) : t :=
  match m with
  | [] => [(key, v)]
  | (k, v') :: rest =>
      if same_value_zero k key then (k, v) :: rest else (k, v') :: set key v rest
  end.

(** An assignment [f] to the object stored under [key]. *)
Fixpoint update (key : value) (f : transaction -> transaction) (m : t) : t :=
  match m with
  | [] => []
  | (k, v) :: rest =>
      if same_value_zero k key then (k, f v) :: rest else (k, v) :: update key f rest
  end.

End Map.

(** An HTTP request sent with [axios]. *)
Inductive authorization : Type :=
| Basic (auth : string)
| Bearer (accessToken : value).

Record stkPushPayload : Type := mkPayload {
  BusinessShortCode : option string;
  Password : string;
  Timestamp : string;
  TransactionType : string;
  Amount : number;
  PartyA : string;
  PartyB : option string;
  PhoneNumber : string;
  CallBackURL : string;
  AccountReference : string;
  TransactionDesc : string
}.

Inductive request : Type :=
| axios_get (url : string) (Authorization : authorization) (timeout : Z)
| axios_post (url : string) (data : stkPushPayload)
    (Authorization : authorization) (timeout : Z).

(** The state a handler runs in. *)
Record world : Type := mkWorld {
  transactions : Map.t;
  requests : list request
}.

Definition M (A : Type) : Type := world -> result A * world.

Definition ret {A} (a : A) : M A := fun w => (Return a, w).

Definition throw {A} (e : error) : M A := fun w => (Throw e, w).

Definition bind {A B} (m : M A) (k : A -> M B) : M B :=
  fun w =>
    match m w with
    | (Return a, w') => k a w'
    | (Throw e, w') => (Throw e, w')
    end.

Notation "x <- m ;; k" := (bind m (fun x => k))
  (at level 100, m at next level, right associativity).
Notation "m ;;; k" := (bind m (fun _ => k))
  (at level 100, right associativity).

(** [try { m } catch (error) { handler(error) }]. *)
Definition try_catch {A} (m : M A) (handler : error -> M A) : M A :=
  fun w =>
    match m w with
    | (Return a, w') => (Return a, w')
    | (Throw e, w') => handler e w'
    end.

Definition when (b : bool) (m : M unit) : M unit :=
  if b then m else ret tt.

(** [o.name]: a [TypeError] on [undefined] and [null]; [undefined] on a
    primitive or an array (none of the names the handlers read is a
    property of those); the property of an object. *)
Definition prop (o : value) (name : string) : M value :=
  match o with
  | VUndefined =>
      throw (TypeError ("Cannot read properties of undefined (reading '" ++ name ++ "')"))
  | VNull =>
      throw (TypeError ("Cannot read properties of null (reading '" ++ name ++ "')"))
  | VObject properties => ret (lookup name properties)
  | _ => ret VUndefined
  end.

(** [a && b] where evaluating [b] may throw. *)
Definition and_then (a : M value) (b : M value) : M value :=
  x <- a ;; if truthy x then b else ret x.

(** [array.forEach(f)]. *)
Fixpoint forEach {A} (f : A -> M unit) (l : list A) : M unit :=
  match l with
  | [] => ret tt
  | x :: rest => f x ;;; forEach f rest
  end.

(** [o.forEach(f)]: only an array has the method; on any other truthy
    JSON value the call is a [TypeError]. *)
Definition call_forEach (o : value) (f : value -> M unit) : M unit :=
  match o with
  | VArray elements => forEach f elements
  | VUndefined | VNull => x <- prop o "forEach" ;; ret tt
  | _ => throw (TypeError "stkCallback.CallbackMetadata.Item.forEach is not a function")
  end.

(** [transaction.<property> = x] on the object stored under [key]. *)
Definition assign (key : value) (f : transaction -> transaction) : M unit :=
  fun w => (Return tt, mkWorld (Map.update key f (transactions w)) (requests w)).

Definition Map_set (key : value) (v : transaction) : M unit :=
  fun w => (Return tt, mkWorld (Map.set key v (transactions w)) (requests w)).

Definition Map_has (key : value) : M bool :=
  fun w => (Return (Map.has key (transactions w)), w).

(** The response a handler sends: [res.status(code).json(body)]. *)
Record response : Type := mkResponse {
  statusCode : nat;
  json : value
}.

Definition Map_get (key : value) : M (option transaction) :=
  fun w => (Return (Map.get key (transactions w)), w).

(* ================================================================= *)
(** ** Callback endpoint (server.js, lines 166-212) *)

(** [transactions.set(key, transaction)] where [transaction] is the
    object stored under [ref]. *)
Definition Map_set_object (key ref : value) : M unit :=
  stored <- Map_get ref ;;
  match stored with
  | Some object => Map_set key object
  | None => ret tt
  end.

(** One [if (item.Name === name) transaction.<property> = item.Value]
    of the [forEach] callback; [ref] names the object [transaction]
    refers to by the key it is stored under. *)
Definition copy_item (ref item : value) (name : string)
    (property : value -> transaction -> transaction) : M unit :=
  Name <- prop item "Name" ;;
  when (strict_equals Name (VString name))
    (Value <- prop item "Value" ;; assign ref (property Value)).

Definition copy_metadata (ref item : value) : M unit :=
  copy_item ref item "Amount" set_actualAmount ;;;
  copy_item ref item "MpesaReceiptNumber" set_receiptNumber ;;;
  copy_item ref item "TransactionDate" set_transactionDate ;;;
  copy_item ref item "PhoneNumber" set_payerPhone.

(** The response of lines 200-203. *)
Definition acknowledgment : response :=
  mkResponse 200
    (VObject [("ResultCode", VNum 0); ("ResultDesc", VString "Success")]).

(** The [try] block. *)
Definition callback_try (callbackData : value) (now : Date) : M response :=
  stkCallback <- and_then (prop callbackData "Body")
                   (Body <- prop callbackData "Body" ;; prop Body "stkCallback") ;;
  when (truthy stkCallback)
    (checkoutRequestId <- prop stkCallback "CheckoutRequestID" ;;
     resultCode <- prop stkCallback "ResultCode" ;;
     known <- Map_has checkoutRequestId ;;
     when known
       (let ref := checkoutRequestId in
        (if strict_equals resultCode (VNum 0) then
           assign ref (set_status completed) ;;;
           assign ref (set_completedAt now) ;;;
           Item <- and_then (prop stkCallback "CallbackMetadata")
                     (CallbackMetadata <- prop stkCallback "CallbackMetadata" ;;
                      prop CallbackMetadata "Item") ;;
           when (truthy Item) (call_forEach Item (copy_metadata ref))
         else
           assign ref (set_status failed) ;;;
           ResultDesc <- prop stkCallback "ResultDesc" ;;
           assign ref (set_errorMessage ResultDesc)) ;;;
        Map_set_object checkoutRequestId ref)) ;;;
  ret acknowledgment.

Definition negative_acknowledgment : response :=
  mkResponse 500
    (VObject [("ResultCode", VNum 1); ("ResultDesc", VString "Failed")]).

(** The [catch] block. *)
Definition callback_catch (e : error) : response := negative_acknowledgment.

(** [app.post('/api/mpesa/callback', ...)] on the request body
    [callbackData], with [now] the value of [new Date()]. *)
Definition callback (callbackData : value) (now : Date) (w : world)
    : response * world :=
  match callback_try callbackData now w with
  | (Return res, w') => (res, w')
  | (Throw e, w') => (callback_catch e, w')
  end.

(* ================================================================= *)
(** ** Configuration, credentials and the STK-push endpoint *)

(** A template literal's rendering of an environment variable. *)
Definition template (x : option string) : string :=
  match x with
  | Some s => s
  | None => "undefined"
  end.

Record config : Type := mkConfig {
  consumerKey : option string;
  consumerSecret : option string;
  shortcode : option string;
  lipaNaMpesaOnlinePasskey : option string;
  callbackUrl : string
}.

(** [const { phone, amount, accountRef } = o] starts by requiring [o]
    to be neither [undefined] nor [null]. *)
Definition destructurable (o : value) : M unit :=
  match o with
  | VUndefined =>
      throw (TypeError "Cannot destructure property 'phone' of 'req.body' as it is undefined.")
  | VNull =>
      throw (TypeError "Cannot destructure property 'phone' of 'req.body' as it is null.")
  | _ => ret tt
  end.

(** The receiver of [o.trim()] or [o.substring(...)], [o] a truthy JSON
    value: only a string has these methods; on any other value the call
    is a [TypeError]. [callee] is the text of the callee in the message. *)
Definition string_method (o : value) (callee : string) : M string :=
  match o with
  | VString s => ret s
  | _ => throw (TypeError (callee ++ " is not a function"))
  end.

(* ================================================================= *)
(** ** Built-ins of the platform: string conversion and [Buffer] *)

(** The conversion of a JSON value to a string, which [parseInt(v)] and
    a template literal start with, throws on some values. An object
    parsed from JSON with a property of its own named [toString] hides
    the inherited method with a value that cannot be called, and the
    conversion has nothing else to call. The string of an array joins
    the strings of its elements (those of [undefined] and [null] are
    empty), so an array throws when one of its elements does. Every
    other value has a string. *)
Fixpoint ToString_throws (v : value) : bool :=
  match v with
  | VObject properties =>
      existsb (fun property => fst property =? "toString") properties
  | VArray elements => existsb ToString_throws elements
  | _ => false
  end.

(** The conversion as a step of a handler; the string itself is not
    needed. *)
Definition ToString (v : value) : M unit :=
  if ToString_throws v then
    throw (TypeError "Cannot convert object to primitive value")
  else ret tt.

(** [Buffer.from(str)]: the UTF-8 bytes of a string of code units
    below 256. *)
Fixpoint utf8 (str : string) : list N :=
  match str with
  | EmptyString => []
  | String a rest =>
      let c := N_of_ascii a in
      if (c <? 128)%N then c :: utf8 rest
      else (192 + c / 64)%N :: (128 + c mod 64)%N :: utf8 rest
  end.

Definition base64_alphabet : string :=
  "ABCDEFGHIJKLMNOPQRSTUVWXYZabcdefghijklmnopqrstuvwxyz0123456789+/".

Definition base64_char (sextet : N) : string :=
  match String.get (N.to_nat sextet) base64_alphabet with
  | Some a => String a EmptyString
  | None => "="
  end.

(** [buffer.toString('base64')]. *)
Fixpoint base64 (bytes : list N) : string :=
  match bytes with
  | a :: b :: c :: rest =>
      base64_char (a / 4) ++ base64_char ((a mod 4) * 16 + b / 16) ++
      base64_char ((b mod 16) * 4 + c / 64) ++ base64_char (c mod 64) ++
      base64 rest
  | [a; b] =>
      base64_char (a / 4) ++ base64_char ((a mod 4) * 16 + b / 16) ++
      base64_char ((b mod 16) * 4) ++ "="
  | [a] =>
      base64_char (a / 4) ++ base64_char ((a mod 4) * 16) ++ "=="
  | [] => ""
  end.

(** Lines 29-32. *)
Definition base64Encode (str : string) : string := base64 (utf8 str).

Section Server.

(** The process environment. *)
Variable process_env : string -> option string.

(** [parseInt(v)] for a value that converts to a string: the number the
    call returns. The handler forwards and stores this number and never
    inspects it. *)
Variable parseInt : value -> number.

(** The payment gateway: what [axios] resolves with ([response.data])
    or rejects with, for each request. *)
Variable axios : request -> result value.

(** Lines 18-24. *)
Definition MPESA_CONFIG : config :=
  mkConfig
    (process_env "MPESA_CONSUMER_KEY")
    (process_env "MPESA_CONSUMER_SECRET")
    (process_env "MPESA_SHORTCODE")
    (process_env "MPESA_PASSKEY")
    (let fallback := template (process_env "VERCEL_URL") ++ "/api/mpesa/callback" in
     match process_env "MPESA_CALLBACK_URL" with
     | Some url => if (url =? "") then fallback else url
     | None => fallback
     end).

(** Lines 35-49. *)
Definition generatePassword (now : Date) : string * string :=
  let timestamp :=
    Str.ofN (getFullYear now) ++
    Str.padStart 2 "0" (Str.ofN (getMonth now + 1)) ++
    Str.padStart 2 "0" (Str.ofN (getDate now)) ++
    Str.padStart 2 "0" (Str.ofN (getHours now)) ++
    Str.padStart 2 "0" (Str.ofN (getMinutes now)) ++
    Str.padStart 2 "0" (Str.ofN (getSeconds now)) in
  let passwordString :=
    template (shortcode MPESA_CONFIG) ++
    template (lipaNaMpesaOnlinePasskey MPESA_CONFIG) ++ timestamp in
  let password := base64Encode passwordString in
  (password, timestamp).

(** [await axios.get(...)] / [await axios.post(...)]: the request is
    recorded and the gateway's outcome is the result. *)
Definition await (r : request) : M value :=
  fun w => (axios r, mkWorld (transactions w) (requests w ++ [r])).

Definition oauth_url : string :=
  "https://api.safaricom.co.ke/oauth/v1/generate?grant_type=client_credentials".

Definition stkpush_url : string :=
  "https://api.safaricom.co.ke/mpesa/stkpush/v1/processrequest".

(** The request of lines 57-66. *)
Definition token_request : request :=
  let credentials :=
    template (consumerKey MPESA_CONFIG) ++ ":" ++
    template (consumerSecret MPESA_CONFIG) in
  let auth := base64Encode credentials in
  axios_get oauth_url (Basic auth) 10000.

(** Lines 52-73; the [catch] block logs and rethrows. *)
Definition getAccessToken : M value :=
  try_catch
    (response_data <- await token_request ;;
     prop response_data "access_token")
    (fun error => throw error).

Definition validation_failure : response :=
  mkResponse 400
    (VObject [("success", VBool false);
              ("error", VString "Phone, amount, and account reference are required")]).

(** The object literal of lines 112-124, once [amount] is known to
    convert to a string; [accountRef] is the string on which [substring]
    is called. *)
Definition stkPushPayload_literal (formattedPhone : string) (amount : value)
    (accountRef : string) (password_now : Date) : stkPushPayload :=
  let (password, timestamp) := generatePassword password_now in
  mkPayload (shortcode MPESA_CONFIG) password timestamp
    "CustomerPayBillOnline" (parseInt amount) formattedPhone
    (shortcode MPESA_CONFIG) formattedPhone (callbackUrl MPESA_CONFIG)
    (Str.substring 0 12 accountRef) "Payment for goods/services".

(** The request of lines 126-136. *)
Definition push_request (stkPushPayload : stkPushPayload) (accessToken : value)
    : request :=
  axios_post stkpush_url stkPushPayload (Bearer accessToken) 30000.

(** The object literal of lines 139-146, once [amount] is known to
    convert to a string. *)
Definition transaction_literal (formattedPhone : string) (amount accountRef : value)
    (created_now : Date) (CustomerMessage : value) : transaction :=
  mkTransaction formattedPhone (parseInt amount) accountRef pending
    created_now CustomerMessage None None None None None None.

(** The response of lines 148-153. *)
Definition success_response (transactionId CustomerMessage : value) : response :=
  mkResponse 200
    (VObject [("success", VBool true);
              ("message", VString "STK Push initiated successfully");
              ("checkoutRequestId", transactionId);
              ("customerMessage", CustomerMessage)]).

(** The [try] block of lines 88-154; [password_now] and [created_now]
    are the values of the two [new Date()]. The three [ToString] steps
    are the conversions made by [parseInt(amount)] at lines 117 and 141
    and by the template literal of the [Authorization] header at
    line 131. *)
Definition stk_push_try (body : value) (password_now created_now : Date)
    : M response :=
  destructurable body ;;;
  phone <- prop body "phone" ;;
  amount <- prop body "amount" ;;
  accountRef <- prop body "accountRef" ;;
  if negb (truthy phone) || negb (truthy amount) || negb (truthy accountRef) then
    ret validation_failure
  else
    phone_string <- string_method phone "phone.trim" ;;
    let formattedPhone := formattedPhone phone_string in
    accessToken <- getAccessToken ;;
    ToString amount ;;;
    accountRef_string <- string_method accountRef "accountRef.substring" ;;
    let stkPushPayload :=
      stkPushPayload_literal formattedPhone amount accountRef_string password_now in
    ToString accessToken ;;;
    response_data <- await (push_request stkPushPayload accessToken) ;;
    transactionId <- prop response_data "CheckoutRequestID" ;;
    ToString amount ;;;
    CustomerMessage <- prop response_data "CustomerMessage" ;;
    Map_set transactionId
      (transaction_literal formattedPhone amount accountRef created_now
         CustomerMessage) ;;;
    ret (success_response transactionId CustomerMessage).

(** The [catch] block of lines 155-162. *)
Definition stk_push_catch (e : error) : response :=
  mkResponse 500
    (VObject [("success", VBool false);
              ("error", VString "Failed to initiate payment");
              ("details", error_details e)]).

(** [app.post('/api/mpesa/stk-push', ...)] on the request body. *)
Definition stk_push (body : value) (password_now created_now : Date)
    (w : world) : response * world :=
  match stk_push_try body password_now created_now w with
  | (Return res, w') => (res, w')
  | (Throw e, w') => (stk_push_catch e, w')
  end.

End Server.

(* ================================================================= *)
(** ** The specification's reading of two operations *)

(** Phone normalisation as the specification words it: a leading [0]
    is replaced with the country prefix; a leading [+] is stripped; a
    value already starting with the country prefix is passed through;
    any other value is prefixed with the country code. *)
Definition spec_normalize (phone : string) : string :=
  if Str.startsWith "0" phone then "254" ++ Str.slice 1 phone
  else if Str.startsWith "+" phone then Str.slice 1 phone
  else if Str.startsWith "254" phone then phone
  else "254" ++ phone.

(** The store's [create] as the specification words it: a new record
    is inserted; the operation fails with [DuplicateKey] ([None]) if the
    key already exists. *)
Definition spec_create (key : value) (v : transaction) (m : Map.t) : option Map.t :=
  if Map.has key m then None else Some (Map.set key v m).

(** A positive number, as the specification requires of [amount]. *)
Definition positive_number (v : value) : bool :=
  match v with
  | VNumber (Finite false _ _) | VNumber (Infinity false) => true
  | _ => false
  end.

(* ================================================================= *)
(** ** Reading a webhook, and the effect of the callback as a patch *)

Definition nullish (v : value) : bool :=
  match v with
  | VUndefined | VNull => true
  | _ => false
  end.

(** The value of [o.name] where the read does not throw. *)
Definition field (o : value) (name : string) : value :=
  match o with
  | VObject properties => lookup name properties
  | _ => VUndefined
  end.

(** [callbackData.Body.stkCallback], the nested result container. *)
Definition webhook_stkCallback (callbackData : value) : value :=
  field (field callbackData "Body") "stkCallback".

Definition webhook_key (callbackData : value) : value :=
  field (webhook_stkCallback callbackData) "CheckoutRequestID".

Definition webhook_resultCode (callbackData : value) : value :=
  field (webhook_stkCallback callbackData) "ResultCode".

Definition webhook_resultDesc (callbackData : value) : value :=
  field (webhook_stkCallback callbackData) "ResultDesc".

(** [stkCallback.CallbackMetadata.Item]. *)
Definition webhook_Item (callbackData : value) : value :=
  field (field (webhook_stkCallback callbackData) "CallbackMetadata") "Item".

(** The metadata items of a webhook: the elements of [Item] when it is
    an array. *)
Definition webhook_items (callbackData : value) : list value :=
  match webhook_Item callbackData with
  | VArray elements => elements
  | _ => []
  end.

(** The metadata is well formed when [Item] is absent (falsy) or an
    array none of whose elements is [null]. *)
Definition well_formed_metadata (callbackData : value) : bool :=
  match webhook_Item callbackData with
  | VArray elements => forallb (fun item => negb (nullish item)) elements
  | Item => negb (truthy Item)
  end.

(** The [Value] of the last item named [name], if there is one. *)
Fixpoint named (name : string) (items : list value) : option value :=
  match items with
  | [] => None
  | item :: rest =>
      match named name rest with
      | Some v => Some v
      | None =>
          if strict_equals (field item "Name") (VString name)
          then Some (field item "Value") else None
      end
  end.

Definition or_else {A} (new old : option A) : option A :=
  match new with
  | Some x => Some x
  | None => old
  end.

(** A patch lists the properties a run of assignments has written,
    with the value written last. *)
Record patch : Type := mkPatch {
  p_status : option Status;
  p_completedAt : option Date;
  p_actualAmount : option value;
  p_receiptNumber : option value;
  p_transactionDate : option value;
  p_payerPhone : option value;
  p_errorMessage : option value
}.

Definition apply (p : patch) (t : transaction) : transaction :=
  mkTransaction (phone t) (amount t) (accountRef t)
    (match p_status p with Some s => s | None => status t end)
    (createdAt t) (customerMessage t)
    (or_else (p_completedAt p) (completedAt t))
    (or_else (p_actualAmount p) (actualAmount t))
    (or_else (p_receiptNumber p) (receiptNumber t))
    (or_else (p_transactionDate p) (transactionDate t))
    (or_else (p_payerPhone p) (payerPhone t))
    (or_else (p_errorMessage p) (errorMessage t)).

(** [p] followed by [q]. *)
Definition followed_by (p q : patch) : patch :=
  mkPatch (or_else (p_status q) (p_status p))
    (or_else (p_completedAt q) (p_completedAt p))
    (or_else (p_actualAmount q) (p_actualAmount p))
    (or_else (p_receiptNumber q) (p_receiptNumber p))
    (or_else (p_transactionDate q) (p_transactionDate p))
    (or_else (p_payerPhone q) (p_payerPhone p))
    (or_else (p_errorMessage q) (p_errorMessage p)).

(** The patch of one [if (item.Name === name) ... = item.Value]. *)
Definition item_named (item : value) (name : string) : option value :=
  if strict_equals (field item "Name") (VString name)
  then Some (field item "Value") else None.

Definition item_patch (item : value) : patch :=
  mkPatch None None (item_named item "Amount")
    (item_named item "MpesaReceiptNumber") (item_named item "TransactionDate")
    (item_named item "PhoneNumber") None.

(** The patch of the [forEach] loop, and whether the loop ran to its
    end: it stops at the first [null] item, on whose [Name] the read
    throws. *)
Fixpoint items_patch (items : list value) (p : patch) : patch * bool :=
  match items with
  | [] => (p, true)
  | item :: rest =>
      if nullish item then (p, false)
      else items_patch rest (followed_by p (item_patch item))
  end.

(** The patch of lines 179-194 for the container [stkCallback], and
    whether they ran to their end. *)
Definition callback_patch (stkCallback : value) (now : Date) : patch * bool :=
  if strict_equals (field stkCallback "ResultCode") (VNum 0) then
    let p := mkPatch (Some completed) (Some now) None None None None None in
    match field (field stkCallback "CallbackMetadata") "Item" with
    | VArray elements => items_patch elements p
    | Item => (p, negb (truthy Item))
    end
  else
    (mkPatch (Some failed) None None None None None
       (Some (field stkCallback "ResultDesc")), true).

Definition opt_set (f : value -> transaction -> transaction) (o : option value)
    (t : transaction) : transaction :=
  match o with
  | Some v => f v t
  | None => t
  end.

(** The world after the assignment [f] to the object stored under
    [key]. *)
Definition upd (key : value) (f : transaction -> transaction) (w : world) : world :=
  mkWorld (Map.update key f (transactions w)) (requests w).

(** The patch [p] with [completedAt] written at another time. *)
Definition retime (d : Date) (p : patch) : patch :=
  mkPatch (p_status p) (Some d) (p_actualAmount p) (p_receiptNumber p)
    (p_transactionDate p) (p_payerPhone p) (p_errorMessage p).

(* ================================================================= *)
(** ** The paths through the STK-push handler *)

Section Paths.

Variable process_env : string -> option string.
Variable parseInt : value -> number.
Variable axios : request -> result value.
Variable body : value.
Variable password_now created_now : Date.
Variable w : world.

(** The world once the requests [issued] have been sent. *)
Definition sent (issued : list request) : world :=
  mkWorld (transactions w) (requests w ++ issued).

(** The push request the handler sends for the strings [phone] and
    [accountRef] of the body and the token response [token_data]. *)
Definition push_request_for (phone accountRef : string) (token_data : value)
    : request :=
  push_request
    (stkPushPayload_literal process_env parseInt (formattedPhone phone)
       (field body "amount") accountRef password_now)
    (field token_data "access_token").

(** The request passes validation, its [amount] and the access token
    convert to strings, both calls to the gateway resolve, and both
    responses have a body. *)
Definition accepted (phone accountRef : string) (token_data response_data : value)
    : Prop :=
  field body "phone" = VString phone /\ phone <> "" /\
  truthy (field body "amount") = true /\
  ToString_throws (field body "amount") = false /\
  field body "accountRef" = VString accountRef /\ accountRef <> "" /\
  axios (token_request process_env) = Return token_data /\
  nullish token_data = false /\
  ToString_throws (field token_data "access_token") = false /\
  axios (push_request_for phone accountRef token_data) = Return response_data /\
  nullish response_data = false.

(** The outcomes of the handler, by the point it stops at. *)
Inductive stk_push_outcome : response * world -> Prop :=
| refused (res : response) :
    statusCode res <> 200 ->
    stk_push_outcome (res, w)
| token_rejected (e : error) :
    axios (token_request process_env) = Throw e ->
    stk_push_outcome (stk_push_catch e, sent [token_request process_env])
| token_unusable (token_data : value) (e : error) :
    axios (token_request process_env) = Return token_data ->
    stk_push_outcome (stk_push_catch e, sent [token_request process_env])
| push_rejected (phone accountRef : string) (token_data : value) (e : error) :
    axios (token_request process_env) = Return token_data ->
    axios (push_request_for phone accountRef token_data) = Throw e ->
    stk_push_outcome
      (stk_push_catch e,
       sent [token_request process_env; push_request_for phone accountRef token_data])
| push_unusable (phone accountRef : string) (token_data response_data : value)
    (e : error) :
    axios (token_request process_env) = Return token_data ->
    axios (push_request_for phone accountRef token_data) = Return response_data ->
    stk_push_outcome
      (stk_push_catch e,
       sent [token_request process_env; push_request_for phone accountRef token_data])
| created (phone accountRef : string) (token_data response_data : value) :
    accepted phone accountRef token_data response_data ->
    stk_push_outcome
      (success_response (field response_data "CheckoutRequestID")
         (field response_data "CustomerMessage"),
       mkWorld
         (Map.set (field response_data "CheckoutRequestID")
            (transaction_literal parseInt (formattedPhone phone) (field body "amount")
               (VString accountRef) created_now
               (field response_data "CustomerMessage"))
            (transactions w))
         (requests w ++
            [token_request process_env;
             push_request_for phone accountRef token_data])).

End Paths.

(* ================================================================= *)
(** ** Status query and diagnostics (server.js, lines 215-245) *)

(** The answer of the status query: [{success, transaction}] with
    status 200, or [{success, error}] with status 404; a property the
    answer does not have is [None]. *)
Record transaction_response : Type := mkTransactionResponse {
  tr_statusCode : nat;
  tr_success : bool;
  tr_error : option string;
  tr_transaction : option transaction
}.

(** [app.get('/api/transactions/:checkoutRequestId', ...)]: the route
    parameter is a string; an absent key makes [transactions.get] return
    [undefined], the only falsy result it can have. *)
Definition get_transaction (checkoutRequestId : string) (w : world)
    : transaction_response :=
  let transaction := Map.get (VString checkoutRequestId) (transactions w) in
  match transaction with
  | None => mkTransactionResponse 404 false (Some "Transaction not found") None
  | Some object => mkTransactionResponse 200 true None (Some object)
  end.

(** [!!x] on an environment variable. *)
Definition is_set (x : option string) : bool :=
  match x with
  | Some s => negb (s =? "")
  | None => false
  end.

(** The [config] object of the debug endpoint. *)
Record debug_config : Type := mkDebugConfig {
  hasConsumerKey : bool;
  hasConsumerSecret : bool;
  hasShortcode : bool;
  hasPasskey : bool;
  debug_callbackUrl : string;
  debug_environment : option string
}.

(** [app.get('/api/debug/config', ...)]. *)
Definition debug_config_of (process_env : string -> option string) : debug_config :=
  mkDebugConfig
    (is_set (consumerKey (MPESA_CONFIG process_env)))
    (is_set (consumerSecret (MPESA_CONFIG process_env)))
    (is_set (shortcode (MPESA_CONFIG process_env)))
    (is_set (lipaNaMpesaOnlinePasskey (MPESA_CONFIG process_env)))
    (callbackUrl (MPESA_CONFIG process_env))
    (process_env "NODE_ENV").

(* ================================================================= *)
(** ** The states of the process *)

(** The worlds the process can be in: it starts with an empty registry
    and serves STK-push requests and callbacks in any order, the gateway
    answering each request as it likes. *)
Inductive reachable (process_env : string -> option string)
    (parseInt : value -> number) : world -> Prop :=
| reachable_start :
    reachable process_env parseInt (mkWorld Map.empty [])
| reachable_stk_push (axios : request -> result value) (body : value)
    (password_now created_now : Date) (w : world) :
    reachable process_env parseInt w ->
    reachable process_env parseInt
      (snd (stk_push process_env parseInt axios body password_now created_now w))
| reachable_callback (callbackData : value) (now : Date) (w : world) :
    reachable process_env parseInt w ->
    reachable process_env parseInt (snd (callback callbackData now w)).

Definition is_some {A} (o : option A) : bool :=
  match o with
  | Some _ => true
  | None => false
  end.

(** What the fields of a stored object tell about each other: a pending
    object has none of the properties the callback assigns; a completed
    one has [completedAt]; a failed one has [errorMessage]. *)
Definition coherent (t : transaction) : bool :=
  match status t with
  | pending =>
      negb (is_some (completedAt t)) && negb (is_some (actualAmount t))
      && negb (is_some (receiptNumber t)) && negb (is_some (transactionDate t))
      && negb (is_some (payerPhone t)) && negb (is_some (errorMessage t))
  | completed => is_some (completedAt t)
  | failed => is_some (errorMessage t)
  end.

(** What creation guarantees of a stored object: the phone starts with
    the country code and the account reference is a non-empty string. *)
Definition as_created (t : transaction) : bool :=
  Str.startsWith "254" (phone t) &&
  match accountRef t with
  | VString s => negb (s =? "")
  | _ => false
  end.

(** No two entries have the same key. *)
Fixpoint unique_keys (m : Map.t) : bool :=
  match m with
  | [] => true
  | (k, _) :: rest => negb (Map.has k rest) && unique_keys rest
  end.

Definition is_post (r : request) : bool :=
  match r with
  | axios_post _ _ _ _ => true
  | axios_get _ _ _ => false
  end.

(** A string made of decimal digits only. *)
Fixpoint all_digits (s : string) : bool :=
  match s with
  | EmptyString => true
  | String a rest =>
      (48 <=? nat_of_ascii a)%nat && (nat_of_ascii a <=? 57)%nat && all_digits rest
  end.

(** The number a string of decimal digits denotes; no number when the
    string is empty or holds anything but digits. *)
Definition decimal (s : string) : option N :=
  option_map N.of_uint (NilZero.uint_of_string s).

(** [s] has [len] characters, all digits, and denotes [n]. *)
Definition digits_of (len : nat) (n : N) (s : string) : bool :=
  (String.length s =? len)%nat && all_digits s
  && match decimal s with
     | Some m => (m =? n)%N
     | None => false
     end.

(** [String(n).padStart(2, '0')] is [n] in two decimal digits. *)
Definition two_digits (n : N) : bool :=
  digits_of 2 n (Str.padStart 2 "0" (Str.ofN n)).

(** [n.toString()] is [n] in four decimal digits, for [n] from 1000
    on. *)
Definition four_digits (n : N) : bool :=
  (n <? 1000)%N || digits_of 4 n (Str.ofN n).

(** The fields of a [Date] are those of a calendar date of a four-digit
    year. *)
Definition calendar (d : Date) : Prop :=
  (1000 <= getFullYear d <= 9999)%N /\ (getMonth d <= 11)%N /\
  (1 <= getDate d <= 31)%N /\ (getHours d <= 23)%N /\
  (getMinutes d <= 59)%N /\ (getSeconds d <= 59)%N.

(* ================================================================= *)
(** ** Every path through the STK-push handler *)

Section AllPaths.

Variable process_env : string -> option string.
Variable parseInt : value -> number.
Variable axios : request -> result value.
Variable body : value.
Variable password_now created_now : Date.
Variable w : world.

(** The three fields are present and truthy. *)
Definition valid_body : bool :=
  negb (nullish body) && truthy (field body "phone")
  && truthy (field body "amount") && truthy (field body "accountRef").

Definition is_string (v : value) : bool :=
  match v with
  | VString _ => true
  | _ => false
  end.

(** The handler stops at the first of these that applies; each path
    gives the answer and the world it ends in. *)
Inductive stk_push_path : response * world -> Prop :=
| path_no_body (message : string) :
    nullish body = true ->
    stk_push_path (stk_push_catch (TypeError message), w)
| path_invalid :
    nullish body = false -> valid_body = false ->
    stk_push_path (validation_failure, w)
| path_phone_not_string (message : string) :
    valid_body = true -> is_string (field body "phone") = false ->
    stk_push_path (stk_push_catch (TypeError message), w)
| path_token_rejected (phone : string) (e : error) :
    valid_body = true -> field body "phone" = VString phone ->
    axios (token_request process_env) = Throw e ->
    stk_push_path (stk_push_catch e, sent w [token_request process_env])
| path_token_without_body (phone : string) (token_data : value) (message : string) :
    valid_body = true -> field body "phone" = VString phone ->
    axios (token_request process_env) = Return token_data ->
    nullish token_data = true ->
    stk_push_path
      (stk_push_catch (TypeError message), sent w [token_request process_env])
| path_amount_without_string (phone : string) (token_data : value)
    (message : string) :
    valid_body = true -> field body "phone" = VString phone ->
    axios (token_request process_env) = Return token_data ->
    nullish token_data = false ->
    ToString_throws (field body "amount") = true ->
    stk_push_path
      (stk_push_catch (TypeError message), sent w [token_request process_env])
| path_accountRef_not_string (phone : string) (token_data : value)
    (message : string) :
    valid_body = true -> field body "phone" = VString phone ->
    axios (token_request process_env) = Return token_data ->
    nullish token_data = false ->
    ToString_throws (field body "amount") = false ->
    is_string (field body "accountRef") = false ->
    stk_push_path
      (stk_push_catch (TypeError message), sent w [token_request process_env])
| path_token_without_string (phone accountRef : string) (token_data : value)
    (message : string) :
    valid_body = true -> field body "phone" = VString phone ->
    axios (token_request process_env) = Return token_data ->
    nullish token_data = false ->
    ToString_throws (field body "amount") = false ->
    field body "accountRef" = VString accountRef ->
    ToString_throws (field token_data "access_token") = true ->
    stk_push_path
      (stk_push_catch (TypeError message), sent w [token_request process_env])
| path_push_rejected (phone accountRef : string) (token_data : value) (e : error) :
    valid_body = true -> field body "phone" = VString phone ->
    axios (token_request process_env) = Return token_data ->
    nullish token_data = false ->
    ToString_throws (field body "amount") = false ->
    field body "accountRef" = VString accountRef ->
    ToString_throws (field token_data "access_token") = false ->
    axios (push_request_for process_env parseInt body password_now phone accountRef
             token_data) = Throw e ->
    stk_push_path
      (stk_push_catch e,
       sent w [token_request process_env;
               push_request_for process_env parseInt body password_now phone accountRef
                 token_data])
| path_push_without_body (phone accountRef : string)
    (token_data response_data : value) (message : string) :
    valid_body = true -> field body "phone" = VString phone ->
    axios (token_request process_env) = Return token_data ->
    nullish token_data = false ->
    ToString_throws (field body "amount") = false ->
    field body "accountRef" = VString accountRef ->
    ToString_throws (field token_data "access_token") = false ->
    axios (push_request_for process_env parseInt body password_now phone accountRef
             token_data) = Return response_data ->
    nullish response_data = true ->
    stk_push_path
      (stk_push_catch (TypeError message),
       sent w [token_request process_env;
               push_request_for process_env parseInt body password_now phone accountRef
                 token_data])
| path_created (phone accountRef : string) (token_data response_data : value) :
    accepted process_env parseInt axios body password_now phone accountRef
      token_data response_data ->
    stk_push_path
      (success_response (field response_data "CheckoutRequestID")
         (field response_data "CustomerMessage"),
       mkWorld
         (Map.set (field response_data "CheckoutRequestID")
            (transaction_literal parseInt (formattedPhone phone) (field body "amount")
               (VString accountRef) created_now
               (field response_data "CustomerMessage"))
            (transactions w))
         (requests w ++
            [token_request process_env;
             push_request_for process_env parseInt body password_now phone accountRef
               token_data])).

End AllPaths.

(* ================================================================= *)
(** ** Reading Base64 back *)

(** The position of a character in a string, counted from [i]. *)
Fixpoint index_of (a : ascii) (s : string) (i : N) : N :=
  match s with
  | EmptyString => i
  | String b rest => if Ascii.eqb a b then i else index_of a rest (i + 1)
  end.

(** The sextet a character of the alphabet stands for. *)
Definition sextet_of (a : ascii) : N := index_of a base64_alphabet 0.

(** The character of a sextet. *)
Definition char_of (sextet : N) : ascii :=
  match String.get (N.to_nat sextet) base64_alphabet with
  | Some a => a
  | None => "="%char
  end.

(** The bytes a Base64 text stands for, four characters at a time. *)
Fixpoint base64_decode (s : string) : list N :=
  match s with
  | String a (String b (String c (String d rest))) =>
      let s1 := sextet_of a in
      let s2 := sextet_of b in
      let s3 := sextet_of c in
      let s4 := sextet_of d in
      if Ascii.eqb c "=" then [s1 * 4 + s2 / 16]%N
      else if Ascii.eqb d "=" then [s1 * 4 + s2 / 16; (s2 mod 16) * 16 + s3 / 4]%N
      else ((s1 * 4 + s2 / 16) :: ((s2 mod 16) * 16 + s3 / 4)
            :: ((s3 mod 4) * 64 + s4) :: base64_decode rest)%N
  | _ => []
  end.

(** The string of the UTF-8 bytes of code units below 256. *)
Fixpoint utf8_decode (bytes : list N) : string :=
  match bytes with
  | [] => EmptyString
  | b :: rest =>
      if (b <? 128)%N then String (ascii_of_N b) (utf8_decode rest)
      else
        match rest with
        | b' :: rest' =>
            String (ascii_of_N ((b - 192) * 64 + (b' - 128))) (utf8_decode rest')
        | [] => EmptyString
        end
  end.

(** A sextet and its character determine each other. *)
Definition sextet_round_trip (n : N) : bool :=
  (sextet_of (char_of n) =? n)%N && negb (Ascii.eqb (char_of n) "=").

(* ================================================================= *)
(** ** Sample data *)

Module Sample.

Definition process_env (name : string) : option string :=
  if name =? "MPESA_CONSUMER_KEY" then Some "key"
  else if name =? "MPESA_CONSUMER_SECRET" then Some "secret"
  else if name =? "MPESA_SHORTCODE" then Some "174379"
  else if name =? "MPESA_PASSKEY" then Some "passkey"
  else if name =? "MPESA_CALLBACK_URL" then Some "https://shop.example/api/mpesa/callback"
  else None.

(** A gateway that grants a token and accepts every push request under
    the same [CheckoutRequestID]. *)
Definition gateway (r : request) : result value :=
  match r with
  | axios_get _ _ _ =>
      Return (VObject [("access_token", VString "token"); ("expires_in", VString "3599")])
  | axios_post _ _ _ _ =>
      Return (VObject [("MerchantRequestID", VString "29115-34620561-1");
                       ("CheckoutRequestID", VString "ws_CO_1");
                       ("ResponseCode", VString "0");
                       ("CustomerMessage", VString "Success. Request accepted for processing")])
  end.

(** A gateway whose answers lack the token and the
    [CheckoutRequestID]. *)
Definition gateway_without_fields (r : request) : result value :=
  match r with
  | axios_get _ _ _ => Return (VObject [("expires_in", VString "3599")])
  | axios_post _ _ _ _ =>
      Return (VObject [("ResponseCode", VString "0");
                       ("CustomerMessage", VString "Success. Request accepted for processing")])
  end.

(** [parseInt] where the samples call it. On [undefined], [null], a
    boolean, [NaN], an infinity and an object the platform returns
    [NaN]; on an integer below [1e21] it returns the integer. The
    samples pass no string, array, fraction or larger number; [NaN]
    stands in for the result there. *)
Definition parseInt (v : value) : number :=
  match v with
  | VNumber Zero => Zero
  | VNumber (Finite negative half exponent) =>
      if ((0 <=? exponent) && ((2 * Z.of_N half + 1) * 2 ^ exponent <? 10 ^ 21))%Z
      then Finite negative half exponent
      else NaN
  | _ => NaN
  end.

(** A gateway that cannot be reached. *)
Definition gateway_down (r : request) : result value :=
  Throw (AxiosError "timeout of 10000ms exceeded" None).

Definition noon : Date := mkDate 1704099600000 2024 0 1 12 0 0.

Definition later : Date := mkDate 1704099605000 2024 0 1 12 0 5.

Definition nothing : world := mkWorld Map.empty [].

Definition request_body (amount accountRef : value) : value :=
  VObject [("phone", VString "0712345678"); ("amount", amount);
           ("accountRef", accountRef)].

Definition webhook (resultCode ResultDesc : value) (Item : list value) : value :=
  VObject [("Body", VObject [("stkCallback", VObject
    [("MerchantRequestID", VString "29115-34620561-1");
     ("CheckoutRequestID", VString "ws_CO_1");
     ("ResultCode", resultCode);
     ("ResultDesc", ResultDesc);
     ("CallbackMetadata", VObject [("Item", VArray Item)])])])].

Definition item (Name : string) (Value : value) : value :=
  VObject [("Name", VString Name); ("Value", Value)].

Definition success_webhook : value :=
  webhook (VNum 0) (VString "The service request is processed successfully.")
    [item "Amount" (VNum 100); item "MpesaReceiptNumber" (VString "NLJ7RT61SV");
     item "TransactionDate" (VNum 20240101120003);
     item "PhoneNumber" (VNum 254712345678)].

Definition failure_webhook : value :=
  VObject [("Body", VObject [("stkCallback", VObject
    [("MerchantRequestID", VString "29115-34620561-1");
     ("CheckoutRequestID", VString "ws_CO_1");
     ("ResultCode", VNum 1032);
     ("ResultDesc", VString "Request cancelled by user")])])].

(** The registry after a successful STK push of 100 for [INV1]. *)
Definition one_pending : world :=
  mkWorld
    [(VString "ws_CO_1",
      mkTransaction "254712345678" (Num 100) (VString "INV1") pending noon
        (VString "Success. Request accepted for processing")
        None None None None None None)]
    [].

End Sample.

(* ================================================================= *)
(** * Properties *)

(** ** Phone normalisation *)

Lemma startsWith_cons (a b : ascii) (p s : string) :
  Str.startsWith (String a p) (String b s) = Ascii.eqb a b && Str.startsWith p s.
Proof. reflexivity. Qed.

Lemma startsWith_append (p rest : string) : Str.startsWith p (p ++ rest) = true.
Proof.
  induction p as [|a p IH]; simpl.
  - reflexivity.
  - now rewrite Ascii.eqb_refl, IH.
Qed.

Lemma formattedPhone_examples :
  formattedPhone "0712345678" = "254712345678" /\
  formattedPhone "+254712345678" = "254712345678" /\
  formattedPhone "254712345678" = "254712345678" /\
  formattedPhone "712345678" = "254712345678".
Proof. repeat split. Qed.

(** C5, as the specification states it, fails: a leading [+] that is
    not followed by [254] is not stripped, the value is prefixed with
    [254] as it stands; and a value starting with [254] is not passed
    through unchanged when white space surrounds it. *)
Lemma C5_plus_not_stripped :
  formattedPhone "+15551234567" = "254+15551234567" /\
  spec_normalize "+15551234567" = "15551234567" /\
  formattedPhone "+15551234567" <> spec_normalize "+15551234567" /\
  formattedPhone "254712345678 " <> "254712345678 ".
Proof. repeat split; discriminate. Qed.

(** C5 (amended): the handler normalises the trimmed phone string. A
    leading [0] is replaced with [254]; a leading [+254] loses its [+];
    a value starting with [254] is passed through; any other value, a
    [+] not followed by [254] included, is prefixed with [254]. Except
    for that last case the result is the specification's normalisation
    of the trimmed string, and the four examples hold. *)
Theorem C5_formattedPhone (phone : string) :
  let trimmed := Str.trim phone in
  formattedPhone phone =
    (if Str.startsWith "+" trimmed && negb (Str.startsWith "+254" trimmed)
     then "254" ++ trimmed
     else spec_normalize trimmed) /\
  (forall rest, trimmed = "0" ++ rest -> formattedPhone phone = "254" ++ rest) /\
  (forall rest, trimmed = "+254" ++ rest -> formattedPhone phone = "254" ++ rest) /\
  (forall rest, trimmed = "254" ++ rest -> formattedPhone phone = trimmed) /\
  formattedPhone "0712345678" = "254712345678" /\
  formattedPhone "+254712345678" = "254712345678" /\
  formattedPhone "254712345678" = "254712345678" /\
  formattedPhone "712345678" = "254712345678".
Proof.
  intro trimmed. unfold formattedPhone. fold trimmed.
  split; [|split; [|split; [|split]]].
  - unfold spec_normalize.
    destruct trimmed as [|a t]; [reflexivity|].
    rewrite !startsWith_cons.
    destruct (Ascii.eqb_spec "0" a) as [<-|H0]; [reflexivity|].
    destruct (Ascii.eqb_spec "+" a) as [<-|Hp]; cbn [andb negb].
    + destruct (Str.startsWith "254" t); reflexivity.
    + destruct (Ascii.eqb "2" a && Str.startsWith "54" t); reflexivity.
  - intros rest ->. reflexivity.
  - intros rest ->. reflexivity.
  - intros rest ->. reflexivity.
  - exact formattedPhone_examples.
Qed.

(* ================================================================= *)
(** ** The registry *)

Lemma number_strict_equals_eq (a b : number) :
  number_strict_equals a b = true -> a = b.
Proof.
  destruct a as [|x| |x h e], b as [|y| |y h' e']; simpl;
    try discriminate; try reflexivity.
  - intros H. now apply Bool.eqb_prop in H; subst.
  - intros H. apply andb_prop in H as [H He]. apply andb_prop in H as [Hx Hh].
    apply Bool.eqb_prop in Hx. apply N.eqb_eq in Hh. apply Z.eqb_eq in He.
    now subst.
Qed.

Lemma number_strict_equals_sym (a b : number) :
  number_strict_equals a b = number_strict_equals b a.
Proof.
  destruct a as [|x| |x h e], b as [|y| |y h' e']; simpl; try reflexivity.
  - now destruct x, y.
  - rewrite (N.eqb_sym h h'), (Z.eqb_sym e e'). now destruct x, y.
Qed.

Lemma same_value_zero_eq (a b : value) : same_value_zero a b = true -> a = b.
Proof.
  destruct a as [| |x|[|x| |x h e]|x|x|x], b as [| |y|y|y|y|y];
    try discriminate; try reflexivity.
  - intros H. now apply Bool.eqb_prop in H; subst.
  - destruct y; try discriminate; reflexivity.
  - intros H. apply (number_strict_equals_eq (Infinity x) y) in H. now subst.
  - intros H. apply (number_strict_equals_eq Zero y) in H. now subst.
  - intros H. apply (number_strict_equals_eq (Finite x h e) y) in H. now subst.
  - intros H. now apply String.eqb_eq in H; subst.
Qed.

Lemma get_update (k : value) (f : transaction -> transaction) (m : Map.t) :
  Map.get k (Map.update k f m) = option_map f (Map.get k m).
Proof.
  induction m as [|[k' v] m IH]; simpl; [reflexivity|].
  destruct (same_value_zero k' k) eqn:E; simpl; rewrite E; auto.
Qed.

Lemma get_update_other (k k' : value) (f : transaction -> transaction) (m : Map.t) :
  k' <> k -> Map.get k' (Map.update k f m) = Map.get k' m.
Proof.
  intros Hne. induction m as [|[e v] m IH]; simpl; [reflexivity|].
  destruct (same_value_zero e k) eqn:E; simpl.
  - destruct (same_value_zero e k') eqn:E'; [|reflexivity].
    apply same_value_zero_eq in E, E'. congruence.
  - now rewrite IH.
Qed.

Lemma has_update (k k' : value) (f : transaction -> transaction) (m : Map.t) :
  Map.has k' (Map.update k f m) = Map.has k' m.
Proof.
  unfold Map.has. induction m as [|[e v] m IH]; simpl; [reflexivity|].
  destruct (same_value_zero e k) eqn:E; simpl;
    destruct (same_value_zero e k'); auto.
Qed.

Lemma update_update (k : value) (f g : transaction -> transaction) (m : Map.t) :
  Map.update k g (Map.update k f m) = Map.update k (fun t => g (f t)) m.
Proof.
  induction m as [|[e v] m IH]; simpl; [reflexivity|].
  destruct (same_value_zero e k) eqn:E; simpl; rewrite E; [reflexivity|].
  now rewrite IH.
Qed.

Lemma update_ext (k : value) (f g : transaction -> transaction) (m : Map.t) :
  (forall t, f t = g t) -> Map.update k f m = Map.update k g m.
Proof.
  intros H. induction m as [|[e v] m IH]; simpl; [reflexivity|].
  destruct (same_value_zero e k); [now rewrite H | now rewrite IH].
Qed.

Lemma update_id (k : value) (m : Map.t) : Map.update k (fun t => t) m = m.
Proof.
  induction m as [|[e v] m IH]; simpl; [reflexivity|].
  destruct (same_value_zero e k); [reflexivity | now rewrite IH].
Qed.

Lemma update_absent (k : value) (f : transaction -> transaction) (m : Map.t) :
  Map.has k m = false -> Map.update k f m = m.
Proof.
  unfold Map.has. induction m as [|[e v] m IH]; simpl; [reflexivity|].
  destruct (same_value_zero e k); [discriminate|].
  intros H. now rewrite IH.
Qed.

Lemma set_get (k : value) (v : transaction) (m : Map.t) :
  Map.get k m = Some v -> Map.set k v m = m.
Proof.
  induction m as [|[e v'] m IH]; simpl; [discriminate|].
  destruct (same_value_zero e k).
  - now intros [= ->].
  - intros H. now rewrite IH.
Qed.

Lemma get_set (k : value) (v : transaction) (m : Map.t) :
  same_value_zero k k = true -> Map.get k (Map.set k v m) = Some v.
Proof.
  intros Hk. induction m as [|[e v'] m IH]; simpl.
  - now rewrite Hk.
  - destruct (same_value_zero e k) eqn:E; simpl; rewrite E; auto.
Qed.

Lemma get_set_other (k k' : value) (v : transaction) (m : Map.t) :
  k' <> k -> Map.get k' (Map.set k v m) = Map.get k' m.
Proof.
  intros Hne. induction m as [|[e v'] m IH]; simpl.
  - destruct (same_value_zero k k') eqn:E; [|reflexivity].
    apply same_value_zero_eq in E. congruence.
  - destruct (same_value_zero e k) eqn:E; simpl.
    + destruct (same_value_zero e k') eqn:E'; [|reflexivity].
      apply same_value_zero_eq in E, E'. congruence.
    + now rewrite IH.
Qed.

Lemma set_present_length (k : value) (v : transaction) (m : Map.t) :
  Map.has k m = true -> List.length (Map.set k v m) = List.length m.
Proof.
  unfold Map.has. induction m as [|[e v'] m IH]; simpl; [discriminate|].
  destruct (same_value_zero e k); simpl; [reflexivity|].
  intros H. now rewrite IH.
Qed.

Lemma has_key_refl (k : value) (m : Map.t) :
  Map.has k m = true -> same_value_zero k k = true.
Proof.
  unfold Map.has. induction m as [|[e v] m IH]; simpl; [discriminate|].
  destruct (same_value_zero e k) eqn:E; [|exact IH].
  intros _. pose proof (same_value_zero_eq _ _ E) as He. now rewrite He in E.
Qed.

Lemma upd_upd (k : value) (f g : transaction -> transaction) (w : world) :
  upd k g (upd k f w) = upd k (fun t => g (f t)) w.
Proof. unfold upd; simpl. now rewrite update_update. Qed.

Lemma upd_ext (k : value) (f g : transaction -> transaction) (w : world) :
  (forall t, f t = g t) -> upd k f w = upd k g w.
Proof. intros H. unfold upd. now rewrite (update_ext k f g). Qed.

Lemma upd_id (k : value) (w : world) : upd k (fun t => t) w = w.
Proof. unfold upd. rewrite update_id. now destruct w. Qed.

(* ================================================================= *)
(** ** Running the callback handler *)

Lemma prop_field (o : value) (name : string) (w : world) :
  nullish o = false -> prop o name w = (Return (field o name), w).
Proof. destruct o; simpl; intros H; try discriminate; reflexivity. Qed.

Lemma truthy_not_nullish (v : value) : truthy v = true -> nullish v = false.
Proof. destruct v; simpl; intros H; try discriminate; reflexivity. Qed.

Lemma falsy_field (v : value) (name : string) :
  truthy v = false -> field v name = VUndefined.
Proof. destruct v; simpl; intros H; try discriminate; reflexivity. Qed.

Lemma assign_upd (k : value) (f : transaction -> transaction) (w : world) :
  assign k f w = (Return tt, upd k f w).
Proof. reflexivity. Qed.

Lemma copy_item_run (k item : value) (name : string)
    (f : value -> transaction -> transaction) (w : world) :
  nullish item = false ->
  copy_item k item name f w = (Return tt, upd k (opt_set f (item_named item name)) w).
Proof.
  intros H. unfold copy_item, bind, item_named. rewrite prop_field by assumption.
  destruct (strict_equals (field item "Name") (VString name)); simpl.
  - now rewrite prop_field by assumption.
  - unfold ret. now rewrite upd_id.
Qed.

Lemma opt_set_patch (a b c d : option value) (p : patch) (t : transaction) :
  opt_set set_payerPhone d
    (opt_set set_transactionDate c
       (opt_set set_receiptNumber b
          (opt_set set_actualAmount a (apply p t)))) =
  apply (followed_by p (mkPatch None None a b c d None)) t.
Proof. destruct a, b, c, d, p as [[]? ? ? ? ? ?]; reflexivity. Qed.

Lemma copy_metadata_run (k item : value) (p : patch) (w : world) :
  nullish item = false ->
  copy_metadata k item (upd k (apply p) w) =
    (Return tt, upd k (apply (followed_by p (item_patch item))) w).
Proof.
  intros H. unfold copy_metadata, bind.
  rewrite !copy_item_run by assumption. rewrite !upd_upd.
  f_equal. apply upd_ext. intros t. apply opt_set_patch.
Qed.

(** The loop writes the patch [items_patch] computes, and throws
    exactly when that one reports a [null] item. *)
Lemma forEach_run (k : value) (items : list value) (p : patch) (w : world) :
  exists r,
    forEach (copy_metadata k) items (upd k (apply p) w) =
      (r, upd k (apply (fst (items_patch items p))) w) /\
    (snd (items_patch items p) = true -> r = Return tt) /\
    (snd (items_patch items p) = false -> exists e, r = Throw e).
Proof.
  revert p. induction items as [|item rest IH]; intros p; simpl.
  - exists (Return tt). split; [reflexivity|]. split; [reflexivity | discriminate].
  - destruct (nullish item) eqn:Hn.
    + unfold bind, copy_metadata, copy_item, bind.
      destruct item; try discriminate; simpl.
      * eexists. split; [reflexivity|]. split; [discriminate | eauto].
      * eexists. split; [reflexivity|]. split; [discriminate | eauto].
    + unfold bind. rewrite copy_metadata_run by assumption.
      apply IH.
Qed.

Lemma restore_run (k : value) (w : world) :
  Map_set_object k k w = (Return tt, w).
Proof.
  unfold Map_set_object, bind, Map_get, Map_set, ret.
  destruct (Map.get k (transactions w)) as [t|] eqn:E.
  - rewrite (set_get _ _ _ E). now destruct w.
  - reflexivity.
Qed.

Lemma callback_nullish (callbackData : value) (now : Date) (w : world) :
  nullish callbackData = true ->
  callback callbackData now w = (negative_acknowledgment, w).
Proof. destruct callbackData; try discriminate; reflexivity. Qed.

Lemma bind_run {A B} (m : M A) (k : A -> M B) (w : world) :
  bind m k w =
    match m w with
    | (Return a, w') => k a w'
    | (Throw e, w') => (Throw e, w')
    end.
Proof. reflexivity. Qed.

Lemma ret_run {A} (a : A) (w : world) : ret a w = (Return a, w).
Proof. reflexivity. Qed.

Lemma ToString_run (v : value) (w : world) :
  ToString_throws v = false -> ToString v w = (Return tt, w).
Proof. intros H. unfold ToString. now rewrite H. Qed.

Lemma ToString_throw (v : value) (w : world) :
  ToString_throws v = true ->
  ToString v w = (Throw (TypeError "Cannot convert object to primitive value"), w).
Proof. intros H. unfold ToString. now rewrite H. Qed.

(** One step of a handler: the next statement is run and the
    continuation is entered. *)
Ltac run :=
  repeat first
    [ rewrite bind_run
    | rewrite prop_field
        by first [assumption | apply truthy_not_nullish; assumption]
    | rewrite ToString_run by assumption
    | rewrite assign_upd
    | rewrite ret_run
    | rewrite restore_run
    | progress cbv beta iota ].

(** The handler on a body that is not [undefined] or [null]: when the
    container is present and its key is known, the patch of lines
    179-194 is applied to the stored object; the acknowledgment is
    negative exactly when those lines threw. *)
Lemma callback_run (callbackData : value) (now : Date) (w : world) :
  nullish callbackData = false ->
  let stkCallback := webhook_stkCallback callbackData in
  let key := webhook_key callbackData in
  callback callbackData now w =
    if truthy stkCallback && Map.has key (transactions w) then
      (if snd (callback_patch stkCallback now)
       then acknowledgment else negative_acknowledgment,
       upd key (apply (fst (callback_patch stkCallback now))) w)
    else (acknowledgment, w).
Proof.
  intros Hbody stk key. subst stk key.
  unfold webhook_key, webhook_stkCallback.
  unfold callback, callback_try, and_then. run.
  destruct (truthy (field callbackData "Body")) eqn:HB.
  2:{ run. rewrite HB, (falsy_field _ "stkCallback" HB). reflexivity. }
  run.
  set (stk := field (field callbackData "Body") "stkCallback").
  destruct (truthy stk) eqn:Hstk; [|reflexivity].
  assert (Hn : nullish stk = false) by (now apply truthy_not_nullish).
  cbn [when andb]. run.
  set (key := field stk "CheckoutRequestID").
  unfold Map_has at 1.
  destruct (Map.has key (transactions w)) eqn:Hhas; [|reflexivity].
  cbn [when]. unfold callback_patch.
  destruct (strict_equals (field stk "ResultCode") (VNum 0)).
  - run. rewrite upd_upd.
    rewrite (upd_ext key _
               (apply (mkPatch (Some completed) (Some now) None None None None None)))
      by (intros t; reflexivity).
    set (p := mkPatch (Some completed) (Some now) None None None None None).
    unfold and_then. run.
    destruct (truthy (field stk "CallbackMetadata")) eqn:Hmd.
    2:{ run. rewrite Hmd. cbn [when]. run.
        rewrite (falsy_field _ "Item" Hmd). reflexivity. }
    run.
    set (Item := field (field stk "CallbackMetadata") "Item").
    destruct (truthy Item) eqn:HItem; cbn [when].
    + destruct Item as [| |b|n|s|items|ps] eqn:EItem;
        try discriminate; cbn [call_forEach fst snd];
        try (rewrite HItem; reflexivity).
      destruct (forEach_run key items p w) as (r & Hrun & Hok & Hko).
      rewrite Hrun.
      destruct (snd (items_patch items p)).
      * rewrite (Hok eq_refl). run. reflexivity.
      * destruct (Hko eq_refl) as [e ->]. reflexivity.
    + run.
      destruct Item; try discriminate; cbn [fst snd];
        rewrite HItem; reflexivity.
  - run. rewrite upd_upd. reflexivity.
Qed.

Lemma strict_equals_zero (v : value) :
  strict_equals v (VNum 0) = true <-> v = VNum 0.
Proof.
  split.
  - destruct v as [| |b|n|s|l|ps]; simpl; try discriminate.
    intros H. apply number_strict_equals_eq in H. now subst.
  - intros ->. reflexivity.
Qed.

Lemma strict_equals_nonzero (v : value) :
  v <> VNum 0 -> strict_equals v (VNum 0) = false.
Proof.
  intros H. destruct (strict_equals v (VNum 0)) eqn:E; [|reflexivity].
  apply strict_equals_zero in E. contradiction.
Qed.

Lemma truthy_container_not_nullish (callbackData : value) :
  truthy (webhook_stkCallback callbackData) = true -> nullish callbackData = false.
Proof. destruct callbackData; simpl; intros H; try discriminate; reflexivity. Qed.

Lemma get_has (k : value) (t : transaction) (m : Map.t) :
  Map.get k m = Some t -> Map.has k m = true.
Proof. unfold Map.has. now intros ->. Qed.

(** ** Webhooks that match nothing *)


(** ** Failure webhooks *)

(** C7: when the webhook carries a result code other than [0] and its
    [CheckoutRequestID] is the key of a stored transaction, that record
    gets status [failed] and [errorMessage] = [ResultDesc]; nothing else
    in it changes, no other record changes, and the webhook is
    acknowledged. *)
Theorem C7_failure_webhook
    (callbackData : value) (now : Date) (w : world) (t : transaction) :
  truthy (webhook_stkCallback callbackData) = true ->
  Map.get (webhook_key callbackData) (transactions w) = Some t ->
  webhook_resultCode callbackData <> VNum 0 ->
  let w' := snd (callback callbackData now w) in
  let t' := set_errorMessage (webhook_resultDesc callbackData) (set_status failed t) in
  fst (callback callbackData now w) = acknowledgment /\
  Map.get (webhook_key callbackData) (transactions w') = Some t' /\
  status t' = failed /\
  errorMessage t' = Some (webhook_resultDesc callbackData) /\
  (forall k, k <> webhook_key callbackData ->
     Map.get k (transactions w') = Map.get k (transactions w)) /\
  requests w' = requests w.
Proof.
  intros Hstk Hget Hrc w' t'. subst w'.
  rewrite callback_run by (now apply truthy_container_not_nullish).
  rewrite Hstk, (get_has _ _ _ Hget). cbn [andb].
  unfold callback_patch. fold (webhook_resultCode callbackData).
  rewrite (strict_equals_nonzero _ Hrc). cbn [fst snd upd transactions requests].
  repeat split.
  - rewrite get_update, Hget. reflexivity.
  - intros k Hk. now apply get_update_other.
Qed.

(** ** Success webhooks *)

Lemma items_patch_keeps (items : list value) (p : patch) :
  p_status (fst (items_patch items p)) = p_status p /\
  p_completedAt (fst (items_patch items p)) = p_completedAt p /\
  p_errorMessage (fst (items_patch items p)) = p_errorMessage p.
Proof.
  revert p. induction items as [|item rest IH]; intros p; simpl.
  - auto.
  - destruct (nullish item); simpl; [auto|].
    destruct (IH (followed_by p (item_patch item))) as (-> & -> & ->).
    auto.
Qed.

Lemma named_cons (name : string) (item : value) (rest : list value) :
  named name (item :: rest) = or_else (named name rest) (item_named item name).
Proof. reflexivity. Qed.

Lemma or_else_assoc {A} (a b c : option A) :
  or_else a (or_else b c) = or_else (or_else a b) c.
Proof. now destruct a. Qed.

Lemma items_patch_named (items : list value) (p : patch) :
  forallb (fun item => negb (nullish item)) items = true ->
  snd (items_patch items p) = true /\
  p_actualAmount (fst (items_patch items p)) =
    or_else (named "Amount" items) (p_actualAmount p) /\
  p_receiptNumber (fst (items_patch items p)) =
    or_else (named "MpesaReceiptNumber" items) (p_receiptNumber p) /\
  p_transactionDate (fst (items_patch items p)) =
    or_else (named "TransactionDate" items) (p_transactionDate p) /\
  p_payerPhone (fst (items_patch items p)) =
    or_else (named "PhoneNumber" items) (p_payerPhone p).
Proof.
  revert p. induction items as [|item rest IH]; intros p Hwf.
  - simpl. auto.
  - cbn [forallb] in Hwf. apply andb_true_iff in Hwf as [Hitem Hrest].
    apply negb_true_iff in Hitem.
    cbn [items_patch]. rewrite Hitem.
    destruct (IH (followed_by p (item_patch item)) Hrest) as (-> & -> & -> & -> & ->).
    rewrite !named_cons, <- !or_else_assoc. auto.
Qed.

(** C6 (amended): when the webhook carries result code [0] and its
    [CheckoutRequestID] is the key of a stored transaction, that record
    gets status [completed] and [completedAt] = the time of the call.
    Provided the metadata is well formed ([Item] absent, or an
    array without [null]), the webhook is acknowledged and the items
    named [Amount], [MpesaReceiptNumber], [TransactionDate] and
    [PhoneNumber] are copied, when present, into [actualAmount],
    [receiptNumber], [transactionDate] and [payerPhone]; a property with
    no item keeps what it held, and the properties written at creation
    and [errorMessage] are not touched. *)
Theorem C6_success_webhook
    (callbackData : value) (now : Date) (w : world) (t : transaction) :
  truthy (webhook_stkCallback callbackData) = true ->
  Map.get (webhook_key callbackData) (transactions w) = Some t ->
  webhook_resultCode callbackData = VNum 0 ->
  let w' := snd (callback callbackData now w) in
  let items := webhook_items callbackData in
  exists t',
    Map.get (webhook_key callbackData) (transactions w') = Some t' /\
    status t' = completed /\
    completedAt t' = Some now /\
    (well_formed_metadata callbackData = true ->
       fst (callback callbackData now w) = acknowledgment /\
       actualAmount t' = or_else (named "Amount" items) (actualAmount t) /\
       receiptNumber t' = or_else (named "MpesaReceiptNumber" items) (receiptNumber t) /\
       transactionDate t' = or_else (named "TransactionDate" items) (transactionDate t) /\
       payerPhone t' = or_else (named "PhoneNumber" items) (payerPhone t) /\
       phone t' = phone t /\ amount t' = amount t /\
       accountRef t' = accountRef t /\ createdAt t' = createdAt t /\
       customerMessage t' = customerMessage t /\
       errorMessage t' = errorMessage t).
Proof.
  intros Hstk Hget Hrc w' items. subst w' items.
  rewrite callback_run by (now apply truthy_container_not_nullish).
  rewrite Hstk, (get_has _ _ _ Hget). cbn [andb snd fst upd transactions].
  rewrite get_update, Hget. cbn [option_map].
  eexists. split; [reflexivity|].
  unfold well_formed_metadata, webhook_items, webhook_Item.
  unfold callback_patch. fold (webhook_resultCode callbackData).
  rewrite Hrc. cbn [strict_equals VNum Num number_strict_equals].
  set (p := mkPatch (Some completed) (Some now) None None None None None).
  destruct (field (field (webhook_stkCallback callbackData) "CallbackMetadata") "Item")
    as [| |b|n|s|elements|ps] eqn:EItem; cbn [fst snd];
    try (split; [reflexivity|]; split; [reflexivity|];
         intros Hwf; rewrite Hwf; repeat split; reflexivity).
  destruct (items_patch_keeps elements p) as (Hs & Hc & He).
  unfold apply. cbn [status completedAt actualAmount receiptNumber
    transactionDate payerPhone errorMessage phone amount accountRef
    createdAt customerMessage].
  rewrite Hs, Hc, He. cbn [p p_status p_completedAt p_errorMessage or_else].
  split; [reflexivity|]. split; [reflexivity|].
  intros Hwf.
  destruct (items_patch_named elements p Hwf) as (-> & -> & -> & -> & ->).
  cbn [p p_actualAmount p_receiptNumber p_transactionDate p_payerPhone].
  repeat split; (destruct (named _ elements); reflexivity).
Qed.

(** ** The result code is compared strictly *)

(** C10: the result code is compared with [===]: it selects the
    success branch only when it is the number [0]. For every webhook
    whose [ResultCode] is anything else, the string ["0"] included, a
    matching pending transaction becomes [failed], with [errorMessage]
    = [ResultDesc], and not [completed]. *)
Theorem C10_result_code_strict
    (callbackData : value) (now : Date) (w : world) (t : transaction) :
  truthy (webhook_stkCallback callbackData) = true ->
  Map.get (webhook_key callbackData) (transactions w) = Some t ->
  status t = pending ->
  let w' := snd (callback callbackData now w) in
  exists t',
    Map.get (webhook_key callbackData) (transactions w') = Some t' /\
    (webhook_resultCode callbackData <> VNum 0 ->
       status t' = failed /\ status t' <> completed /\
       errorMessage t' = Some (webhook_resultDesc callbackData)) /\
    (webhook_resultCode callbackData = VString "0" -> status t' = failed) /\
    (status t' = completed <-> webhook_resultCode callbackData = VNum 0).
Proof.
  intros Hstk Hget Hpending w'. subst w'.
  rewrite callback_run by (now apply truthy_container_not_nullish).
  rewrite Hstk, (get_has _ _ _ Hget). cbn [andb snd fst upd transactions].
  rewrite get_update, Hget. cbn [option_map].
  eexists. split; [reflexivity|].
  unfold callback_patch. fold (webhook_resultCode callbackData).
  destruct (strict_equals (webhook_resultCode callbackData) (VNum 0)) eqn:E.
  - apply strict_equals_zero in E.
    assert (Hs : status (apply (fst
              match field (field (webhook_stkCallback callbackData) "CallbackMetadata") "Item" with
              | VArray elements =>
                  items_patch elements
                    (mkPatch (Some completed) (Some now) None None None None None)
              | Item =>
                  (mkPatch (Some completed) (Some now) None None None None None,
                   negb (truthy Item))
              end) t) = completed).
    { destruct (field (field (webhook_stkCallback callbackData) "CallbackMetadata") "Item");
        try reflexivity.
      unfold apply. cbn [status].
      now destruct (items_patch_keeps elements
        (mkPatch (Some completed) (Some now) None None None None None)) as (-> & _). }
    rewrite Hs. rewrite E.
    repeat split; try congruence; try discriminate.
  - assert (Hne : webhook_resultCode callbackData <> VNum 0).
    { intros H. apply strict_equals_zero in H. congruence. }
    cbn [fst apply p_status status errorMessage p_errorMessage or_else].
    repeat split; try discriminate; try contradiction.
Qed.

(** ** Applying the same webhook twice *)

Lemma items_patch_retime (d : Date) (items : list value) (p : patch) :
  items_patch items (retime d p) =
    (retime d (fst (items_patch items p)), snd (items_patch items p)).
Proof.
  revert p. induction items as [|item rest IH]; intros p; simpl.
  - reflexivity.
  - destruct (nullish item); [reflexivity|].
    rewrite <- IH. reflexivity.
Qed.

Lemma callback_patch_retime (stkCallback : value) (d1 d2 : Date) :
  strict_equals (field stkCallback "ResultCode") (VNum 0) = true ->
  callback_patch stkCallback d2 =
    (retime d2 (fst (callback_patch stkCallback d1)),
     snd (callback_patch stkCallback d1)).
Proof.
  intros H. unfold callback_patch. rewrite H.
  change (mkPatch (Some completed) (Some d2) None None None None None)
    with (retime d2 (mkPatch (Some completed) (Some d1) None None None None None)).
  destruct (field (field stkCallback "CallbackMetadata") "Item");
    try reflexivity.
  apply items_patch_retime.
Qed.

Lemma callback_patch_failure (stkCallback : value) (d1 d2 : Date) :
  strict_equals (field stkCallback "ResultCode") (VNum 0) = false ->
  callback_patch stkCallback d2 = callback_patch stkCallback d1.
Proof. intros H. unfold callback_patch. now rewrite H. Qed.

Lemma apply_retime (d : Date) (p : patch) (t : transaction) :
  apply (retime d p) (apply p t) = set_completedAt d (apply p t).
Proof.
  destruct p as [s c a r td pp e].
  destruct s, c, a, r, td, pp, e; reflexivity.
Qed.

Lemma apply_idempotent (p : patch) (t : transaction) :
  apply p (apply p t) = apply p t.
Proof.
  destruct p as [s c a r td pp e].
  destruct s, c, a, r, td, pp, e; reflexivity.
Qed.

(** The second of two calls with the same body: it re-stamps
    [completedAt] when the webhook is a success webhook for a known key,
    and changes nothing otherwise. *)
Lemma callback_twice (callbackData : value) (d1 d2 : Date) (w : world) :
  let w1 := snd (callback callbackData d1 w) in
  snd (callback callbackData d2 w1) =
    if truthy (webhook_stkCallback callbackData)
       && Map.has (webhook_key callbackData) (transactions w)
       && strict_equals (webhook_resultCode callbackData) (VNum 0)
    then upd (webhook_key callbackData) (set_completedAt d2) w1
    else w1.
Proof.
  intros w1. subst w1.
  destruct (nullish callbackData) eqn:Hbody.
  - rewrite !callback_nullish by assumption.
    destruct callbackData; try discriminate; reflexivity.
  - rewrite !callback_run by assumption.
    destruct (truthy (webhook_stkCallback callbackData)
              && Map.has (webhook_key callbackData) (transactions w)) eqn:Hc.
    + cbn [snd upd transactions]. rewrite has_update.
      rewrite Hc. cbn [snd andb].
      fold (upd (webhook_key callbackData)
              (apply (fst (callback_patch (webhook_stkCallback callbackData) d1))) w).
      rewrite upd_upd.
      unfold webhook_resultCode.
      destruct (strict_equals (field (webhook_stkCallback callbackData) "ResultCode")
                  (VNum 0)) eqn:Hrc.
      * rewrite (callback_patch_retime _ d1 d2 Hrc). cbn [fst].
        rewrite upd_upd. apply upd_ext. intros t. apply apply_retime.
      * rewrite (callback_patch_failure _ d1 d2 Hrc).
        apply upd_ext. intros t. apply apply_idempotent.
    + cbn [snd andb]. now rewrite Hc.
Qed.

Lemma get_update_cases (k k' : value) (f : transaction -> transaction) (m : Map.t) :
  Map.get k' (Map.update k f m) = Map.get k' m \/
  exists t, Map.get k' m = Some t /\ Map.get k' (Map.update k f m) = Some (f t).
Proof.
  induction m as [|[e v] m IH]; simpl; [now left|].
  destruct (same_value_zero e k) eqn:E; simpl.
  - destruct (same_value_zero e k'); [right; eauto | now left].
  - destruct (same_value_zero e k'); [now left | exact IH].
Qed.

Lemma field_of_object (o : value) (name : string) :
  field o name <> VUndefined -> truthy o = true /\ nullish o = false.
Proof. destruct o; simpl; intros H; try contradiction; now split. Qed.

(** C1 (amended): applying the callback a second time with the same
    webhook body leaves every stored record as the first application
    left it, except that a success webhook (result code [0]) for a known
    key re-stamps [completedAt] of its record with the time of the
    second call, and does so whenever the key is known. The status does
    not flip and no other property is rewritten; the records under
    other keys are as the first application left them; a failure
    webhook leaves the whole registry unchanged, and so does a second
    call made at the time of the first. *)
Theorem C1_second_webhook_restamps_only
    (callbackData : value) (d1 d2 : Date) (w : world) :
  let w1 := snd (callback callbackData d1 w) in
  let w2 := snd (callback callbackData d2 w1) in
  (forall k t1, Map.get k (transactions w1) = Some t1 ->
     Map.get k (transactions w2) = Some t1 \/
     Map.get k (transactions w2) = Some (set_completedAt d2 t1)) /\
  (forall k t1 t2, Map.get k (transactions w1) = Some t1 ->
     Map.get k (transactions w2) = Some t2 ->
     status t2 = status t1 /\ errorMessage t2 = errorMessage t1 /\
     actualAmount t2 = actualAmount t1 /\ receiptNumber t2 = receiptNumber t1 /\
     transactionDate t2 = transactionDate t1 /\ payerPhone t2 = payerPhone t1) /\
  (webhook_resultCode callbackData <> VNum 0 -> w2 = w1) /\
  (d2 = d1 -> w2 = w1) /\
  (webhook_resultCode callbackData = VNum 0 ->
   forall t1, Map.get (webhook_key callbackData) (transactions w1) = Some t1 ->
     Map.get (webhook_key callbackData) (transactions w2)
       = Some (set_completedAt d2 t1) /\
     completedAt (set_completedAt d2 t1) = Some d2) /\
  (forall k, k <> webhook_key callbackData ->
     Map.get k (transactions w2) = Map.get k (transactions w1)) /\
  requests w2 = requests w1.
Proof.
  intros w1 w2.
  assert (Htwice : w2 =
    if truthy (webhook_stkCallback callbackData)
       && Map.has (webhook_key callbackData) (transactions w)
       && strict_equals (webhook_resultCode callbackData) (VNum 0)
    then upd (webhook_key callbackData) (set_completedAt d2) w1
    else w1).
  { subst w2. unfold w1 at 1. now rewrite callback_twice. }
  assert (Hcases : forall k t1, Map.get k (transactions w1) = Some t1 ->
     Map.get k (transactions w2) = Some t1 \/
     Map.get k (transactions w2) = Some (set_completedAt d2 t1)).
  { intros k t1 Hget. subst w2. unfold w1 at 1 2. rewrite callback_twice.
    fold w1.
    destruct (truthy (webhook_stkCallback callbackData)
              && Map.has (webhook_key callbackData) (transactions w)
              && strict_equals (webhook_resultCode callbackData) (VNum 0));
      [|now left].
    cbn [upd transactions].
    destruct (get_update_cases (webhook_key callbackData) k
                (set_completedAt d2) (transactions w1)) as [-> | (t & Ht & ->)].
    - now left.
    - right. congruence. }
  split; [exact Hcases|]. split; [|split; [|split; [|split; [|split]]]].
  - intros k t1 t2 H1 H2.
    destruct (Hcases k t1 H1) as [H | H]; rewrite H in H2;
      injection H2 as <-; repeat split.
  - intros Hrc. subst w2. unfold w1 at 1. rewrite callback_twice. fold w1.
    rewrite (strict_equals_nonzero _ Hrc). now rewrite andb_false_r.
  - intros ->. subst w2. unfold w1 at 1. rewrite callback_twice. fold w1.
    destruct (truthy (webhook_stkCallback callbackData)
              && Map.has (webhook_key callbackData) (transactions w)) eqn:Hc;
      [|reflexivity].
    cbn [andb].
    destruct (strict_equals (webhook_resultCode callbackData) (VNum 0)) eqn:Hrc;
      [|reflexivity].
    subst w1.
    assert (Hbody : nullish callbackData = false).
    { apply andb_true_iff in Hc as [Hc _].
      now apply truthy_container_not_nullish. }
    rewrite callback_run by assumption. rewrite Hc. cbn [snd].
    rewrite upd_upd. apply upd_ext. intros t.
    rewrite (callback_patch_retime _ d1 d1 Hrc) at 1. cbn [fst].
    rewrite <- apply_retime.
    rewrite (callback_patch_retime _ d1 d1 Hrc). cbn [fst].
    generalize (fst (callback_patch (webhook_stkCallback callbackData) d1)).
    intros p. destruct p as [s c a r td pp e].
    destruct s, c, a, r, td, pp, e; reflexivity.
  - intros Hrc t1 Hget. split; [|reflexivity].
    assert (Hstk : truthy (webhook_stkCallback callbackData) = true).
    { apply (field_of_object _ "ResultCode").
      unfold webhook_resultCode in Hrc. rewrite Hrc. discriminate. }
    assert (Hhas : Map.has (webhook_key callbackData) (transactions w) = true).
    { apply get_has in Hget. subst w1.
      rewrite callback_run in Hget by (now apply truthy_container_not_nullish).
      destruct (truthy (webhook_stkCallback callbackData)
                && Map.has (webhook_key callbackData) (transactions w));
        cbn [snd upd transactions] in Hget; [|exact Hget].
      now rewrite has_update in Hget. }
    rewrite Htwice, Hstk, Hhas, Hrc. cbn [andb strict_equals VNum Num number_strict_equals].
    cbn [upd transactions]. now rewrite get_update, Hget.
  - intros k Hk. rewrite Htwice.
    destruct (truthy (webhook_stkCallback callbackData)
              && Map.has (webhook_key callbackData) (transactions w)
              && strict_equals (webhook_resultCode callbackData) (VNum 0));
      [|reflexivity].
    cbn [upd transactions]. now apply get_update_other.
  - rewrite Htwice.
    destruct (truthy (webhook_stkCallback callbackData)
              && Map.has (webhook_key callbackData) (transactions w)
              && strict_equals (webhook_resultCode callbackData) (VNum 0));
      reflexivity.
Qed.

(* ================================================================= *)
(** ** Running the STK-push handler *)

Section ServerProperties.

Variable process_env : string -> option string.
Variable parseInt : value -> number.
Variable axios : request -> result value.

Lemma await_run (r : request) (w : world) :
  await axios r w = (axios r, mkWorld (transactions w) (requests w ++ [r])).
Proof. reflexivity. Qed.

Lemma getAccessToken_run (w : world) :
  getAccessToken process_env axios w =
    match axios (token_request process_env) with
    | Return response_data =>
        prop response_data "access_token"
          (mkWorld (transactions w) (requests w ++ [token_request process_env]))
    | Throw e =>
        (Throw e, mkWorld (transactions w) (requests w ++ [token_request process_env]))
    end.
Proof.
  unfold getAccessToken, try_catch. rewrite bind_run, await_run.
  destruct (axios (token_request process_env)) as [data|e]; [|reflexivity].
  destruct data; reflexivity.
Qed.

Lemma string_method_run (s callee : string) (w : world) :
  string_method (VString s) callee w = (Return s, w).
Proof. reflexivity. Qed.

(** A request with a missing (falsy) field is answered 400 before
    anything else happens. *)
Lemma stk_push_validates (body : value) (password_now created_now : Date) (w : world) :
  nullish body = false ->
  truthy (field body "phone") && truthy (field body "amount")
    && truthy (field body "accountRef") = false ->
  stk_push process_env parseInt axios body password_now created_now w = (validation_failure, w).
Proof.
  intros Hbody Hfalsy. unfold stk_push, stk_push_try.
  rewrite bind_run.
  replace (destructurable body w) with (@Return unit tt, w)
    by (destruct body; try discriminate; reflexivity).
  run.
  rewrite <- !negb_andb, Hfalsy. reflexivity.
Qed.

(** The path on which every step succeeds. *)
Lemma stk_push_succeeds (body : value) (password_now created_now : Date) (w : world)
    (phone accountRef : string) (token_data response_data : value) :
  accepted process_env parseInt axios body password_now phone accountRef
    token_data response_data ->
  stk_push process_env parseInt axios body password_now created_now w =
    (success_response (field response_data "CheckoutRequestID")
       (field response_data "CustomerMessage"),
     mkWorld
       (Map.set (field response_data "CheckoutRequestID")
          (transaction_literal parseInt (formattedPhone phone) (field body "amount")
             (VString accountRef) created_now
             (field response_data "CustomerMessage"))
          (transactions w))
       (requests w ++
          [token_request process_env;
           push_request_for process_env parseInt body password_now phone accountRef
             token_data])).
Proof.
  intros (Hphone & Hph & Hamount & Hconv & Href & Har & Htoken & Htd & Htconv
          & Hpush & Hrd).
  unfold push_request_for in *.
  assert (Hbody : nullish body = false).
  { destruct body; try discriminate; reflexivity. }
  unfold stk_push, stk_push_try.
  rewrite bind_run.
  replace (destructurable body w) with (@Return unit tt, w)
    by (destruct body; try discriminate; reflexivity).
  run. rewrite Hphone, Href, Hamount.
  assert (Hp : truthy (VString phone) = true).
  { simpl. apply negb_true_iff. now apply String.eqb_neq. }
  assert (Ha : truthy (VString accountRef) = true).
  { simpl. apply negb_true_iff. now apply String.eqb_neq. }
  rewrite Hp, Ha. cbn [negb orb].
  rewrite bind_run, string_method_run. cbv beta iota.
  rewrite bind_run, getAccessToken_run, Htoken.
  run.
  rewrite string_method_run. run.
  rewrite await_run. rewrite Hpush.
  run.
  unfold Map_set. cbn [transactions requests].
  rewrite <- app_assoc. reflexivity.
Qed.

Lemma truthy_string (s : string) : truthy (VString s) = true -> s <> "".
Proof. simpl. intros H. apply negb_true_iff in H. now apply String.eqb_neq. Qed.

Lemma world_sent_nothing (w : world) : w = sent w [].
Proof. unfold sent. rewrite app_nil_r. now destruct w. Qed.

(** Every run of the handler ends in one of the outcomes. *)
Lemma stk_push_outcomes (body : value) (password_now created_now : Date) (w : world) :
  stk_push_outcome process_env parseInt axios body password_now created_now w
    (stk_push process_env parseInt axios body password_now created_now w).
Proof.
  destruct (nullish body) eqn:Hbody.
  { destruct body; try discriminate; apply refused; discriminate. }
  destruct (truthy (field body "phone") && truthy (field body "amount")
            && truthy (field body "accountRef")) eqn:Hvalid.
  2:{ rewrite stk_push_validates by assumption. apply refused. discriminate. }
  apply andb_true_iff in Hvalid as [Hvalid Href].
  apply andb_true_iff in Hvalid as [Hphone Hamount].
  unfold stk_push, stk_push_try.
  rewrite bind_run.
  replace (destructurable body w) with (@Return unit tt, w)
    by (destruct body; try discriminate; reflexivity).
  run. rewrite Hphone, Hamount, Href. cbn [negb orb].
  rewrite bind_run.
  destruct (field body "phone") as [| |b|n|phone|l|ps] eqn:Ephone;
    try (apply refused; discriminate).
  rewrite string_method_run. cbv beta iota.
  rewrite bind_run, getAccessToken_run.
  destruct (axios (token_request process_env)) as [token_data|e] eqn:Etoken.
  2:{ now apply token_rejected. }
  destruct (nullish token_data) eqn:Htd.
  { destruct token_data; try discriminate;
      eapply token_unusable; eassumption. }
  run.
  destruct (ToString_throws (field body "amount")) eqn:Hconv.
  { rewrite ToString_throw by assumption.
    eapply token_unusable; eassumption. }
  run.
  destruct (field body "accountRef") as [| |b|n|accountRef|l|ps] eqn:Eref;
    try (eapply token_unusable; eassumption).
  rewrite string_method_run. cbv beta iota.
  destruct (ToString_throws (field token_data "access_token")) eqn:Htconv.
  { rewrite bind_run, ToString_throw by assumption.
    eapply token_unusable; eassumption. }
  run. rewrite await_run.
  fold (push_request_for process_env parseInt body password_now phone accountRef token_data).
  destruct (axios (push_request_for process_env parseInt body password_now phone accountRef
                     token_data)) as [response_data|e] eqn:Epush.
  2:{ cbn [transactions requests]. rewrite <- app_assoc.
      now apply push_rejected. }
  destruct (nullish response_data) eqn:Hrd.
  { destruct response_data; try discriminate;
      cbn [prop throw transactions requests]; rewrite <- app_assoc;
      eapply push_unusable; eassumption. }
  run. unfold Map_set. cbn [transactions requests]. rewrite <- app_assoc.
  apply created.
  repeat split; auto using truthy_string.
Qed.

Lemma stk_push_success_inv (body : value) (password_now created_now : Date)
    (w : world) :
  statusCode (fst (stk_push process_env parseInt axios body password_now created_now w)) = 200 ->
  exists phone accountRef token_data response_data,
    accepted process_env parseInt axios body password_now phone accountRef
      token_data response_data.
Proof.
  intros H.
  pose proof (stk_push_outcomes body password_now created_now w) as Hout.
  destruct (stk_push process_env parseInt axios body password_now created_now w) as [res w'].
  cbn [fst] in H.
  inversion Hout; subst; try discriminate; try contradiction.
  eauto.
Qed.

Lemma take_all (n : nat) (s : string) :
  Str.take n s = s <-> String.length s <= n.
Proof.
  revert n. induction s as [|a s IH]; intros [|n]; simpl.
  - split; auto.
  - split; auto with arith.
  - split; [discriminate | lia].
  - rewrite <- Nat.succ_le_mono, <- IH.
    split; [now intros [= ->] | now intros ->].
Qed.

(** ** Validation *)

(** A request without a body: the destructuring of line 89 throws and
    the [catch] block answers. *)
Lemma stk_push_without_body (body : value) (password_now created_now : Date)
    (w : world) :
  nullish body = true ->
  exists message,
    stk_push process_env parseInt axios body password_now created_now w =
      (stk_push_catch (TypeError message), w).
Proof. destruct body; try discriminate; intros _; eexists; reflexivity. Qed.

(** C2 (amended): when [phone], [amount] or [accountRef] is missing
    from the request, or present with a falsy value ([null], [false],
    [0], [NaN], the empty string), the handler sends nothing to the
    gateway and creates no transaction. It answers 400 with the
    validation message when the request has a body; when the request has
    no body at all ([req.body] is [undefined] or [null]) the three
    fields are missing too, and the answer is the 500 of the [catch]
    block. The handler does not require [amount] to be positive. *)
Theorem C2_missing_field_is_refused
    (body : value) (password_now created_now : Date) (w : world) :
  truthy (field body "phone") = false \/
  truthy (field body "amount") = false \/
  truthy (field body "accountRef") = false ->
  let res := fst (stk_push process_env parseInt axios body password_now created_now w) in
  let w' := snd (stk_push process_env parseInt axios body password_now created_now w) in
  requests w' = requests w /\ transactions w' = transactions w /\
  (nullish body = false -> res = validation_failure /\ statusCode res = 400) /\
  (nullish body = true ->
   (exists message, res = stk_push_catch (TypeError message)) /\
   statusCode res = 500).
Proof.
  intros Hmissing res w'. subst res w'.
  destruct (nullish body) eqn:Hbody.
  - destruct (stk_push_without_body body password_now created_now w Hbody)
      as [message ->].
    repeat split; try discriminate. now exists message.
  - rewrite stk_push_validates; [repeat split; discriminate | assumption |].
    destruct Hmissing as [-> | [-> | ->]];
      rewrite ?andb_false_r; reflexivity.
Qed.

(** ** Creation *)

(** C3 (amended): creating the record of an accepted request never
    fails. When the [CheckoutRequestID] the gateway returned is already
    a key of the registry, the record stored under it is replaced by the
    new pending record; the other records are kept and no entry is
    added. The specification's [create] would fail there. *)
Theorem C3_existing_key_is_replaced
    (body : value) (password_now created_now : Date) (w : world)
    (phone accountRef : string) (token_data response_data : value) :
  accepted process_env parseInt axios body password_now phone accountRef
    token_data response_data ->
  let key := field response_data "CheckoutRequestID" in
  let record :=
    transaction_literal parseInt (formattedPhone phone) (field body "amount")
      (VString accountRef) created_now (field response_data "CustomerMessage") in
  Map.has key (transactions w) = true ->
  let res := fst (stk_push process_env parseInt axios body password_now created_now w) in
  let w' := snd (stk_push process_env parseInt axios body password_now created_now w) in
  statusCode res = 200 /\
  Map.get key (transactions w') = Some record /\
  status record = pending /\
  (forall k, k <> key -> Map.get k (transactions w') = Map.get k (transactions w)) /\
  List.length (transactions w') = List.length (transactions w) /\
  spec_create key record (transactions w) = None.
Proof.
  intros Hacc key record Hhas res w'. subst res w'.
  rewrite (stk_push_succeeds _ _ _ _ _ _ _ _ Hacc).
  cbn [fst snd transactions]. fold key record.
  pose proof (has_key_refl _ _ Hhas) as Hrefl.
  repeat split.
  - now apply get_set.
  - intros k Hk. now apply get_set_other.
  - now apply set_present_length.
  - unfold spec_create. now rewrite Hhas.
Qed.

(** C4 (amended): the transaction created by a successful request
    holds the normalised phone and the parsed amount that were submitted
    to the gateway, and the caller's account reference as it was
    received. The reference is cut to 12 characters in the gateway
    payload only, so the stored [accountRef] equals the submitted
    [AccountReference] exactly when it has at most 12 characters. *)
Theorem C4_stored_copies
    (body : value) (password_now created_now : Date) (w : world) :
  let res := fst (stk_push process_env parseInt axios body password_now created_now w) in
  let w' := snd (stk_push process_env parseInt axios body password_now created_now w) in
  statusCode res = 200 ->
  exists (raw : string) (payload : stkPushPayload) (accessToken key : value)
         (record : transaction),
    field body "accountRef" = VString raw /\
    requests w' =
      (requests w ++ [token_request process_env; push_request payload accessToken])%list /\
    transactions w' = Map.set key record (transactions w) /\
    accountRef record = VString raw /\
    AccountReference payload = Str.substring 0 12 raw /\
    (accountRef record = VString (AccountReference payload) <->
     String.length raw <= 12) /\
    PartyA payload = phone record /\ PhoneNumber payload = phone record /\
    Amount payload = amount record /\
    status record = pending /\ createdAt record = created_now.
Proof.
  intros res w' Hok. subst res w'.
  destruct (stk_push_success_inv _ _ _ _ Hok)
    as (phone_string & raw & token_data & response_data & Hacc).
  rewrite (stk_push_succeeds _ _ _ _ _ _ _ _ Hacc).
  destruct Hacc as (_ & _ & _ & _ & Href & _).
  exists raw. eexists. eexists. eexists. eexists.
  split; [exact Href|].
  split; [reflexivity|]. split; [reflexivity|].
  unfold transaction_literal, stkPushPayload_literal, generatePassword.
  cbn [accountRef AccountReference PartyA PhoneNumber Amount phone amount
       status createdAt].
  change (Str.substring 0 12 raw) with (Str.take 12 raw).
  repeat split; try reflexivity.
  - intros H. apply (take_all 12). congruence.
  - intros H. apply (take_all 12) in H. congruence.
Qed.

(** ** Failures of the gateway *)

(** C9 (amended): when a call the handler makes to the gateway is
    rejected (a transport error, a timeout, a non-success status), be it
    the token request or the push request, the handler answers 500 with
    the upstream detail of that error and the registry is unchanged. A
    response that only lacks the token or the [CheckoutRequestID] is not
    a rejection and is not treated as one. *)
Theorem C9_rejected_call_creates_nothing
    (body : value) (password_now created_now : Date) (w : world)
    (issued : list request) (r : request) (e : error) :
  let res := fst (stk_push process_env parseInt axios body password_now created_now w) in
  let w' := snd (stk_push process_env parseInt axios body password_now created_now w) in
  requests w' = (requests w ++ issued)%list ->
  In r issued ->
  axios r = Throw e ->
  res = stk_push_catch e /\ statusCode res = 500 /\
  field (json res) "success" = VBool false /\
  field (json res) "details" = error_details e /\
  transactions w' = transactions w.
Proof.
  intros res w' Hreq Hin Hr. subst res w'.
  pose proof (stk_push_outcomes body password_now created_now w) as Hout.
  destruct (stk_push process_env parseInt axios body password_now created_now w) as [res w'].
  cbn [fst snd] in *.
  assert (Hnil : forall l, requests w = (requests w ++ l)%list -> l = []).
  { intros l H. apply (app_inv_head (requests w)). now rewrite app_nil_r. }
  inversion Hout; subst; cbn [sent requests transactions] in Hreq;
    try (apply app_inv_head in Hreq; subst issued; cbn [In] in Hin).
  - apply Hnil in Hreq. subst issued. contradiction.
  - destruct Hin as [<- | []]. replace e0 with e by congruence. now repeat split.
  - destruct Hin as [<- | []]. congruence.
  - destruct Hin as [<- | [<- | []]]; [congruence|].
    replace e0 with e by congruence. now repeat split.
  - destruct Hin as [<- | [<- | []]]; congruence.
  - destruct H0 as (_ & _ & _ & _ & _ & _ & Ht & _ & _ & Hp & _).
    destruct Hin as [<- | [<- | []]]; congruence.
Qed.

End ServerProperties.

(* ================================================================= *)
(** ** Instances *)

Lemma C5_formattedPhone_witness :
  formattedPhone " 0712345678 " = "254712345678".
Proof.
  exact (proj1 (proj2 (C5_formattedPhone " 0712345678 ")) "712345678" eq_refl).
Defined.



Lemma C7_failure_webhook_witness :
  exists t,
    Map.get (VString "ws_CO_1") (transactions Sample.one_pending) = Some t /\
    let w' := snd (callback Sample.failure_webhook Sample.later Sample.one_pending) in
    let t' := set_errorMessage (VString "Request cancelled by user")
                (set_status failed t) in
    fst (callback Sample.failure_webhook Sample.later Sample.one_pending)
      = acknowledgment /\
    Map.get (VString "ws_CO_1") (transactions w') = Some t' /\
    status t' = failed /\
    errorMessage t' = Some (VString "Request cancelled by user") /\
    (forall k, k <> VString "ws_CO_1" ->
       Map.get k (transactions w') = Map.get k (transactions Sample.one_pending)) /\
    requests w' = requests Sample.one_pending.
Proof.
  eexists. split; [reflexivity|].
  apply (C7_failure_webhook Sample.failure_webhook Sample.later Sample.one_pending).
  - reflexivity.
  - reflexivity.
  - discriminate.
Defined.

Lemma C6_success_webhook_witness :
  exists t',
    Map.get (VString "ws_CO_1")
      (transactions (snd (callback Sample.success_webhook Sample.later
                            Sample.one_pending))) = Some t' /\
    status t' = completed /\
    completedAt t' = Some Sample.later /\
    actualAmount t' = Some (VNum 100) /\
    receiptNumber t' = Some (VString "NLJ7RT61SV") /\
    transactionDate t' = Some (VNum 20240101120003) /\
    payerPhone t' = Some (VNum 254712345678).
Proof.
  destruct (C6_success_webhook Sample.success_webhook Sample.later
              Sample.one_pending
              (mkTransaction "254712345678" (Num 100) (VString "INV1") pending
                 Sample.noon (VString "Success. Request accepted for processing")
                 None None None None None None)
              eq_refl eq_refl eq_refl)
    as (t' & Hget & Hstatus & Hat & Hcopied).
  destruct (Hcopied eq_refl) as (_ & Ha & Hr & Hd & Hp & _).
  exists t'. repeat split; assumption.
Defined.

(** C6, as the specification states it, fails: when a [null] stands
    in the metadata list before the item named [Amount], the item is
    present and is not copied; the record is completed all the same and
    the webhook is answered with the negative acknowledgment. *)
Lemma C6_null_item_stops_the_copy :
  let callbackData :=
    Sample.webhook (VNum 0) (VString "The service request is processed successfully.")
      [VNull; Sample.item "Amount" (VNum 100)] in
  let r := callback callbackData Sample.later Sample.one_pending in
  let stored := Map.get (VString "ws_CO_1") (transactions (snd r)) in
  webhook_resultCode callbackData = VNum 0 /\
  Map.has (webhook_key callbackData) (transactions Sample.one_pending) = true /\
  named "Amount" (webhook_items callbackData) = Some (VNum 100) /\
  option_map status stored = Some completed /\
  option_map completedAt stored = Some (Some Sample.later) /\
  option_map actualAmount stored = Some None /\
  fst r = negative_acknowledgment.
Proof. vm_compute. repeat split. Qed.

Lemma C10_string_zero_witness :
  exists t',
    Map.get (VString "ws_CO_1")
      (transactions
         (snd (callback (Sample.webhook (VString "0") (VString "ok") [])
                 Sample.later Sample.one_pending))) = Some t' /\
    status t' = failed.
Proof.
  destruct (C10_result_code_strict
              (Sample.webhook (VString "0") (VString "ok") [])
              Sample.later Sample.one_pending
              (mkTransaction "254712345678" (Num 100) (VString "INV1") pending
                 Sample.noon (VString "Success. Request accepted for processing")
                 None None None None None None)
              eq_refl eq_refl eq_refl)
    as (t' & Hget & _ & Hzero & _).
  exists t'. split; [exact Hget | exact (Hzero eq_refl)].
Defined.

(** C1, as the specification states it, fails: a second delivery of
    the success webhook to a completed transaction re-stamps
    [completedAt]. *)
Lemma C1_completedAt_is_restamped :
  let key := VString "ws_CO_1" in
  let w1 := snd (callback Sample.success_webhook Sample.noon Sample.one_pending) in
  let w2 := snd (callback Sample.success_webhook Sample.later w1) in
  option_map status (Map.get key (transactions w1)) = Some completed /\
  option_map completedAt (Map.get key (transactions w1)) = Some (Some Sample.noon) /\
  option_map completedAt (Map.get key (transactions w2)) = Some (Some Sample.later) /\
  Map.get key (transactions w2) <> Map.get key (transactions w1).
Proof. vm_compute. repeat split. discriminate. Qed.

Lemma C1_second_webhook_witness :
  let w1 := snd (callback Sample.success_webhook Sample.noon Sample.one_pending) in
  let w2 := snd (callback Sample.success_webhook Sample.later w1) in
  let t1 :=
    mkTransaction "254712345678" (Num 100) (VString "INV1") completed Sample.noon
      (VString "Success. Request accepted for processing")
      (Some Sample.noon) (Some (VNum 100)) (Some (VString "NLJ7RT61SV"))
      (Some (VNum 20240101120003)) (Some (VNum 254712345678)) None in
  Map.get (VString "ws_CO_1") (transactions w1) = Some t1 /\
  Map.get (VString "ws_CO_1") (transactions w2)
    = Some (set_completedAt Sample.later t1) /\
  completedAt (set_completedAt Sample.later t1) = Some Sample.later.
Proof.
  split; [reflexivity|].
  exact (proj1 (proj2 (proj2 (proj2 (proj2
           (C1_second_webhook_restamps_only Sample.success_webhook
              Sample.noon Sample.later Sample.one_pending)))))
           eq_refl _ eq_refl).
Defined.

Lemma C2_missing_amount_witness :
  let body := VObject [("phone", VString "0712345678"); ("accountRef", VString "INV1")] in
  let r := stk_push Sample.process_env Sample.parseInt Sample.gateway body Sample.noon Sample.noon
             Sample.one_pending in
  fst r = validation_failure /\ statusCode (fst r) = 400 /\
  requests (snd r) = requests Sample.one_pending /\
  transactions (snd r) = transactions Sample.one_pending.
Proof.
  destruct (C2_missing_field_is_refused Sample.process_env Sample.parseInt
              Sample.gateway
              (VObject [("phone", VString "0712345678");
                        ("accountRef", VString "INV1")])
              Sample.noon Sample.noon Sample.one_pending
              (or_intror (or_introl eq_refl)))
    as (Hrequests & Htransactions & Hbody & _).
  destruct (Hbody eq_refl) as [Hres Hcode].
  repeat split; assumption.
Defined.

(** C2, as the specification states it, fails: a negative amount is
    present and truthy, so the request passes validation, both calls to
    the gateway are made and a transaction is created. And a request
    without a body, in which the three fields are missing, is answered
    500 and not with the validation error. *)
Lemma C2_negative_amount_is_accepted :
  let body := Sample.request_body (VNum (-5)) (VString "INV1") in
  let r := stk_push Sample.process_env Sample.parseInt Sample.gateway body Sample.noon Sample.noon
             Sample.nothing in
  let r0 := stk_push Sample.process_env Sample.parseInt Sample.gateway VUndefined
              Sample.noon Sample.noon Sample.nothing in
  positive_number (field body "amount") = false /\
  statusCode (fst r) = 200 /\
  List.length (requests (snd r)) = 2 /\
  option_map amount (Map.get (VString "ws_CO_1") (transactions (snd r)))
    = Some (Num (-5)) /\
  truthy (field VUndefined "amount") = false /\
  statusCode (fst r0) = 500 /\ fst r0 <> validation_failure.
Proof. vm_compute. repeat split. discriminate. Qed.

Lemma sample_accepted :
  accepted Sample.process_env Sample.parseInt Sample.gateway
    (Sample.request_body (VNum 250) (VString "INVOICE-2024-000123")) Sample.later
    "0712345678" "INVOICE-2024-000123"
    (VObject [("access_token", VString "token"); ("expires_in", VString "3599")])
    (VObject [("MerchantRequestID", VString "29115-34620561-1");
              ("CheckoutRequestID", VString "ws_CO_1");
              ("ResponseCode", VString "0");
              ("CustomerMessage", VString "Success. Request accepted for processing")]).
Proof. repeat split; try reflexivity; discriminate. Defined.

Lemma C3_existing_key_witness :
  let w := Sample.one_pending in
  let r := stk_push Sample.process_env Sample.parseInt Sample.gateway
             (Sample.request_body (VNum 250) (VString "INVOICE-2024-000123"))
             Sample.later Sample.later w in
  let record :=
    transaction_literal Sample.parseInt "254712345678" (VNum 250) (VString "INVOICE-2024-000123")
      Sample.later (VString "Success. Request accepted for processing") in
  statusCode (fst r) = 200 /\
  Map.get (VString "ws_CO_1") (transactions (snd r)) = Some record /\
  status record = pending /\
  (forall k, k <> VString "ws_CO_1" ->
     Map.get k (transactions (snd r)) = Map.get k (transactions w)) /\
  List.length (transactions (snd r)) = List.length (transactions w) /\
  spec_create (VString "ws_CO_1") record (transactions w) = None.
Proof.
  exact (C3_existing_key_is_replaced Sample.process_env Sample.parseInt Sample.gateway
           (Sample.request_body (VNum 250) (VString "INVOICE-2024-000123"))
           Sample.later Sample.later Sample.one_pending
           "0712345678" "INVOICE-2024-000123" _ _ sample_accepted eq_refl).
Defined.

(** C3, as the specification states it, fails: a push accepted under
    a [CheckoutRequestID] the registry already holds does not fail with
    a duplicate-key error; the completed record under that key is
    overwritten by a pending one. *)
Lemma C3_duplicate_key_overwrites :
  let key := VString "ws_CO_1" in
  let w := snd (callback Sample.success_webhook Sample.noon Sample.one_pending) in
  let r := stk_push Sample.process_env Sample.parseInt Sample.gateway
             (Sample.request_body (VNum 250) (VString "INV2"))
             Sample.later Sample.later w in
  Map.has key (transactions w) = true /\
  option_map status (Map.get key (transactions w)) = Some completed /\
  statusCode (fst r) = 200 /\
  option_map status (Map.get key (transactions (snd r))) = Some pending /\
  Map.get key (transactions (snd r)) <> Map.get key (transactions w).
Proof. vm_compute. repeat split. discriminate. Qed.

Lemma C4_stored_copies_witness :
  exists (raw : string) (payload : stkPushPayload) (record : transaction),
    transactions
      (snd (stk_push Sample.process_env Sample.parseInt Sample.gateway
              (Sample.request_body (VNum 250) (VString "INVOICE-2024-000123"))
              Sample.later Sample.later Sample.nothing))
      = [(VString "ws_CO_1", record)] /\
    accountRef record = VString raw /\
    AccountReference payload = Str.substring 0 12 raw /\
    PartyA payload = phone record /\ Amount payload = amount record.
Proof.
  destruct (C4_stored_copies Sample.process_env Sample.parseInt Sample.gateway
              (Sample.request_body (VNum 250) (VString "INVOICE-2024-000123"))
              Sample.later Sample.later Sample.nothing eq_refl)
    as (raw & payload & accessToken & key & record & Href & Hreq & Hset & Hraw
        & Hcut & _ & Hparty & _ & Hamount & _).
  exists raw, payload, record.
  assert (Hkey : key = VString "ws_CO_1").
  { destruct (transactions
                (snd (stk_push Sample.process_env Sample.parseInt Sample.gateway
                        (Sample.request_body (VNum 250) (VString "INVOICE-2024-000123"))
                        Sample.later Sample.later Sample.nothing))) eqn:E.
    - discriminate E.
    - vm_compute in E. cbn in Hset. congruence. }
  subst key. repeat split; assumption.
Defined.

(** C4, as the specification states it, fails: for a reference of 19
    characters the gateway receives the first 12 and the registry keeps
    all 19. *)
Lemma C4_stored_accountRef_is_raw :
  let r := stk_push Sample.process_env Sample.parseInt Sample.gateway
             (Sample.request_body (VNum 250) (VString "INVOICE-2024-000123"))
             Sample.later Sample.later Sample.nothing in
  statusCode (fst r) = 200 /\
  match requests (snd r) with
  | [_; axios_post _ payload _ _] => AccountReference payload = "INVOICE-2024"
  | _ => False
  end /\
  option_map accountRef (Map.get (VString "ws_CO_1") (transactions (snd r)))
    = Some (VString "INVOICE-2024-000123") /\
  option_map accountRef (Map.get (VString "ws_CO_1") (transactions (snd r)))
    <> Some (VString "INVOICE-2024").
Proof. vm_compute. repeat split. discriminate. Qed.

Lemma C9_gateway_down_witness :
  let r := stk_push Sample.process_env Sample.parseInt Sample.gateway_down
             (Sample.request_body (VNum 250) (VString "INV1"))
             Sample.later Sample.later Sample.one_pending in
  let e := AxiosError "timeout of 10000ms exceeded" None in
  fst r = stk_push_catch e /\ statusCode (fst r) = 500 /\
  field (json (fst r)) "success" = VBool false /\
  field (json (fst r)) "details" = error_details e /\
  transactions (snd r) = transactions Sample.one_pending.
Proof.
  apply (C9_rejected_call_creates_nothing Sample.process_env Sample.parseInt Sample.gateway_down
           (Sample.request_body (VNum 250) (VString "INV1"))
           Sample.later Sample.later Sample.one_pending
           [token_request Sample.process_env] (token_request Sample.process_env)).
  - reflexivity.
  - left. reflexivity.
  - reflexivity.
Defined.

(** C9, as the specification states it, fails: when the token
    response lacks the token and the push response lacks the
    [CheckoutRequestID], no error is surfaced; the push is sent with an
    undefined token, the answer is a success and a transaction is
    created under the key [undefined]. *)
Lemma C9_missing_fields_are_not_errors :
  let r := stk_push Sample.process_env Sample.parseInt Sample.gateway_without_fields
             (Sample.request_body (VNum 250) (VString "INV1"))
             Sample.later Sample.later Sample.nothing in
  statusCode (fst r) = 200 /\
  field (json (fst r)) "success" = VBool true /\
  match requests (snd r) with
  | [_; axios_post _ _ token _] => token = Bearer VUndefined
  | _ => False
  end /\
  option_map status (Map.get VUndefined (transactions (snd r))) = Some pending /\
  transactions (snd r) <> transactions Sample.nothing.
Proof. vm_compute. repeat split. discriminate. Qed.

(* ================================================================= *)
(** * Further properties *)

(** ** White space and the normalised phone *)

Lemma trimEnd_cons (a : ascii) (s : string) :
  Str.trimEnd (String a s) =
    match Str.trimEnd s with
    | EmptyString => if Str.isWhiteSpace a then EmptyString else String a EmptyString
    | t => String a t
    end.
Proof. reflexivity. Qed.

Lemma trimEnd_idempotent (s : string) : Str.trimEnd (Str.trimEnd s) = Str.trimEnd s.
Proof.
  induction s as [|a s IH]; [reflexivity|].
  rewrite trimEnd_cons.
  destruct (Str.trimEnd s) as [|b t] eqn:E.
  - destruct (Str.isWhiteSpace a) eqn:Ha; [reflexivity|].
    rewrite trimEnd_cons. cbn [Str.trimEnd]. now rewrite Ha.
  - rewrite trimEnd_cons, IH. reflexivity.
Qed.

Lemma trimEnd_keeps_head (a : ascii) (s : string) :
  Str.isWhiteSpace a = false ->
  exists t, Str.trimEnd (String a s) = String a t.
Proof.
  intros Ha. rewrite trimEnd_cons.
  destruct (Str.trimEnd s); rewrite ?Ha; eauto.
Qed.

Lemma trimStart_head (s : string) :
  Str.trimStart s = EmptyString \/
  exists a t, Str.trimStart s = String a t /\ Str.isWhiteSpace a = false.
Proof.
  induction s as [|a s IH]; [now left|].
  cbn [Str.trimStart]. destruct (Str.isWhiteSpace a) eqn:Ha; [exact IH|].
  right. eauto.
Qed.

Lemma trimStart_no_space (a : ascii) (s : string) :
  Str.isWhiteSpace a = false -> Str.trimStart (String a s) = String a s.
Proof. intros Ha. cbn [Str.trimStart]. now rewrite Ha. Qed.

Lemma trim_idempotent (s : string) : Str.trim (Str.trim s) = Str.trim s.
Proof.
  unfold Str.trim.
  destruct (trimStart_head s) as [-> | (a & t & -> & Ha)]; [reflexivity|].
  destruct (trimEnd_keeps_head a t Ha) as [u Hu].
  rewrite Hu, (trimStart_no_space _ _ Ha), <- Hu.
  apply trimEnd_idempotent.
Qed.

(** A string that [trimEnd] leaves alone stays so when its first
    character is dropped, and when characters that are not white space
    are put in front of it. *)
Lemma trimEnd_fixed_tail (a : ascii) (s : string) :
  Str.trimEnd (String a s) = String a s -> Str.trimEnd s = s.
Proof.
  rewrite trimEnd_cons.
  destruct (Str.trimEnd s) as [|b t] eqn:E.
  - destruct (Str.isWhiteSpace a); [discriminate|]. now intros [= <-].
  - now intros [= <-].
Qed.

Lemma trimEnd_fixed_cons (a : ascii) (s : string) :
  Str.isWhiteSpace a = false ->
  Str.trimEnd s = s -> Str.trimEnd (String a s) = String a s.
Proof.
  intros Ha Hs. rewrite trimEnd_cons, Hs.
  destruct s; [now rewrite Ha | reflexivity].
Qed.

Lemma trim_fixed_prefixed (s : string) :
  Str.trimEnd s = s -> Str.trim ("254" ++ s) = "254" ++ s.
Proof.
  intros Hs. unfold Str.trim.
  change ("254" ++ s) with (String "2" (String "5" (String "4" s))).
  rewrite trimStart_no_space by reflexivity.
  repeat (apply trimEnd_fixed_cons; [reflexivity|]). exact Hs.
Qed.

Lemma trimEnd_trim (s : string) : Str.trimEnd (Str.trim s) = Str.trim s.
Proof. unfold Str.trim. apply trimEnd_idempotent. Qed.

Lemma startsWith_inv (p s : string) :
  Str.startsWith p s = true -> exists rest, s = p ++ rest.
Proof.
  revert s. induction p as [|a p IH]; intros s H.
  - exists s. reflexivity.
  - destruct s as [|b s]; [discriminate|].
    rewrite startsWith_cons in H. apply andb_true_iff in H as [Hab Hps].
    apply Ascii.eqb_eq in Hab. subst b.
    destruct (IH s Hps) as [rest ->]. now exists rest.
Qed.

(** The four results of the chain, for a trimmed string. *)
Lemma formattedPhone_shape (phone : string) :
  exists rest,
    formattedPhone phone = "254" ++ rest /\ Str.trimEnd rest = rest.
Proof.
  unfold formattedPhone.
  pose proof (trimEnd_trim phone) as Hfix.
  destruct (Str.startsWith "0" (Str.trim phone)) eqn:E0.
  { destruct (startsWith_inv _ _ E0) as [rest Hrest]. rewrite Hrest in *.
    exists rest. split; [reflexivity|]. now apply trimEnd_fixed_tail in Hfix. }
  destruct (Str.startsWith "+254" (Str.trim phone)) eqn:Ep.
  { destruct (startsWith_inv _ _ Ep) as [rest Hrest]. rewrite Hrest in *.
    exists rest. split; [reflexivity|].
    now repeat apply trimEnd_fixed_tail in Hfix. }
  destruct (Str.startsWith "254" (Str.trim phone)) eqn:E254; cbn [negb].
  { destruct (startsWith_inv _ _ E254) as [rest Hrest]. rewrite Hrest in *.
    exists rest. split; [reflexivity|].
    now repeat apply trimEnd_fixed_tail in Hfix. }
  exists (Str.trim phone). split; [reflexivity | exact Hfix].
Qed.

(** X1: whatever the phone string, the normalised phone starts with
    the country code [254]. *)
Theorem X1_formattedPhone_has_country_code (phone : string) :
  Str.startsWith "254" (formattedPhone phone) = true.
Proof.
  destruct (formattedPhone_shape phone) as (rest & -> & _).
  apply startsWith_append.
Qed.

(** X2: normalising is idempotent: a normalised phone is left as it is
    by a second normalisation. *)
Theorem X2_formattedPhone_idempotent (phone : string) :
  formattedPhone (formattedPhone phone) = formattedPhone phone.
Proof.
  destruct (formattedPhone_shape phone) as (rest & -> & Hrest).
  unfold formattedPhone at 1. rewrite (trim_fixed_prefixed rest Hrest).
  reflexivity.
Qed.

(** X3: a phone made of white space only is not refused: it is a
    non-empty string, so the request passes validation, and when the
    gateway accepts the push the transaction is stored with the bare
    country code [254] as its phone. *)
Theorem X3_blank_phone_is_accepted
    (process_env : string -> option string) (parseInt : value -> number)
    (axios : request -> result value)
    (body : value) (password_now created_now : Date) (w : world)
    (phone accountRef : string) (token_data response_data : value) :
  accepted process_env parseInt axios body password_now phone accountRef
    token_data response_data ->
  Str.trim phone = "" ->
  let r := stk_push process_env parseInt axios body password_now created_now w in
  statusCode (fst r) = 200 /\
  transactions (snd r) =
    Map.set (field response_data "CheckoutRequestID")
      (transaction_literal parseInt "254" (field body "amount") (VString accountRef)
         created_now (field response_data "CustomerMessage"))
      (transactions w).
Proof.
  intros Hacc Hblank r. subst r.
  rewrite (stk_push_succeeds _ _ _ _ _ _ _ _ _ _ _ Hacc).
  unfold formattedPhone. rewrite Hblank. split; reflexivity.
Qed.

Lemma X3_blank_phone_witness :
  let body := VObject [("phone", VString "  "); ("amount", VNum 10);
                       ("accountRef", VString "INV1")] in
  let r := stk_push Sample.process_env Sample.parseInt Sample.gateway body Sample.noon Sample.later
             Sample.nothing in
  statusCode (fst r) = 200 /\
  transactions (snd r) =
    Map.set (VString "ws_CO_1")
      (transaction_literal Sample.parseInt "254" (VNum 10) (VString "INV1") Sample.later
         (VString "Success. Request accepted for processing"))
      (transactions Sample.nothing).
Proof.
  refine (X3_blank_phone_is_accepted Sample.process_env Sample.parseInt Sample.gateway
            (VObject [("phone", VString "  "); ("amount", VNum 10);
                      ("accountRef", VString "INV1")])
            Sample.noon Sample.later Sample.nothing "  " "INV1"
            (VObject [("access_token", VString "token");
                      ("expires_in", VString "3599")])
            (VObject [("MerchantRequestID", VString "29115-34620561-1");
                      ("CheckoutRequestID", VString "ws_CO_1");
                      ("ResponseCode", VString "0");
                      ("CustomerMessage",
                       VString "Success. Request accepted for processing")])
            _ eq_refl).
  repeat split; try reflexivity; discriminate.
Defined.

(** ** What is sent to the gateway *)

Lemma take_length (n : nat) (s : string) :
  String.length (Str.take n s) = Nat.min n (String.length s).
Proof.
  revert s. induction n as [|n IH]; intros [|a s]; simpl; auto.
Qed.

Lemma take_prefix (n : nat) (s : string) : Str.startsWith (Str.take n s) s = true.
Proof.
  revert s. induction n as [|n IH]; intros [|a s]; simpl; auto.
  now rewrite Ascii.eqb_refl, IH.
Qed.

(** The requests a run of the handler sends: none, the token request
    alone, or the token request followed by the push request built from
    the strings of the body and the token the gateway granted. *)
Lemma stk_push_issued
    (process_env : string -> option string) (parseInt : value -> number)
    (axios : request -> result value)
    (body : value) (password_now created_now : Date) (w : world) :
  let w' := snd (stk_push process_env parseInt axios body password_now created_now w) in
  requests w' = requests w \/
  requests w' = (requests w ++ [token_request process_env])%list \/
  exists phone accountRef token_data,
    field body "phone" = VString phone /\
    field body "accountRef" = VString accountRef /\
    axios (token_request process_env) = Return token_data /\
    requests w' =
      (requests w ++
         [token_request process_env;
          push_request_for process_env parseInt body password_now phone accountRef
            token_data])%list.
Proof.
  intros w'. subst w'.
  destruct (nullish body) eqn:Hbody.
  { left. destruct body; try discriminate; reflexivity. }
  destruct (truthy (field body "phone") && truthy (field body "amount")
            && truthy (field body "accountRef")) eqn:Hvalid.
  2:{ left. now rewrite stk_push_validates. }
  apply andb_true_iff in Hvalid as [Hvalid Href].
  apply andb_true_iff in Hvalid as [Hphone Hamount].
  unfold stk_push, stk_push_try.
  rewrite bind_run.
  replace (destructurable body w) with (@Return unit tt, w)
    by (destruct body; try discriminate; reflexivity).
  run. rewrite Hphone, Hamount, Href. cbn [negb orb].
  rewrite bind_run.
  destruct (field body "phone") as [| |b|n|phone|l|ps] eqn:Ephone;
    try (left; reflexivity).
  rewrite string_method_run. cbv beta iota.
  rewrite bind_run, getAccessToken_run.
  destruct (axios (token_request process_env)) as [token_data|e] eqn:Etoken.
  2:{ right. left. reflexivity. }
  destruct (nullish token_data) eqn:Htd.
  { right. left. destruct token_data; try discriminate; reflexivity. }
  run.
  destruct (ToString_throws (field body "amount")) eqn:Hconv.
  { right. left. now rewrite ToString_throw. }
  run.
  destruct (field body "accountRef") as [| |b|n|accountRef|l|ps] eqn:Eref;
    try (right; left; reflexivity).
  rewrite string_method_run. cbv beta iota.
  destruct (ToString_throws (field token_data "access_token")) eqn:Htconv.
  { right. left. now rewrite bind_run, ToString_throw. }
  right. right. exists phone, accountRef, token_data.
  repeat split; try reflexivity.
  run. rewrite await_run.
  fold (push_request_for process_env parseInt body password_now phone accountRef token_data).
  destruct (axios (push_request_for process_env parseInt body password_now phone accountRef
                     token_data)) as [response_data|e] eqn:Epush.
  2:{ cbn [snd transactions requests]. now rewrite <- app_assoc. }
  destruct (nullish response_data) eqn:Hrd.
  { destruct response_data; try discriminate;
      cbn [prop throw snd transactions requests]; now rewrite <- app_assoc. }
  run. unfold Map_set. cbn [snd transactions requests]. now rewrite <- app_assoc.
Qed.

(** X4: every push request the handler sends goes to the STK-push URL
    with a bearer token and a 30 s timeout, and its payload meets the
    format of the gateway: the account reference is the caller's, cut to
    at most 12 characters; both phone fields hold the same number, which
    starts with [254]; both short-code fields hold the same value. *)
Theorem X4_push_request_is_well_formed
    (process_env : string -> option string) (parseInt : value -> number)
    (axios : request -> result value)
    (body : value) (password_now created_now : Date) (w : world)
    (issued : list request) (url : string) (payload : stkPushPayload)
    (auth : authorization) (timeout : Z) :
  requests (snd (stk_push process_env parseInt axios body password_now created_now w)) =
    (requests w ++ issued)%list ->
  In (axios_post url payload auth timeout) issued ->
  url = stkpush_url /\ timeout = 30000%Z /\
  (exists accessToken, auth = Bearer accessToken) /\
  String.length (AccountReference payload) <= 12 /\
  (exists raw, field body "accountRef" = VString raw /\
     Str.startsWith (AccountReference payload) raw = true) /\
  PartyA payload = PhoneNumber payload /\
  Str.startsWith "254" (PartyA payload) = true /\
  BusinessShortCode payload = PartyB payload /\
  Amount payload = parseInt (field body "amount").
Proof.
  intros Hreq Hin.
  destruct (stk_push_issued process_env parseInt axios body password_now created_now w)
    as [H | [H | (phone & accountRef & token_data & Hphone & Href & _ & H)]];
    rewrite H in Hreq.
  - assert (issued = []) as ->.
    { apply (app_inv_head (requests w)). now rewrite app_nil_r. }
    contradiction.
  - apply app_inv_head in Hreq. subst issued.
    destruct Hin as [Hin | []]. discriminate.
  - apply app_inv_head in Hreq. subst issued.
    destruct Hin as [Hin | [Hin | []]]; [discriminate|].
    unfold push_request_for, push_request, stkPushPayload_literal,
      generatePassword in Hin.
    injection Hin as <- <- <- <-.
    cbn [AccountReference PartyA PhoneNumber BusinessShortCode PartyB Amount].
    change (Str.substring 0 12 accountRef) with (Str.take 12 accountRef).
    repeat split; eauto.
    + rewrite take_length. apply Nat.le_min_l.
    + exists accountRef. split; [assumption | apply take_prefix].
    + destruct (formattedPhone_shape phone) as (rest & -> & _).
      apply startsWith_append.
Qed.

Lemma X4_push_request_witness :
  let payload :=
    stkPushPayload_literal Sample.process_env Sample.parseInt "254712345678" (VNum 250)
      "INVOICE-2024-000123" Sample.later in
  String.length (AccountReference payload) <= 12 /\
  Str.startsWith "254" (PartyA payload) = true.
Proof.
  destruct (X4_push_request_is_well_formed Sample.process_env Sample.parseInt Sample.gateway
              (Sample.request_body (VNum 250) (VString "INVOICE-2024-000123"))
              Sample.later Sample.later Sample.nothing
              [token_request Sample.process_env;
               push_request
                 (stkPushPayload_literal Sample.process_env Sample.parseInt "254712345678"
                    (VNum 250) "INVOICE-2024-000123" Sample.later)
                 (VString "token")]
              stkpush_url
              (stkPushPayload_literal Sample.process_env Sample.parseInt "254712345678"
                 (VNum 250) "INVOICE-2024-000123" Sample.later)
              (Bearer (VString "token")) 30000%Z
              eq_refl (or_intror (or_introl eq_refl)))
    as (_ & _ & _ & Hlen & _ & _ & H254 & _).
  split; assumption.
Defined.

(** ** The timestamp of the password *)

Lemma all_digits_append (s t : string) :
  all_digits (s ++ t) = all_digits s && all_digits t.
Proof.
  induction s as [|a s IH]; simpl; [reflexivity|].
  now rewrite IH, !andb_assoc.
Qed.

Lemma length_append (s t : string) :
  String.length (s ++ t) = String.length s + String.length t.
Proof. induction s as [|a s IH]; simpl; auto. Qed.

(** A check made on every number below a bound holds of each of
    them. *)
Lemma checked_below (P : N -> bool) (bound : N) :
  forallb P (List.map N.of_nat (seq 0 (N.to_nat bound))) = true ->
  forall n, (n < bound)%N -> P n = true.
Proof.
  intros Hall n Hn. rewrite forallb_forall in Hall. apply Hall.
  apply in_map_iff. exists (N.to_nat n). split; [apply N2Nat.id|].
  apply in_seq. lia.
Qed.

Lemma two_digits_below_100 (n : N) : (n < 100)%N -> two_digits n = true.
Proof. apply (checked_below two_digits 100%N). vm_compute. reflexivity. Qed.

Lemma four_digits_below_10000 (n : N) : (n < 10000)%N -> four_digits n = true.
Proof. apply (checked_below four_digits 10000%N). vm_compute. reflexivity. Qed.

(** ** The paths of the STK-push handler *)

(** Every run of the handler follows one of the paths. *)
Lemma stk_push_follows_a_path
    (process_env : string -> option string) (parseInt : value -> number)
    (axios : request -> result value)
    (body : value) (password_now created_now : Date) (w : world) :
  stk_push_path process_env parseInt axios body password_now created_now w
    (stk_push process_env parseInt axios body password_now created_now w).
Proof.
  destruct (nullish body) eqn:Hbody.
  { destruct body; try discriminate; now apply path_no_body. }
  destruct (valid_body body) eqn:Hvalid.
  2:{ rewrite stk_push_validates; [now apply path_invalid | assumption |].
      unfold valid_body in Hvalid. rewrite Hbody in Hvalid.
      cbn [negb andb] in Hvalid. exact Hvalid. }
  pose proof Hvalid as Hv. unfold valid_body in Hv. rewrite Hbody in Hv.
  cbn [negb andb] in Hv.
  apply andb_true_iff in Hv as [Hv Href].
  apply andb_true_iff in Hv as [Hphone Hamount].
  unfold stk_push, stk_push_try.
  rewrite bind_run.
  replace (destructurable body w) with (@Return unit tt, w)
    by (destruct body; try discriminate; reflexivity).
  run. rewrite Hphone, Hamount, Href. cbn [negb orb].
  rewrite bind_run.
  destruct (field body "phone") as [| |b|n|phone|l|ps] eqn:Ephone;
    try (apply path_phone_not_string; [assumption | now rewrite Ephone]).
  rewrite string_method_run. cbv beta iota.
  rewrite bind_run, getAccessToken_run.
  destruct (axios (token_request process_env)) as [token_data|e] eqn:Etoken.
  2:{ now apply path_token_rejected with (phone := phone). }
  destruct (nullish token_data) eqn:Htd.
  { destruct token_data; try discriminate;
      eapply path_token_without_body; eauto. }
  run.
  destruct (ToString_throws (field body "amount")) eqn:Hconv.
  { rewrite ToString_throw by assumption.
    eapply path_amount_without_string; eauto. }
  run.
  destruct (field body "accountRef") as [| |b|n|accountRef|l|ps] eqn:Eref;
    try (eapply path_accountRef_not_string; eauto; now rewrite Eref).
  rewrite string_method_run. cbv beta iota.
  destruct (ToString_throws (field token_data "access_token")) eqn:Htconv.
  { rewrite bind_run, ToString_throw by assumption.
    eapply path_token_without_string; eauto. }
  run. rewrite await_run.
  fold (push_request_for process_env parseInt body password_now phone accountRef token_data).
  destruct (axios (push_request_for process_env parseInt body password_now phone accountRef
                     token_data)) as [response_data|e] eqn:Epush.
  2:{ cbn [transactions requests]. rewrite <- app_assoc.
      eapply path_push_rejected; eauto. }
  destruct (nullish response_data) eqn:Hrd.
  { destruct response_data; try discriminate;
      cbn [prop throw transactions requests]; rewrite <- app_assoc;
      eapply path_push_without_body; eauto. }
  run. unfold Map_set. cbn [transactions requests]. rewrite <- app_assoc.
  apply path_created.
  repeat split; auto using truthy_string.
Qed.

(** ** What a callback does to the registry, whatever the body *)

Lemma update_keys (k : value) (f : transaction -> transaction) (m : Map.t) :
  List.map fst (Map.update k f m) = List.map fst m.
Proof.
  induction m as [|[e v] m IH]; simpl; [reflexivity|].
  destruct (same_value_zero e k); simpl; [reflexivity | now rewrite IH].
Qed.

(** The world after a callback: the world before, or that world with
    the patch of the webhook applied under the webhook's key. *)
Lemma callback_world (callbackData : value) (now : Date) (w : world) :
  snd (callback callbackData now w) = w \/
  snd (callback callbackData now w) =
    upd (webhook_key callbackData)
      (apply (fst (callback_patch (webhook_stkCallback callbackData) now))) w.
Proof.
  destruct (nullish callbackData) eqn:Hbody.
  - left. now rewrite callback_nullish.
  - rewrite callback_run by assumption.
    destruct (truthy (webhook_stkCallback callbackData)
              && Map.has (webhook_key callbackData) (transactions w));
      [now right | now left].
Qed.

(** The patch of a webhook always writes a terminal status, with the
    property that goes with it. *)
Lemma callback_patch_terminal (stkCallback : value) (now : Date) :
  let p := fst (callback_patch stkCallback now) in
  (p_status p = Some completed /\ p_completedAt p = Some now) \/
  (p_status p = Some failed /\
   p_errorMessage p = Some (field stkCallback "ResultDesc")).
Proof.
  unfold callback_patch.
  destruct (strict_equals (field stkCallback "ResultCode") (VNum 0));
    [left | right; split; reflexivity].
  destruct (field (field stkCallback "CallbackMetadata") "Item");
    try (split; reflexivity).
  destruct (items_patch_keeps elements
              (mkPatch (Some completed) (Some now) None None None None None))
    as (-> & -> & _).
  split; reflexivity.
Qed.

(** X6: a callback, whatever its body, neither adds nor removes nor
    reorders the keys of the registry, and sends no request: a key is
    known after it exactly when it was known before. *)
Theorem X6_callback_keeps_the_keys
    (callbackData : value) (now : Date) (w : world) :
  let w' := snd (callback callbackData now w) in
  List.map fst (transactions w') = List.map fst (transactions w) /\
  (forall k, Map.has k (transactions w') = Map.has k (transactions w)) /\
  requests w' = requests w.
Proof.
  intros w'. subst w'.
  destruct (callback_world callbackData now w) as [-> | ->];
    [now repeat split|].
  cbn [upd transactions requests].
  repeat split; [apply update_keys | intros k; apply has_update].
Qed.

(** X7: a callback, whatever its body, never rewrites what creation
    stored: [phone], [amount], [accountRef], [createdAt] and
    [customerMessage] of every record are after it what they were
    before. *)
Theorem X7_callback_keeps_creation_fields
    (callbackData : value) (now : Date) (w : world)
    (k : value) (t t' : transaction) :
  Map.get k (transactions w) = Some t ->
  Map.get k (transactions (snd (callback callbackData now w))) = Some t' ->
  phone t' = phone t /\ amount t' = amount t /\ accountRef t' = accountRef t /\
  createdAt t' = createdAt t /\ customerMessage t' = customerMessage t.
Proof.
  intros Hget Hget'.
  destruct (callback_world callbackData now w) as [Hw | Hw]; rewrite Hw in Hget'.
  - assert (t' = t) by congruence. subst. now repeat split.
  - cbn [upd transactions] in Hget'.
    destruct (get_update_cases (webhook_key callbackData) k
                (apply (fst (callback_patch (webhook_stkCallback callbackData) now)))
                (transactions w)) as [H | (t0 & H0 & H)];
      rewrite H in Hget'.
    + assert (t' = t) by congruence. subst. now repeat split.
    + assert (t0 = t) by congruence. subst t0.
      injection Hget' as <-. now repeat split.
Qed.

Lemma X7_creation_fields_witness :
  let t' :=
    mkTransaction "254712345678" (Num 100) (VString "INV1") completed Sample.noon
      (VString "Success. Request accepted for processing")
      (Some Sample.later) (Some (VNum 100)) (Some (VString "NLJ7RT61SV"))
      (Some (VNum 20240101120003)) (Some (VNum 254712345678)) None in
  phone t' = "254712345678" /\ amount t' = Num 100 /\
  accountRef t' = VString "INV1" /\ createdAt t' = Sample.noon /\
  customerMessage t' = VString "Success. Request accepted for processing".
Proof.
  exact (X7_callback_keeps_creation_fields Sample.success_webhook Sample.later
           Sample.one_pending (VString "ws_CO_1") _ _ eq_refl eq_refl).
Defined.

(** X8: the callback never assigns [pending]: a record that is pending
    after a callback is the record that was there before, untouched. *)
Theorem X8_pending_means_untouched
    (callbackData : value) (now : Date) (w : world)
    (k : value) (t t' : transaction) :
  Map.get k (transactions w) = Some t ->
  Map.get k (transactions (snd (callback callbackData now w))) = Some t' ->
  status t' = pending ->
  t' = t.
Proof.
  intros Hget Hget' Hpending.
  destruct (callback_world callbackData now w) as [Hw | Hw]; rewrite Hw in Hget'.
  - congruence.
  - cbn [upd transactions] in Hget'.
    destruct (get_update_cases (webhook_key callbackData) k
                (apply (fst (callback_patch (webhook_stkCallback callbackData) now)))
                (transactions w)) as [H | (t0 & H0 & H)];
      rewrite H in Hget'; [congruence|].
    injection Hget' as <-. exfalso.
    unfold apply in Hpending. cbn [status] in Hpending.
    destruct (callback_patch_terminal (webhook_stkCallback callbackData) now)
      as [[Hs _] | [Hs _]]; rewrite Hs in Hpending; discriminate.
Qed.

Lemma X8_pending_witness :
  mkTransaction "254712345678" (Num 100) (VString "INV1") pending Sample.noon
    (VString "Success. Request accepted for processing")
    None None None None None None =
  mkTransaction "254712345678" (Num 100) (VString "INV1") pending Sample.noon
    (VString "Success. Request accepted for processing")
    None None None None None None.
Proof.
  exact (X8_pending_means_untouched
           (Sample.webhook (VNum 0) (VString "ok") []) Sample.later
           (mkWorld (transactions Sample.one_pending
                     ++ [(VString "ws_CO_2",
                          mkTransaction "254712345678" (Num 100) (VString "INV1")
                            pending Sample.noon
                            (VString "Success. Request accepted for processing")
                            None None None None None None)])%list [])
           (VString "ws_CO_2") _ _ eq_refl eq_refl eq_refl).
Defined.

(** ** The error path of the callback *)

Lemma items_patch_completes (items : list value) (p : patch) :
  snd (items_patch items p) = forallb (fun item => negb (nullish item)) items.
Proof.
  revert p. induction items as [|item rest IH]; intros p; simpl; [reflexivity|].
  destruct (nullish item); simpl; [reflexivity | apply IH].
Qed.

Lemma callback_patch_completes (callbackData : value) (now : Date) :
  snd (callback_patch (webhook_stkCallback callbackData) now) =
    negb (strict_equals (webhook_resultCode callbackData) (VNum 0))
    || well_formed_metadata callbackData.
Proof.
  unfold callback_patch, well_formed_metadata, webhook_Item, webhook_resultCode.
  destruct (strict_equals (field (webhook_stkCallback callbackData) "ResultCode")
              (VNum 0)); [|reflexivity].
  cbn [negb orb].
  destruct (field (field (webhook_stkCallback callbackData) "CallbackMetadata") "Item");
    try reflexivity.
  apply items_patch_completes.
Qed.

(** X9: when a success webhook for a known key carries malformed
    metadata ([Item] neither absent nor an array, or an array with a
    [null] in it), the handler answers 500 [{ResultCode: 1, ResultDesc:
    "Failed"}], yet the record has already been marked [completed] and
    stamped: the assignments made before the exception are kept. *)
Theorem X9_malformed_metadata_fails_after_completing
    (callbackData : value) (now : Date) (w : world) (t : transaction) :
  truthy (webhook_stkCallback callbackData) = true ->
  Map.get (webhook_key callbackData) (transactions w) = Some t ->
  webhook_resultCode callbackData = VNum 0 ->
  well_formed_metadata callbackData = false ->
  fst (callback callbackData now w) = negative_acknowledgment /\
  statusCode (fst (callback callbackData now w)) = 500 /\
  field (json (fst (callback callbackData now w))) "ResultCode" = VNum 1 /\
  exists t',
    Map.get (webhook_key callbackData)
      (transactions (snd (callback callbackData now w))) = Some t' /\
    status t' = completed /\ completedAt t' = Some now.
Proof.
  intros Hstk Hget Hrc Hbad.
  rewrite callback_run by (now apply truthy_container_not_nullish).
  rewrite Hstk, (get_has _ _ _ Hget). cbn [andb].
  rewrite callback_patch_completes, Hrc, Hbad.
  cbn [strict_equals VNum Num number_strict_equals negb orb fst snd
       upd transactions].
  repeat split.
  rewrite get_update, Hget. cbn [option_map].
  eexists. split; [reflexivity|].
  unfold apply. cbn [status completedAt].
  destruct (callback_patch_terminal (webhook_stkCallback callbackData) now)
    as [[Hs Hc] | [Hs _]].
  - rewrite Hs, Hc. split; reflexivity.
  - exfalso. unfold callback_patch in Hs.
    fold (webhook_resultCode callbackData) in Hs. rewrite Hrc in Hs.
    cbn [strict_equals VNum Num number_strict_equals] in Hs.
    destruct (field (field (webhook_stkCallback callbackData) "CallbackMetadata")
                "Item"); try discriminate.
    destruct (items_patch_keeps elements
                (mkPatch (Some completed) (Some now) None None None None None))
      as (H & _).
    rewrite H in Hs. discriminate.
Qed.

Lemma X9_malformed_metadata_witness :
  let body := Sample.webhook (VNum 0) (VString "ok")
                [VNull; Sample.item "Amount" (VNum 100)] in
  let r := callback body Sample.later Sample.one_pending in
  fst r = negative_acknowledgment /\
  statusCode (fst r) = 500 /\
  field (json (fst r)) "ResultCode" = VNum 1 /\
  exists t',
    Map.get (VString "ws_CO_1") (transactions (snd r)) = Some t' /\
    status t' = completed /\ completedAt t' = Some Sample.later.
Proof.
  exact (X9_malformed_metadata_fails_after_completing
           (Sample.webhook (VNum 0) (VString "ok")
              [VNull; Sample.item "Amount" (VNum 100)])
           Sample.later Sample.one_pending _ eq_refl eq_refl eq_refl eq_refl).
Defined.

(** X10: the callback answers either the positive or the negative
    acknowledgment, and the negative one exactly when the body is
    [undefined] or [null], or a success webhook for a known key carries
    malformed metadata. An unknown key, an absent container and a
    failure webhook are always acknowledged positively. *)
Theorem X10_callback_answer
    (callbackData : value) (now : Date) (w : world) :
  fst (callback callbackData now w) =
    if nullish callbackData
       || (truthy (webhook_stkCallback callbackData)
           && Map.has (webhook_key callbackData) (transactions w)
           && strict_equals (webhook_resultCode callbackData) (VNum 0)
           && negb (well_formed_metadata callbackData))
    then negative_acknowledgment
    else acknowledgment.
Proof.
  destruct (nullish callbackData) eqn:Hbody.
  - now rewrite callback_nullish.
  - rewrite callback_run by assumption. cbn [orb].
    destruct (truthy (webhook_stkCallback callbackData)
              && Map.has (webhook_key callbackData) (transactions w));
      [|reflexivity].
    cbn [fst andb]. rewrite callback_patch_completes.
    destruct (strict_equals (webhook_resultCode callbackData) (VNum 0));
      [|reflexivity].
    cbn [negb orb andb].
    destruct (well_formed_metadata callbackData); reflexivity.
Qed.

(** ** Type errors in the STK-push handler *)

(** X11: a request whose three fields are present but whose [phone] is
    not a string (a JSON number, for instance) is not a validation
    failure: [phone.trim] throws, the handler answers 500 and stops
    before any call to the gateway; the world is unchanged. *)
Theorem X11_phone_must_be_a_string
    (process_env : string -> option string) (parseInt : value -> number)
    (axios : request -> result value)
    (body : value) (password_now created_now : Date) (w : world) :
  valid_body body = true ->
  is_string (field body "phone") = false ->
  let r := stk_push process_env parseInt axios body password_now created_now w in
  (exists message, fst r = stk_push_catch (TypeError message)) /\
  statusCode (fst r) = 500 /\ snd r = w.
Proof.
  intros Hvalid Hphone r. subst r.
  pose proof (stk_push_follows_a_path process_env parseInt axios body password_now
                created_now w) as Hpath.
  assert (Hbody : nullish body = false).
  { unfold valid_body in Hvalid. now destruct (nullish body). }
  assert (Hnot : forall s, field body "phone" <> VString s).
  { intros s H. rewrite H in Hphone. discriminate. }
  destruct (stk_push process_env parseInt axios body password_now created_now w) as [res w'].
  inversion Hpath; subst; cbn [fst snd]; try congruence;
    try (exfalso; eapply Hnot; eassumption).
  - eauto.
  - destruct H0 as (H & _). exfalso. eapply Hnot; eassumption.
Qed.

Lemma X11_numeric_phone_witness :
  let body := VObject [("phone", VNum 712345678); ("amount", VNum 10);
                       ("accountRef", VString "INV1")] in
  let r := stk_push Sample.process_env Sample.parseInt Sample.gateway body Sample.noon Sample.later
             Sample.one_pending in
  (exists message, fst r = stk_push_catch (TypeError message)) /\
  statusCode (fst r) = 500 /\ snd r = Sample.one_pending.
Proof.
  exact (X11_phone_must_be_a_string Sample.process_env Sample.parseInt Sample.gateway
           (VObject [("phone", VNum 712345678); ("amount", VNum 10);
                     ("accountRef", VString "INV1")])
           Sample.noon Sample.later Sample.one_pending eq_refl eq_refl).
Defined.

(** X12: when the fields are present, [phone] is a string and
    [accountRef] is not, the access token is requested first and only
    then does [accountRef.substring] throw: the handler answers 500, the
    token request is the only request sent and no transaction is
    created. *)
Theorem X12_accountRef_must_be_a_string
    (process_env : string -> option string) (parseInt : value -> number)
    (axios : request -> result value)
    (body : value) (password_now created_now : Date) (w : world)
    (token_data : value) :
  valid_body body = true ->
  is_string (field body "phone") = true ->
  is_string (field body "accountRef") = false ->
  axios (token_request process_env) = Return token_data ->
  let r := stk_push process_env parseInt axios body password_now created_now w in
  (exists message, fst r = stk_push_catch (TypeError message)) /\
  statusCode (fst r) = 500 /\
  requests (snd r) = (requests w ++ [token_request process_env])%list /\
  transactions (snd r) = transactions w.
Proof.
  intros Hvalid Hphone Href Htoken r. subst r.
  pose proof (stk_push_follows_a_path process_env parseInt axios body password_now
                created_now w) as Hpath.
  assert (Hbody : nullish body = false).
  { unfold valid_body in Hvalid. now destruct (nullish body). }
  assert (Hnot : forall s, field body "accountRef" <> VString s).
  { intros s H. rewrite H in Href. discriminate. }
  destruct (stk_push process_env parseInt axios body password_now created_now w) as [res w'].
  inversion Hpath; subst; cbn [fst snd sent requests transactions];
    try congruence; try (exfalso; eapply Hnot; eassumption);
    try (repeat split; eauto; fail).
  destruct H0 as (_ & _ & _ & _ & H & _). exfalso. eapply Hnot; eassumption.
Qed.

Lemma X12_numeric_accountRef_witness :
  let r := stk_push Sample.process_env Sample.parseInt Sample.gateway
             (Sample.request_body (VNum 10) (VNum 20240001))
             Sample.noon Sample.later Sample.one_pending in
  (exists message, fst r = stk_push_catch (TypeError message)) /\
  statusCode (fst r) = 500 /\
  requests (snd r) =
    (requests Sample.one_pending ++ [token_request Sample.process_env])%list /\
  transactions (snd r) = transactions Sample.one_pending.
Proof.
  exact (X12_accountRef_must_be_a_string Sample.process_env Sample.parseInt Sample.gateway
           (Sample.request_body (VNum 10) (VNum 20240001))
           Sample.noon Sample.later Sample.one_pending _
           eq_refl eq_refl eq_refl eq_refl).
Defined.

(** X30: an [amount] that has no string, such as the JSON object
    [{"toString": 1}], is truthy and passes validation; the access
    token is requested, and then [parseInt(amount)] throws while the
    payload is built: the handler answers 500, the token request is the
    only request sent and no transaction is created. *)
Theorem X30_amount_must_convert
    (process_env : string -> option string) (parseInt : value -> number)
    (axios : request -> result value)
    (body : value) (password_now created_now : Date) (w : world)
    (token_data : value) :
  valid_body body = true ->
  is_string (field body "phone") = true ->
  ToString_throws (field body "amount") = true ->
  axios (token_request process_env) = Return token_data ->
  let r := stk_push process_env parseInt axios body password_now created_now w in
  (exists message, fst r = stk_push_catch (TypeError message)) /\
  statusCode (fst r) = 500 /\
  requests (snd r) = (requests w ++ [token_request process_env])%list /\
  transactions (snd r) = transactions w.
Proof.
  intros Hvalid Hphone Hamount Htoken r. subst r.
  pose proof (stk_push_follows_a_path process_env parseInt axios body password_now
                created_now w) as Hpath.
  assert (Hbody : nullish body = false).
  { unfold valid_body in Hvalid. now destruct (nullish body). }
  destruct (stk_push process_env parseInt axios body password_now created_now w) as [res w'].
  inversion Hpath; subst; cbn [fst snd sent requests transactions];
    try congruence; try (repeat split; eauto; fail).
  destruct H0 as (_ & _ & _ & H & _). congruence.
Qed.

Lemma X30_amount_witness :
  let r := stk_push Sample.process_env Sample.parseInt Sample.gateway
             (Sample.request_body (VObject [("toString", VNum 1)]) (VString "INV1"))
             Sample.noon Sample.later Sample.one_pending in
  (exists message, fst r = stk_push_catch (TypeError message)) /\
  statusCode (fst r) = 500 /\
  requests (snd r) =
    (requests Sample.one_pending ++ [token_request Sample.process_env])%list /\
  transactions (snd r) = transactions Sample.one_pending.
Proof.
  exact (X30_amount_must_convert Sample.process_env Sample.parseInt Sample.gateway
           (Sample.request_body (VObject [("toString", VNum 1)]) (VString "INV1"))
           Sample.noon Sample.later Sample.one_pending _
           eq_refl eq_refl eq_refl eq_refl).
Defined.

(** X31: the access token is written into the [Authorization] header
    with a template literal. When the gateway grants a token that has
    no string, the literal throws after the payload is built and before
    the push request is made: the handler answers 500, the token
    request is the only request sent and no transaction is created. *)
Theorem X31_token_must_convert
    (process_env : string -> option string) (parseInt : value -> number)
    (axios : request -> result value)
    (body : value) (password_now created_now : Date) (w : world)
    (token_data : value) :
  valid_body body = true ->
  is_string (field body "phone") = true ->
  axios (token_request process_env) = Return token_data ->
  ToString_throws (field token_data "access_token") = true ->
  let r := stk_push process_env parseInt axios body password_now created_now w in
  (exists message, fst r = stk_push_catch (TypeError message)) /\
  statusCode (fst r) = 500 /\
  requests (snd r) = (requests w ++ [token_request process_env])%list /\
  transactions (snd r) = transactions w.
Proof.
  intros Hvalid Hphone Htoken Hconv r. subst r.
  pose proof (stk_push_follows_a_path process_env parseInt axios body password_now
                created_now w) as Hpath.
  assert (Hbody : nullish body = false).
  { unfold valid_body in Hvalid. now destruct (nullish body). }
  destruct (stk_push process_env parseInt axios body password_now created_now w) as [res w'].
  inversion Hpath; subst; cbn [fst snd sent requests transactions];
    try congruence; try (repeat split; eauto; fail).
  destruct H0 as (_ & _ & _ & _ & _ & _ & Ht & _ & H & _). congruence.
Qed.

Lemma X31_token_witness :
  let gateway (r : request) : result value :=
    Return (VObject [("access_token", VArray [VObject [("toString", VNull)]])]) in
  let r := stk_push Sample.process_env Sample.parseInt gateway
             (Sample.request_body (VNum 10) (VString "INV1"))
             Sample.noon Sample.later Sample.one_pending in
  (exists message, fst r = stk_push_catch (TypeError message)) /\
  statusCode (fst r) = 500 /\
  requests (snd r) =
    (requests Sample.one_pending ++ [token_request Sample.process_env])%list /\
  transactions (snd r) = transactions Sample.one_pending.
Proof.
  exact (X31_token_must_convert Sample.process_env Sample.parseInt
           (fun _ => Return (VObject [("access_token",
                                       VArray [VObject [("toString", VNull)]])]))
           (Sample.request_body (VNum 10) (VString "INV1"))
           Sample.noon Sample.later Sample.one_pending _
           eq_refl eq_refl eq_refl eq_refl).
Defined.

(** ** Answers, requests and registry of an STK-push request *)

(** X13: the handler answers 200, 400 or 500: 400 exactly when the
    body is an object with a missing or falsy field, 200 exactly when
    the request passes validation, its amount and the access token
    convert to strings and both gateway calls resolve with a body;
    unless the answer is 200 the registry is unchanged. *)
Theorem X13_stk_push_answer
    (process_env : string -> option string) (parseInt : value -> number)
    (axios : request -> result value)
    (body : value) (password_now created_now : Date) (w : world) :
  let r := stk_push process_env parseInt axios body password_now created_now w in
  (statusCode (fst r) = 200 \/ statusCode (fst r) = 400 \/
   statusCode (fst r) = 500) /\
  (statusCode (fst r) = 400 <-> nullish body = false /\ valid_body body = false) /\
  (statusCode (fst r) = 200 <->
   exists phone accountRef token_data response_data,
     accepted process_env parseInt axios body password_now phone accountRef
       token_data response_data) /\
  (statusCode (fst r) <> 200 -> transactions (snd r) = transactions w).
Proof.
  intros r. subst r.
  pose proof (stk_push_follows_a_path process_env parseInt axios body password_now
                created_now w) as Hpath.
  split; [|split; [|split]].
  - destruct (stk_push process_env parseInt axios body password_now created_now w)
      as [res w'].
    inversion Hpath; subst; cbn; auto.
  - split.
    + intros H400.
      destruct (stk_push process_env parseInt axios body password_now created_now w)
        as [res w'].
      inversion Hpath; subst; cbn in H400; try discriminate. now split.
    + intros [Hbody Hvalid]. rewrite stk_push_validates; [reflexivity | assumption |].
      unfold valid_body in Hvalid. rewrite Hbody in Hvalid. exact Hvalid.
  - split.
    + intros H200.
      destruct (stk_push process_env parseInt axios body password_now created_now w)
        as [res w'].
      inversion Hpath; subst; cbn in H200; try discriminate. eauto.
    + intros (phone & accountRef & token_data & response_data & Hacc).
      now rewrite (stk_push_succeeds _ _ _ _ _ _ _ _ _ _ _ Hacc).
  - intros Hnot.
    destruct (stk_push process_env parseInt axios body password_now created_now w)
      as [res w'].
    inversion Hpath; subst; cbn in *; try reflexivity. contradiction.
Qed.

Lemma X13_stk_push_answer_witness :
  transactions
    (snd (stk_push Sample.process_env Sample.parseInt Sample.gateway_down
            (Sample.request_body (VNum 10) (VString "INV1"))
            Sample.noon Sample.later Sample.one_pending))
    = transactions Sample.one_pending.
Proof.
  apply (proj2 (proj2 (proj2
           (X13_stk_push_answer Sample.process_env Sample.parseInt Sample.gateway_down
              (Sample.request_body (VNum 10) (VString "INV1"))
              Sample.noon Sample.later Sample.one_pending)))).
  vm_compute. discriminate.
Defined.

Lemma has_set (k k' : value) (v : transaction) (m : Map.t) :
  Map.has k' m = true -> Map.has k' (Map.set k v m) = true.
Proof.
  unfold Map.has. induction m as [|[e x] m IH]; simpl; [discriminate|].
  destruct (same_value_zero e k) eqn:E; simpl;
    destruct (same_value_zero e k'); auto.
Qed.

Lemma set_length (k : value) (v : transaction) (m : Map.t) :
  List.length m <= List.length (Map.set k v m) <= S (List.length m).
Proof.
  induction m as [|[e x] m IH]; simpl; [lia|].
  destruct (same_value_zero e k); simpl; lia.
Qed.

Lemma get_set_cases (k k' : value) (v : transaction) (m : Map.t) :
  Map.get k' (Map.set k v m) = Map.get k' m \/
  Map.get k' (Map.set k v m) = Some v.
Proof.
  induction m as [|[e x] m IH]; simpl.
  - destruct (same_value_zero k k'); auto.
  - destruct (same_value_zero e k) eqn:E; simpl;
      destruct (same_value_zero e k'); auto.
Qed.

(** The registry after a run of the handler: as before, or with the
    new pending record set under the key the gateway returned. *)
Lemma stk_push_registry
    (process_env : string -> option string) (parseInt : value -> number)
    (axios : request -> result value)
    (body : value) (password_now created_now : Date) (w : world) :
  let w' := snd (stk_push process_env parseInt axios body password_now created_now w) in
  transactions w' = transactions w \/
  exists key phone accountRef message,
    accountRef <> "" /\
    transactions w' =
      Map.set key
        (transaction_literal parseInt (formattedPhone phone) (field body "amount")
           (VString accountRef) created_now message)
        (transactions w) /\
    exists token_data,
      requests w' =
        (requests w ++
           [token_request process_env;
            push_request_for process_env parseInt body password_now phone accountRef
              token_data])%list.
Proof.
  intros w'. subst w'.
  pose proof (stk_push_follows_a_path process_env parseInt axios body password_now
                created_now w) as Hpath.
  destruct (stk_push process_env parseInt axios body password_now created_now w) as [res w'].
  inversion Hpath; subst; cbn [snd sent transactions requests]; auto.
  right. destruct H0 as (_ & _ & _ & _ & _ & Hne & _).
  do 4 eexists. split; [exact Hne|]. split; [reflexivity|].
  eexists. reflexivity.
Qed.

(** X14: an STK-push request never removes a record: every known key
    stays known, the registry grows by one entry at most, and a record
    there before is either kept as it is or replaced as a whole by the
    new pending record (when the gateway returns its key again). *)
Theorem X14_stk_push_only_adds
    (process_env : string -> option string) (parseInt : value -> number)
    (axios : request -> result value)
    (body : value) (password_now created_now : Date) (w : world) :
  let w' := snd (stk_push process_env parseInt axios body password_now created_now w) in
  (forall k, Map.has k (transactions w) = true ->
             Map.has k (transactions w') = true) /\
  List.length (transactions w) <= List.length (transactions w')
    <= S (List.length (transactions w)) /\
  (forall k t, Map.get k (transactions w) = Some t ->
     Map.get k (transactions w') = Some t \/
     exists t', Map.get k (transactions w') = Some t' /\
                status t' = pending /\ createdAt t' = created_now /\
                completedAt t' = None /\ errorMessage t' = None).
Proof.
  intros w'. subst w'.
  destruct (stk_push_registry process_env parseInt axios body password_now created_now w)
    as [-> | (key & phone & accountRef & message & _ & -> & _)].
  - repeat split; auto; lia.
  - split; [|split].
    + intros k. apply has_set.
    + apply set_length.
    + intros k t Hget.
      destruct (get_set_cases key k
                  (transaction_literal parseInt (formattedPhone phone) (field body "amount")
                     (VString accountRef) created_now message)
                  (transactions w)) as [-> | ->].
      * now left.
      * right. eexists. split; [reflexivity|]. now repeat split.
Qed.

Lemma X14_stk_push_only_adds_witness :
  Map.has (VString "ws_CO_1")
    (transactions
       (snd (stk_push Sample.process_env Sample.parseInt Sample.gateway
               (Sample.request_body (VNum 10) (VString "INV1"))
               Sample.noon Sample.later Sample.one_pending))) = true.
Proof.
  exact (proj1 (X14_stk_push_only_adds Sample.process_env Sample.parseInt Sample.gateway
                  (Sample.request_body (VNum 10) (VString "INV1"))
                  Sample.noon Sample.later Sample.one_pending)
           (VString "ws_CO_1") eq_refl).
Defined.

(** X15: [getAccessToken] sends exactly one request, a GET of the
    OAuth URL with the Basic credential [base64(key:secret)] and a 10 s
    timeout, and never touches the registry. A rejection is rethrown as
    it is; otherwise the result is the [access_token] property of the
    response body, [undefined] when the body lacks it, and a [TypeError]
    when there is no body. *)
Theorem X15_getAccessToken
    (process_env : string -> option string) (axios : request -> result value)
    (w : world) :
  let r := getAccessToken process_env axios w in
  snd r = sent w [token_request process_env] /\
  token_request process_env =
    axios_get oauth_url
      (Basic (base64Encode (template (process_env "MPESA_CONSUMER_KEY") ++ ":" ++
                            template (process_env "MPESA_CONSUMER_SECRET"))))
      10000 /\
  match axios (token_request process_env) with
  | Throw e => fst r = Throw e
  | Return response_data =>
      if nullish response_data
      then exists message, fst r = Throw (TypeError message)
      else fst r = Return (field response_data "access_token")
  end.
Proof.
  intros r. subst r. rewrite getAccessToken_run.
  destruct (axios (token_request process_env)) as [data|e].
  - destruct data; cbn; repeat split; eauto.
  - repeat split.
Qed.

(** X16: a run of the STK-push handler only extends the log of
    requests, by nothing, by the token request, or by the token request
    followed by one push request; a push request is sent only after the
    token request resolved, and carries as bearer token the
    [access_token] of that response, whatever it is. *)
Theorem X16_stk_push_requests
    (process_env : string -> option string) (parseInt : value -> number)
    (axios : request -> result value)
    (body : value) (password_now created_now : Date) (w : world) :
  let w' := snd (stk_push process_env parseInt axios body password_now created_now w) in
  exists issued,
    requests w' = (requests w ++ issued)%list /\
    (issued = [] \/
     issued = [token_request process_env] \/
     exists payload token_data,
       axios (token_request process_env) = Return token_data /\
       issued = [token_request process_env;
                 axios_post stkpush_url payload
                   (Bearer (field token_data "access_token")) 30000]).
Proof.
  intros w'. subst w'.
  destruct (stk_push_issued process_env parseInt axios body password_now created_now w)
    as [H | [H | (phone & accountRef & token_data & _ & _ & Htoken & H)]].
  - exists []. rewrite app_nil_r. auto.
  - exists [token_request process_env]. auto.
  - eexists. split; [exact H|]. right. right.
    do 2 eexists. split; [exact Htoken | reflexivity].
Qed.

(** ** Status query *)

(** X17: after an accepted push whose [CheckoutRequestID] is a string,
    the status query for that string answers 200 with the record just
    created: pending, with the normalised phone, the parsed amount, the
    raw account reference, the creation time and the gateway's customer
    message, and with none of the properties a callback assigns. *)
Theorem X17_query_after_push
    (process_env : string -> option string) (parseInt : value -> number)
    (axios : request -> result value)
    (body : value) (password_now created_now : Date) (w : world)
    (phone accountRef checkoutRequestId : string)
    (token_data response_data : value) :
  accepted process_env parseInt axios body password_now phone accountRef
    token_data response_data ->
  field response_data "CheckoutRequestID" = VString checkoutRequestId ->
  let w' := snd (stk_push process_env parseInt axios body password_now created_now w) in
  get_transaction checkoutRequestId w' =
    mkTransactionResponse 200 true None
      (Some (mkTransaction (formattedPhone phone) (parseInt (field body "amount"))
               (VString accountRef) pending created_now
               (field response_data "CustomerMessage")
               None None None None None None)).
Proof.
  intros Hacc Hid w'. subst w'.
  rewrite (stk_push_succeeds _ _ _ _ _ _ _ _ _ _ _ Hacc).
  unfold get_transaction. cbn [snd transactions].
  rewrite Hid, get_set by (simpl; apply String.eqb_refl).
  reflexivity.
Qed.

Lemma X17_query_after_push_witness :
  get_transaction "ws_CO_1"
    (snd (stk_push Sample.process_env Sample.parseInt Sample.gateway
            (Sample.request_body (VNum 250) (VString "INVOICE-2024-000123"))
            Sample.later Sample.later Sample.nothing)) =
  mkTransactionResponse 200 true None
    (Some (mkTransaction "254712345678" (Num 250)
             (VString "INVOICE-2024-000123") pending Sample.later
             (VString "Success. Request accepted for processing")
             None None None None None None)).
Proof.
  exact (X17_query_after_push Sample.process_env Sample.parseInt Sample.gateway
           (Sample.request_body (VNum 250) (VString "INVOICE-2024-000123"))
           Sample.later Sample.later Sample.nothing
           "0712345678" "INVOICE-2024-000123" "ws_CO_1" _ _
           sample_accepted eq_refl).
Defined.



(** ** A payment from request to settlement *)

Lemma or_else_none {A} (o : option A) : or_else o None = o.
Proof. now destruct o. Qed.

(** The patch of a success webhook with well-formed metadata. *)
Lemma success_patch (callbackData : value) (now : Date) :
  webhook_resultCode callbackData = VNum 0 ->
  well_formed_metadata callbackData = true ->
  fst (callback_patch (webhook_stkCallback callbackData) now) =
    mkPatch (Some completed) (Some now)
      (named "Amount" (webhook_items callbackData))
      (named "MpesaReceiptNumber" (webhook_items callbackData))
      (named "TransactionDate" (webhook_items callbackData))
      (named "PhoneNumber" (webhook_items callbackData)) None.
Proof.
  intros Hrc Hwf.
  unfold callback_patch. fold (webhook_resultCode callbackData). rewrite Hrc.
  cbn [strict_equals VNum Num number_strict_equals].
  unfold well_formed_metadata, webhook_items, webhook_Item in *.
  destruct (field (field (webhook_stkCallback callbackData) "CallbackMetadata") "Item")
    as [| |b|n|s|elements|ps]; try reflexivity.
  set (p0 := mkPatch (Some completed) (Some now) None None None None None).
  destruct (items_patch_keeps elements p0) as (Hs & Hc & He).
  destruct (items_patch_named elements p0 Hwf) as (_ & Ha & Hr & Hd & Hp).
  destruct (fst (items_patch elements p0)) as [s c a r d p e].
  cbn in *. rewrite !or_else_none in *. congruence.
Qed.

Lemma has_set_same (k : value) (v : transaction) (m : Map.t) :
  same_value_zero k k = true -> Map.has k (Map.set k v m) = true.
Proof. intros H. unfold Map.has. now rewrite get_set. Qed.

(** X19: a payment end to end. After an accepted push whose
    [CheckoutRequestID] is a string, a success webhook for that key
    with well-formed metadata is acknowledged, and the status query then
    answers 200 with the record completed at the time of the webhook,
    holding what creation stored and, for each of the four metadata
    names, the value of the last item of that name, if any. *)
Theorem X19_push_then_success_then_query
    (process_env : string -> option string) (parseInt : value -> number)
    (axios : request -> result value)
    (body : value) (password_now created_now : Date) (w : world)
    (phone accountRef checkoutRequestId : string)
    (token_data response_data callbackData : value) (now : Date) :
  accepted process_env parseInt axios body password_now phone accountRef
    token_data response_data ->
  field response_data "CheckoutRequestID" = VString checkoutRequestId ->
  truthy (webhook_stkCallback callbackData) = true ->
  webhook_key callbackData = VString checkoutRequestId ->
  webhook_resultCode callbackData = VNum 0 ->
  well_formed_metadata callbackData = true ->
  let w1 := snd (stk_push process_env parseInt axios body password_now created_now w) in
  let items := webhook_items callbackData in
  fst (callback callbackData now w1) = acknowledgment /\
  get_transaction checkoutRequestId (snd (callback callbackData now w1)) =
    mkTransactionResponse 200 true None
      (Some (mkTransaction (formattedPhone phone) (parseInt (field body "amount"))
               (VString accountRef) completed created_now
               (field response_data "CustomerMessage")
               (Some now) (named "Amount" items)
               (named "MpesaReceiptNumber" items)
               (named "TransactionDate" items)
               (named "PhoneNumber" items) None)).
Proof.
  intros Hacc Hid Hstk Hkey Hrc Hwf w1 items. subst w1 items.
  rewrite (stk_push_succeeds _ _ _ _ _ _ _ _ _ _ _ Hacc). cbn [snd].
  rewrite callback_run by (now apply truthy_container_not_nullish).
  cbn [transactions]. rewrite Hstk, Hkey, Hid.
  rewrite has_set_same by (simpl; apply String.eqb_refl).
  cbn [andb fst snd].
  rewrite callback_patch_completes, Hwf, orb_true_r.
  split; [reflexivity|].
  unfold get_transaction. cbn [upd transactions].
  rewrite get_update, get_set by (simpl; apply String.eqb_refl).
  rewrite (success_patch _ _ Hrc Hwf).
  cbn [option_map]. unfold apply, transaction_literal.
  cbn -[formattedPhone named field].
  rewrite !or_else_none. reflexivity.
Qed.

Lemma X19_lifecycle_witness :
  let w1 := snd (stk_push Sample.process_env Sample.parseInt Sample.gateway
                   (Sample.request_body (VNum 250) (VString "INVOICE-2024-000123"))
                   Sample.later Sample.noon Sample.nothing) in
  fst (callback Sample.success_webhook Sample.later w1) = acknowledgment /\
  get_transaction "ws_CO_1" (snd (callback Sample.success_webhook Sample.later w1)) =
    mkTransactionResponse 200 true None
      (Some (mkTransaction "254712345678" (Num 250)
               (VString "INVOICE-2024-000123") completed Sample.noon
               (VString "Success. Request accepted for processing")
               (Some Sample.later) (Some (VNum 100))
               (Some (VString "NLJ7RT61SV")) (Some (VNum 20240101120003))
               (Some (VNum 254712345678)) None)).
Proof.
  exact (X19_push_then_success_then_query Sample.process_env Sample.parseInt Sample.gateway
           (Sample.request_body (VNum 250) (VString "INVOICE-2024-000123"))
           Sample.later Sample.noon Sample.nothing
           "0712345678" "INVOICE-2024-000123" "ws_CO_1" _ _
           Sample.success_webhook Sample.later
           sample_accepted eq_refl eq_refl eq_refl eq_refl eq_refl).
Defined.

(** X20: the other end. After an accepted push whose
    [CheckoutRequestID] is a string, a webhook for that key with any
    result code other than the number [0] is acknowledged, and the
    status query then answers 200 with the record failed, its
    [errorMessage] the webhook's [ResultDesc], and no [completedAt] nor
    metadata. *)
Theorem X20_push_then_failure_then_query
    (process_env : string -> option string) (parseInt : value -> number)
    (axios : request -> result value)
    (body : value) (password_now created_now : Date) (w : world)
    (phone accountRef checkoutRequestId : string)
    (token_data response_data callbackData : value) (now : Date) :
  accepted process_env parseInt axios body password_now phone accountRef
    token_data response_data ->
  field response_data "CheckoutRequestID" = VString checkoutRequestId ->
  truthy (webhook_stkCallback callbackData) = true ->
  webhook_key callbackData = VString checkoutRequestId ->
  webhook_resultCode callbackData <> VNum 0 ->
  let w1 := snd (stk_push process_env parseInt axios body password_now created_now w) in
  fst (callback callbackData now w1) = acknowledgment /\
  get_transaction checkoutRequestId (snd (callback callbackData now w1)) =
    mkTransactionResponse 200 true None
      (Some (mkTransaction (formattedPhone phone) (parseInt (field body "amount"))
               (VString accountRef) failed created_now
               (field response_data "CustomerMessage")
               None None None None None
               (Some (webhook_resultDesc callbackData)))).
Proof.
  intros Hacc Hid Hstk Hkey Hrc w1. subst w1.
  rewrite (stk_push_succeeds _ _ _ _ _ _ _ _ _ _ _ Hacc). cbn [snd].
  rewrite callback_run by (now apply truthy_container_not_nullish).
  cbn [transactions]. rewrite Hstk, Hkey, Hid.
  rewrite has_set_same by (simpl; apply String.eqb_refl).
  cbn [andb fst snd].
  unfold callback_patch. fold (webhook_resultCode callbackData).
  rewrite (strict_equals_nonzero _ Hrc). cbn [fst snd].
  split; [reflexivity|].
  unfold get_transaction. cbn [upd transactions].
  rewrite get_update, get_set by (simpl; apply String.eqb_refl).
  reflexivity.
Qed.

Lemma X20_failure_lifecycle_witness :
  let w1 := snd (stk_push Sample.process_env Sample.parseInt Sample.gateway
                   (Sample.request_body (VNum 250) (VString "INVOICE-2024-000123"))
                   Sample.later Sample.noon Sample.nothing) in
  fst (callback Sample.failure_webhook Sample.later w1) = acknowledgment /\
  get_transaction "ws_CO_1" (snd (callback Sample.failure_webhook Sample.later w1)) =
    mkTransactionResponse 200 true None
      (Some (mkTransaction "254712345678" (Num 250)
               (VString "INVOICE-2024-000123") failed Sample.noon
               (VString "Success. Request accepted for processing")
               None None None None None
               (Some (VString "Request cancelled by user")))).
Proof.
  exact (X20_push_then_failure_then_query Sample.process_env Sample.parseInt Sample.gateway
           (Sample.request_body (VNum 250) (VString "INVOICE-2024-000123"))
           Sample.later Sample.noon Sample.nothing
           "0712345678" "INVOICE-2024-000123" "ws_CO_1" _ _
           Sample.failure_webhook Sample.later
           sample_accepted eq_refl eq_refl eq_refl ltac:(discriminate)).
Defined.

(** ** Diagnostics *)

(** X21: the debug endpoint reports whether the consumer key, the
    consumer secret, the short code and the passkey are set, never their
    values: two environments in which the same ones of the four are set
    (to a non-empty string), and which agree on the callback URL
    variables and on [NODE_ENV], get the same answer. *)
Theorem X21_debug_config_hides_the_secrets
    (env1 env2 : string -> option string) :
  (forall name,
     In name ["MPESA_CONSUMER_KEY"; "MPESA_CONSUMER_SECRET";
              "MPESA_SHORTCODE"; "MPESA_PASSKEY"] ->
     is_set (env1 name) = is_set (env2 name)) ->
  env1 "MPESA_CALLBACK_URL" = env2 "MPESA_CALLBACK_URL" ->
  env1 "VERCEL_URL" = env2 "VERCEL_URL" ->
  env1 "NODE_ENV" = env2 "NODE_ENV" ->
  debug_config_of env1 = debug_config_of env2.
Proof.
  intros Hset Hurl Hvercel Hnode.
  unfold debug_config_of, MPESA_CONFIG.
  cbn [consumerKey consumerSecret shortcode lipaNaMpesaOnlinePasskey callbackUrl].
  rewrite Hurl, Hvercel, Hnode.
  rewrite (Hset "MPESA_CONSUMER_KEY"), (Hset "MPESA_CONSUMER_SECRET"),
    (Hset "MPESA_SHORTCODE"), (Hset "MPESA_PASSKEY");
    cbn [In]; auto 10.
Qed.

Lemma X21_debug_config_witness :
  debug_config_of Sample.process_env =
  debug_config_of
    (fun name =>
       if name =? "MPESA_CALLBACK_URL" then Some "https://shop.example/api/mpesa/callback"
       else if name =? "NODE_ENV" then None
       else if name =? "VERCEL_URL" then None
       else Some "another value").
Proof.
  apply (X21_debug_config_hides_the_secrets Sample.process_env
           (fun name =>
              if name =? "MPESA_CALLBACK_URL"
              then Some "https://shop.example/api/mpesa/callback"
              else if name =? "NODE_ENV" then None
              else if name =? "VERCEL_URL" then None
              else Some "another value")).
  - intros name [<- | [<- | [<- | [<- | []]]]]; reflexivity.
  - reflexivity.
  - reflexivity.
  - reflexivity.
Defined.

Lemma append_not_empty (s t : string) : t <> "" -> s ++ t <> "".
Proof. destruct s; simpl; [auto | discriminate]. Qed.

(** X22: the callback URL of the configuration is never empty. It is
    [MPESA_CALLBACK_URL] when that variable is set to a non-empty string;
    otherwise it is [VERCEL_URL] followed by [/api/mpesa/callback], and
    the text [undefined/api/mpesa/callback] when [VERCEL_URL] is not set
    either. *)
Theorem X22_callbackUrl
    (process_env : string -> option string) :
  let url := callbackUrl (MPESA_CONFIG process_env) in
  url <> "" /\
  (is_set (process_env "MPESA_CALLBACK_URL") = true ->
   process_env "MPESA_CALLBACK_URL" = Some url) /\
  (is_set (process_env "MPESA_CALLBACK_URL") = false ->
   forall host, process_env "VERCEL_URL" = Some host ->
   url = host ++ "/api/mpesa/callback") /\
  (is_set (process_env "MPESA_CALLBACK_URL") = false ->
   process_env "VERCEL_URL" = None ->
   url = "undefined/api/mpesa/callback").
Proof.
  intros url. subst url. unfold MPESA_CONFIG. cbn [callbackUrl].
  destruct (process_env "MPESA_CALLBACK_URL") as [u|]; cbn [is_set].
  - destruct (String.eqb_spec u "") as [->|Hu]; cbn [negb].
    + repeat split; try discriminate.
      * apply append_not_empty. discriminate.
      * intros _ host ->. reflexivity.
      * intros _ ->. reflexivity.
    + repeat split; try discriminate. assumption.
  - repeat split; try discriminate.
    + apply append_not_empty. discriminate.
    + intros _ host ->. reflexivity.
    + intros _ ->. reflexivity.
Qed.

Lemma X22_callbackUrl_witness :
  callbackUrl (MPESA_CONFIG (fun _ => None)) = "undefined/api/mpesa/callback".
Proof.
  exact (proj2 (proj2 (proj2 (X22_callbackUrl (fun _ => None)))) eq_refl eq_refl).
Defined.

(** ** Invariants of the registry *)

Lemma In_update (key : value) (f : transaction -> transaction) (m : Map.t)
    (k : value) (t : transaction) :
  In (k, t) (Map.update key f m) ->
  In (k, t) m \/ exists t0, In (k, t0) m /\ t = f t0.
Proof.
  induction m as [|[e v] m IH]; simpl; [auto|].
  destruct (same_value_zero e key); simpl.
  - intros [[= <- <-] | H]; [right; eauto | auto].
  - intros [H | H]; [auto|].
    destruct (IH H) as [H' | (t0 & H' & ->)]; [auto | right; eauto].
Qed.

Lemma In_set (key : value) (v : transaction) (m : Map.t)
    (k : value) (t : transaction) :
  In (k, t) (Map.set key v m) -> In (k, t) m \/ t = v.
Proof.
  induction m as [|[e x] m IH]; simpl.
  - intros [[= <- <-] | []]. now right.
  - destruct (same_value_zero e key); simpl.
    + intros [[= <- <-] | H]; auto.
    + intros [H | H]; [auto|]. destruct (IH H); auto.
Qed.

Lemma coherent_after_patch (stkCallback : value) (now : Date) (t : transaction) :
  coherent (apply (fst (callback_patch stkCallback now)) t) = true.
Proof.
  unfold coherent, apply. cbn [status completedAt errorMessage].
  destruct (callback_patch_terminal stkCallback now) as [[-> ->] | [-> ->]];
    reflexivity.
Qed.

(** X23: in every state the process can reach, every stored record is
    well formed: its phone starts with [254] and its account reference
    is a non-empty string; while it is pending it has none of the
    properties the callback assigns; once completed it has
    [completedAt]; once failed it has [errorMessage]. *)
Theorem X23_records_are_well_formed
    (process_env : string -> option string) (parseInt : value -> number)
    (w : world) :
  reachable process_env parseInt w ->
  forall k t, In (k, t) (transactions w) ->
    as_created t = true /\ coherent t = true.
Proof.
  induction 1 as [|axios body password_now created_now w Hreach IH
                  |callbackData now w Hreach IH]; intros k t Hin.
  - contradiction.
  - destruct (stk_push_registry process_env parseInt axios body password_now created_now w)
      as [Hsame | (key & ph & ref & message & Hne & Hset & _)].
    + rewrite Hsame in Hin. eauto.
    + rewrite Hset in Hin. apply In_set in Hin as [Hin | ->]; [eauto|].
      split; [|reflexivity].
      unfold as_created, transaction_literal. cbn [phone accountRef].
      destruct (formattedPhone_shape ph) as (rest & -> & _).
      rewrite startsWith_append. cbn [andb].
      apply negb_true_iff. now apply String.eqb_neq.
  - destruct (callback_world callbackData now w) as [Hw | Hw]; rewrite Hw in Hin.
    + eauto.
    + cbn [upd transactions] in Hin.
      apply In_update in Hin as [Hin | (t0 & Hin & ->)]; [eauto|].
      split; [|apply coherent_after_patch].
      destruct (IH k t0 Hin) as [Hc _]. exact Hc.
Qed.

Lemma X23_well_formed_witness :
  let t :=
    mkTransaction "254712345678" (Num 250) (VString "INV1") failed Sample.noon
      (VString "Success. Request accepted for processing")
      None None None None None (Some (VString "Request cancelled by user")) in
  as_created t = true /\ coherent t = true.
Proof.
  apply (X23_records_are_well_formed Sample.process_env Sample.parseInt
           (snd (callback Sample.failure_webhook Sample.later
                   (snd (stk_push Sample.process_env Sample.parseInt Sample.gateway
                           (Sample.request_body (VNum 250) (VString "INV1"))
                           Sample.noon Sample.noon Sample.nothing))))
           ltac:(apply reachable_callback, reachable_stk_push, reachable_start)
           (VString "ws_CO_1")).
  left. reflexivity.
Defined.

Lemma same_value_zero_sym (a b : value) :
  same_value_zero a b = same_value_zero b a.
Proof.
  destruct a as [| |x|[|x| |x h e]|x|x|x], b as [| |y|[|y| |y h' e']|y|y|y];
    try reflexivity.
  - now destruct x, y.
  - apply (number_strict_equals_sym (Infinity x) (Infinity y)).
  - apply (number_strict_equals_sym (Finite x h e) (Finite y h' e')).
  - apply String.eqb_sym.
Qed.

Lemma has_set_inv (k k' : value) (v : transaction) (m : Map.t) :
  Map.has k' (Map.set k v m) = true ->
  Map.has k' m = true \/ same_value_zero k k' = true.
Proof.
  unfold Map.has. induction m as [|[e x] m IH]; simpl.
  - destruct (same_value_zero k k'); auto.
  - destruct (same_value_zero e k) eqn:E; simpl;
      destruct (same_value_zero e k'); auto.
Qed.

Lemma unique_keys_set (k : value) (v : transaction) (m : Map.t) :
  unique_keys m = true -> unique_keys (Map.set k v m) = true.
Proof.
  induction m as [|[e x] m IH]; simpl; [reflexivity|].
  intros H. apply andb_true_iff in H as [He Hm].
  destruct (same_value_zero e k) eqn:E; simpl.
  - now rewrite He, Hm.
  - rewrite (IH Hm), andb_true_r. apply negb_true_iff.
    destruct (Map.has e (Map.set k v m)) eqn:Hhas; [|reflexivity].
    apply has_set_inv in Hhas as [Hhas | Hsame].
    + apply negb_true_iff in He. congruence.
    + rewrite same_value_zero_sym in Hsame. congruence.
Qed.

Lemma unique_keys_update (k : value) (f : transaction -> transaction) (m : Map.t) :
  unique_keys (Map.update k f m) = unique_keys m.
Proof.
  induction m as [|[e x] m IH]; simpl; [reflexivity|].
  destruct (same_value_zero e k); simpl; [reflexivity|].
  now rewrite has_update, IH.
Qed.

(** X24: in every state the process can reach, no two entries of the
    registry have the same key: a key names one record. *)
Theorem X24_keys_are_unique
    (process_env : string -> option string) (parseInt : value -> number)
    (w : world) :
  reachable process_env parseInt w -> unique_keys (transactions w) = true.
Proof.
  induction 1 as [|axios body password_now created_now w Hreach IH
                  |callbackData now w Hreach IH].
  - reflexivity.
  - destruct (stk_push_registry process_env parseInt axios body password_now created_now w)
      as [-> | (key & phone & accountRef & message & _ & -> & _)];
      [assumption | now apply unique_keys_set].
  - destruct (callback_world callbackData now w) as [-> | ->]; [assumption|].
    cbn [upd transactions]. now rewrite unique_keys_update.
Qed.

Lemma X24_keys_are_unique_witness :
  unique_keys
    (transactions
       (snd (stk_push Sample.process_env Sample.parseInt Sample.gateway
               (Sample.request_body (VNum 250) (VString "INV2"))
               Sample.later Sample.later
               (snd (stk_push Sample.process_env Sample.parseInt Sample.gateway
                       (Sample.request_body (VNum 250) (VString "INV1"))
                       Sample.noon Sample.noon Sample.nothing))))) = true.
Proof.
  apply (X24_keys_are_unique Sample.process_env Sample.parseInt).
  apply reachable_stk_push, reachable_stk_push, reachable_start.
Defined.

Lemma update_length (k : value) (f : transaction -> transaction) (m : Map.t) :
  List.length (Map.update k f m) = List.length m.
Proof.
  rewrite <- (length_map fst), update_keys. apply length_map.
Qed.

(** X25: in every state the process can reach, the registry has no
    more records than push requests have been sent to the gateway: a
    record only comes from a push the gateway answered. *)
Theorem X25_records_come_from_pushes
    (process_env : string -> option string) (parseInt : value -> number)
    (w : world) :
  reachable process_env parseInt w ->
  List.length (transactions w) <= List.length (filter is_post (requests w)).
Proof.
  induction 1 as [|axios body password_now created_now w Hreach IH
                  |callbackData now w Hreach IH].
  - simpl. lia.
  - destruct (stk_push_registry process_env parseInt axios body password_now created_now w)
      as [Hsame | (key & phone & accountRef & message & _ & Hset & td & Hreq)].
    + rewrite Hsame.
      destruct (stk_push_issued process_env parseInt axios body password_now created_now w)
        as [H | [H | (p & a & t & _ & _ & _ & H)]];
        rewrite H, ?filter_app, ?length_app; lia.
    + rewrite Hset, Hreq, filter_app, length_app.
      pose proof (set_length key
                    (transaction_literal parseInt (formattedPhone phone) (field body "amount")
                       (VString accountRef) created_now message)
                    (transactions w)).
      cbn. lia.
  - destruct (callback_world callbackData now w) as [-> | ->]; [assumption|].
    cbn [upd transactions requests]. now rewrite update_length.
Qed.

Lemma X25_records_come_from_pushes_witness :
  List.length
    (transactions
       (snd (stk_push Sample.process_env Sample.parseInt Sample.gateway
               (Sample.request_body (VNum 250) (VString "INV1"))
               Sample.noon Sample.noon Sample.nothing))) <=
  List.length
    (filter is_post
       (requests
          (snd (stk_push Sample.process_env Sample.parseInt Sample.gateway
                  (Sample.request_body (VNum 250) (VString "INV1"))
                  Sample.noon Sample.noon Sample.nothing)))).
Proof.
  apply (X25_records_come_from_pushes Sample.process_env Sample.parseInt).
  apply reachable_stk_push, reachable_start.
Defined.

(** ** Webhooks for different payments *)

Lemma update_commute (k1 k2 : value) (f g : transaction -> transaction) (m : Map.t) :
  k1 <> k2 ->
  Map.update k1 f (Map.update k2 g m) = Map.update k2 g (Map.update k1 f m).
Proof.
  intros Hne. induction m as [|[e v] m IH]; simpl; [reflexivity|].
  destruct (same_value_zero e k2) eqn:E2, (same_value_zero e k1) eqn:E1;
    simpl; rewrite ?E1, ?E2; try reflexivity.
  - apply same_value_zero_eq in E1, E2. congruence.
  - now rewrite IH.
Qed.

(** X26: a webhook only ever touches the record under its own
    [CheckoutRequestID]: whatever the body, the record under any other
    key is after the callback what it was before. *)
Theorem X26_callback_is_local
    (callbackData : value) (now : Date) (w : world) (k : value) :
  k <> webhook_key callbackData ->
  Map.get k (transactions (snd (callback callbackData now w))) =
  Map.get k (transactions w).
Proof.
  intros Hk.
  destruct (callback_world callbackData now w) as [-> | ->]; [reflexivity|].
  cbn [upd transactions]. now apply get_update_other.
Qed.

Lemma X26_callback_is_local_witness :
  Map.get (VString "ws_CO_2")
    (transactions (snd (callback Sample.success_webhook Sample.later
                          Sample.one_pending))) =
  Map.get (VString "ws_CO_2") (transactions Sample.one_pending).
Proof.
  exact (X26_callback_is_local Sample.success_webhook Sample.later
           Sample.one_pending (VString "ws_CO_2") ltac:(discriminate)).
Defined.

(** The effect of a webhook on the registry is one update under its
    key, the same whatever the registry. *)
Lemma callback_as_update (callbackData : value) (now : Date) :
  exists f, forall w,
    transactions (snd (callback callbackData now w)) =
    Map.update (webhook_key callbackData) f (transactions w).
Proof.
  destruct (nullish callbackData) eqn:Hbody.
  { exists (fun t => t). intros w. now rewrite callback_nullish, update_id. }
  destruct (truthy (webhook_stkCallback callbackData)) eqn:Hstk.
  - exists (apply (fst (callback_patch (webhook_stkCallback callbackData) now))).
    intros w. rewrite callback_run by assumption. rewrite Hstk. cbn [andb].
    destruct (Map.has (webhook_key callbackData) (transactions w)) eqn:Hhas.
    + reflexivity.
    + cbn [snd]. now rewrite update_absent.
  - exists (fun t => t). intros w. rewrite callback_run by assumption.
    rewrite Hstk. cbn [andb snd]. now rewrite update_id.
Qed.

(** X27: webhooks for different keys commute: delivered in either
    order, each at its own time, they leave the same registry. *)
Theorem X27_callbacks_commute
    (b1 b2 : value) (d1 d2 : Date) (w : world) :
  webhook_key b1 <> webhook_key b2 ->
  transactions (snd (callback b2 d2 (snd (callback b1 d1 w)))) =
  transactions (snd (callback b1 d1 (snd (callback b2 d2 w)))).
Proof.
  intros Hne.
  destruct (callback_as_update b1 d1) as [f1 H1].
  destruct (callback_as_update b2 d2) as [f2 H2].
  rewrite H2, H1, H1, H2. symmetry. now apply update_commute.
Qed.

Lemma X27_callbacks_commute_witness :
  let other :=
    VObject [("Body", VObject [("stkCallback", VObject
      [("CheckoutRequestID", VString "ws_CO_2"); ("ResultCode", VNum 1);
       ("ResultDesc", VString "Insufficient balance")])])] in
  transactions
    (snd (callback other Sample.later
            (snd (callback Sample.success_webhook Sample.noon Sample.one_pending)))) =
  transactions
    (snd (callback Sample.success_webhook Sample.noon
            (snd (callback other Sample.later Sample.one_pending)))).
Proof.
  exact (X27_callbacks_commute Sample.success_webhook
           (VObject [("Body", VObject [("stkCallback", VObject
              [("CheckoutRequestID", VString "ws_CO_2"); ("ResultCode", VNum 1);
               ("ResultDesc", VString "Insufficient balance")])])])
           Sample.noon Sample.later Sample.one_pending ltac:(discriminate)).
Defined.

(** ** Reading Base64 and UTF-8 back *)

Lemma base64_char_of (n : N) : base64_char n = String (char_of n) EmptyString.
Proof.
  unfold base64_char, char_of.
  now destruct (String.get (N.to_nat n) base64_alphabet).
Qed.

Lemma sextet_round_trip_below_64 (n : N) :
  (n < 64)%N -> sextet_round_trip n = true.
Proof. apply (checked_below sextet_round_trip 64%N). vm_compute. reflexivity. Qed.

Lemma sextet_of_char_of (n : N) : (n < 64)%N -> sextet_of (char_of n) = n.
Proof.
  intros H. apply sextet_round_trip_below_64 in H.
  apply andb_true_iff in H as [H _]. now apply N.eqb_eq.
Qed.

Lemma char_of_not_pad (n : N) : (n < 64)%N -> Ascii.eqb (char_of n) "=" = false.
Proof.
  intros H. apply sextet_round_trip_below_64 in H.
  apply andb_true_iff in H as [_ H]. now apply negb_true_iff.
Qed.

Lemma list_ind3 {A} (P : list A -> Prop) :
  P [] -> (forall a, P [a]) -> (forall a b, P [a; b]) ->
  (forall a b c l, P l -> P (a :: b :: c :: l)) ->
  forall l, P l.
Proof.
  intros H0 H1 H2 H3.
  fix IH 1. intros [|a [|b [|c l]]]; [exact H0 | apply H1 | apply H2 |].
  apply H3, IH.
Qed.

(** Arithmetic with quotients and remainders by constants. *)
Ltac euclid := zify; Z.to_euclidean_division_equations; lia.

Lemma base64_decode_encode (bytes : list N) :
  Forall (fun b => (b < 256)%N) bytes ->
  base64_decode (base64 bytes) = bytes.
Proof.
  induction bytes as [|a|a b|a b c l IH] using list_ind3; intros Hall.
  - reflexivity.
  - inversion Hall as [|? ? Ha _]; subst.
    cbn [base64]. rewrite !base64_char_of. cbn [append base64_decode].
    change (Ascii.eqb "=" "=") with true. cbv beta iota zeta.
    rewrite !sextet_of_char_of by euclid. f_equal. euclid.
  - inversion Hall as [|? ? Ha Hall']; subst.
    inversion Hall' as [|? ? Hb _]; subst.
    cbn [base64]. rewrite !base64_char_of. cbn [append base64_decode].
    rewrite char_of_not_pad by euclid.
    change (Ascii.eqb "=" "=") with true. cbv beta iota zeta.
    rewrite !sextet_of_char_of by euclid. repeat f_equal; euclid.
  - inversion Hall as [|? ? Ha Hall1]; subst.
    inversion Hall1 as [|? ? Hb Hall2]; subst.
    inversion Hall2 as [|? ? Hc Hall3]; subst.
    cbn [base64]. rewrite !base64_char_of. cbn [append base64_decode].
    rewrite !char_of_not_pad by euclid. cbv beta iota zeta.
    rewrite !sextet_of_char_of by euclid. rewrite (IH Hall3).
    repeat f_equal; euclid.
Qed.

Lemma utf8_bytes (str : string) : Forall (fun b => (b < 256)%N) (utf8 str).
Proof.
  induction str as [|a rest IH]; cbn [utf8]; [constructor|].
  pose proof (N_ascii_bounded a) as Ha.
  destruct (N_of_ascii a <? 128)%N eqn:E.
  - constructor; [lia | exact IH].
  - constructor; [euclid|]. constructor; [euclid | exact IH].
Qed.

Lemma utf8_decode_encode (str : string) : utf8_decode (utf8 str) = str.
Proof.
  induction str as [|a rest IH]; cbn [utf8]; [reflexivity|].
  pose proof (N_ascii_bounded a) as Ha.
  destruct (N_of_ascii a <? 128)%N eqn:E.
  - cbn [utf8_decode]. rewrite E, IH, ascii_N_embedding. reflexivity.
  - apply N.ltb_ge in E. cbn [utf8_decode].
    replace (192 + N_of_ascii a / 64 <? 128)%N with false
      by (symmetry; apply N.ltb_ge; euclid).
    rewrite IH. f_equal.
    replace ((192 + N_of_ascii a / 64 - 192) * 64 + (128 + N_of_ascii a mod 64 - 128))%N
      with (N_of_ascii a) by euclid.
    apply ascii_N_embedding.
Qed.

Lemma base64Encode_read_back (str : string) :
  utf8_decode (base64_decode (base64Encode str)) = str.
Proof.
  unfold base64Encode.
  now rewrite base64_decode_encode, utf8_decode_encode by apply utf8_bytes.
Qed.

(** ** The timestamp and the password *)

Lemma slice_append (n : nat) (a b : string) :
  String.length a = n -> Str.slice n (a ++ b) = b.
Proof.
  revert n. induction a as [|c a IH]; intros n Hn; simpl in Hn; subst n.
  - reflexivity.
  - simpl. now apply IH.
Qed.

Lemma take_append (n : nat) (a b : string) :
  String.length a = n -> Str.take n (a ++ b) = a.
Proof.
  revert n. induction a as [|c a IH]; intros n Hn; simpl in Hn; subst n.
  - reflexivity.
  - simpl. f_equal. now apply IH.
Qed.

Lemma slice_slice (n m : nat) (s : string) :
  Str.slice m (Str.slice n s) = Str.slice (n + m) s.
Proof.
  revert s. induction n as [|n IH]; intros s.
  - reflexivity.
  - destruct s as [|c s]; simpl.
    + now destruct m.
    + apply IH.
Qed.

Lemma digits_of_spec (len : nat) (n : N) (s : string) :
  digits_of len n s = true ->
  String.length s = len /\ all_digits s = true /\ decimal s = Some n.
Proof.
  unfold digits_of. intros H.
  apply andb_true_iff in H as [H Hn]. apply andb_true_iff in H as [Hlen Hd].
  apply Nat.eqb_eq in Hlen.
  destruct (decimal s) as [m|]; [|discriminate].
  apply N.eqb_eq in Hn. now subst.
Qed.

(** X5: for the date of a four-digit year the timestamp of
    [generatePassword] has the layout [YYYYMMDDHHmmss]: 14 decimal
    digits, of which the first four denote the year, the next two the
    month counted from 1 ([getMonth() + 1]), then two each for the day,
    the hours, the minutes and the seconds, in this order. The password
    is Base64 text from which the short code, the passkey and that
    timestamp are read back. *)
Theorem X5_timestamp_has_14_digits
    (process_env : string -> option string) (now : Date) :
  calendar now ->
  let (password, timestamp) := generatePassword process_env now in
  String.length timestamp = 14 /\ all_digits timestamp = true /\
  decimal (Str.substring 0 4 timestamp) = Some (getFullYear now) /\
  decimal (Str.substring 4 6 timestamp) = Some (getMonth now + 1)%N /\
  decimal (Str.substring 6 8 timestamp) = Some (getDate now) /\
  decimal (Str.substring 8 10 timestamp) = Some (getHours now) /\
  decimal (Str.substring 10 12 timestamp) = Some (getMinutes now) /\
  decimal (Str.substring 12 14 timestamp) = Some (getSeconds now) /\
  utf8_decode (base64_decode password) =
    template (process_env "MPESA_SHORTCODE") ++
    template (process_env "MPESA_PASSKEY") ++ timestamp.
Proof.
  intros (Hy & Hm & Hd & Hh & Hmin & Hs).
  unfold generatePassword.
  assert (H4 := four_digits_below_10000 (getFullYear now) ltac:(lia)).
  assert (Hmo := two_digits_below_100 (getMonth now + 1) ltac:(lia)).
  assert (Hda := two_digits_below_100 (getDate now) ltac:(lia)).
  assert (Hho := two_digits_below_100 (getHours now) ltac:(lia)).
  assert (Hmi := two_digits_below_100 (getMinutes now) ltac:(lia)).
  assert (Hse := two_digits_below_100 (getSeconds now) ltac:(lia)).
  unfold four_digits in H4.
  replace (getFullYear now <? 1000)%N with false in H4
    by (symmetry; apply N.ltb_ge; lia).
  unfold two_digits in *. cbn [orb] in H4.
  apply digits_of_spec in H4 as (L4 & D4 & V4), Hmo as (Lmo & Dmo & Vmo),
    Hda as (Lda & Dda & Vda), Hho as (Lho & Dho & Vho),
    Hmi as (Lmi & Dmi & Vmi), Hse as (Lse & Dse & Vse).
  set (Y := Str.ofN (getFullYear now)) in *.
  set (Mo := Str.padStart 2 "0" (Str.ofN (getMonth now + 1))) in *.
  set (Da := Str.padStart 2 "0" (Str.ofN (getDate now))) in *.
  set (Ho := Str.padStart 2 "0" (Str.ofN (getHours now))) in *.
  set (Mi := Str.padStart 2 "0" (Str.ofN (getMinutes now))) in *.
  set (Se := Str.padStart 2 "0" (Str.ofN (getSeconds now))) in *.
  assert (S4 : Str.slice 4 (Y ++ Mo ++ Da ++ Ho ++ Mi ++ Se)
               = Mo ++ Da ++ Ho ++ Mi ++ Se) by now apply slice_append.
  assert (S6 : Str.slice 6 (Y ++ Mo ++ Da ++ Ho ++ Mi ++ Se)
               = Da ++ Ho ++ Mi ++ Se).
  { rewrite <- (slice_slice 4 2), S4. now apply slice_append. }
  assert (S8 : Str.slice 8 (Y ++ Mo ++ Da ++ Ho ++ Mi ++ Se) = Ho ++ Mi ++ Se).
  { rewrite <- (slice_slice 6 2), S6. now apply slice_append. }
  assert (S10 : Str.slice 10 (Y ++ Mo ++ Da ++ Ho ++ Mi ++ Se) = Mi ++ Se).
  { rewrite <- (slice_slice 8 2), S8. now apply slice_append. }
  assert (S12 : Str.slice 12 (Y ++ Mo ++ Da ++ Ho ++ Mi ++ Se) = Se).
  { rewrite <- (slice_slice 10 2), S10. now apply slice_append. }
  unfold Str.substring.
  change (Str.slice 0 (Y ++ Mo ++ Da ++ Ho ++ Mi ++ Se))
    with (Y ++ Mo ++ Da ++ Ho ++ Mi ++ Se).
  rewrite S4, S6, S8, S10, S12.
  change (4 - 0) with 4. change (6 - 4) with 2. change (8 - 6) with 2.
  change (10 - 8) with 2. change (12 - 10) with 2. change (14 - 12) with 2.
  rewrite !take_append by assumption.
  replace (Str.take 2 Se) with Se by (symmetry; apply take_all; lia).
  repeat split; try assumption.
  - rewrite !length_append. lia.
  - rewrite !all_digits_append, D4, Dmo, Dda, Dho, Dmi, Dse. reflexivity.
  - apply base64Encode_read_back.
Qed.

Lemma X5_timestamp_witness :
  let (password, timestamp) := generatePassword Sample.process_env Sample.later in
  timestamp = "20240101120005" /\
  decimal (Str.substring 4 6 timestamp) = Some (getMonth Sample.later + 1)%N /\
  decimal (Str.substring 12 14 timestamp) = Some (getSeconds Sample.later).
Proof.
  assert (H : calendar Sample.later) by (unfold calendar; cbn; lia).
  pose proof (X5_timestamp_has_14_digits Sample.process_env Sample.later H) as Hx.
  cbv beta iota delta [generatePassword] in Hx. cbv zeta in Hx.
  destruct Hx as (_ & _ & _ & Hmonth & _ & _ & _ & Hseconds & _).
  split; [reflexivity|]. split; [exact Hmonth | exact Hseconds].
Defined.

(** ** Base64 loses nothing *)

(** X29: on the strings of this development, whose code units are all
    below 256, [base64Encode] loses nothing: the text is read back by
    decoding the Base64 and then the UTF-8, and so two different
    strings get different encodings. *)
Theorem X29_base64Encode_round_trip (str : string) :
  utf8_decode (base64_decode (base64Encode str)) = str /\
  forall other, other <> str -> base64Encode other <> base64Encode str.
Proof.
  split; [apply base64Encode_read_back|].
  intros other Hne H. apply Hne.
  rewrite <- (base64Encode_read_back other), H. apply base64Encode_read_back.
Qed.
